(** * Publish scheduling of the tracker's location service

    A shallow embedding of [src/tracker_location.cpp] (class
    [TrackerLocation]): the configuration transaction, the pending trigger
    set, the publish evaluator, the sleep preparation hook, the payload
    builder with its enrichment blocks, the single-slot retry engine and the
    main [loop].

    Conventions.
    - A [uint32_t] or [unsigned int] value is a [Z]; every arithmetic
      operation the source performs on it is followed by [u32], its
      wrap-around.  [int32_t] values are [Z] as well, [i32] is the
      conversion to the signed range.
    - A [const char *] is the [string] of the characters before its
      terminator; [nullptr] is [None].
    - The member variables of the class are the fields of the record
      [TrackerLocation], under their source names.  The collaborators the
      class talks to (cloud service, sleep service, location service, WiFi)
      are not part of the repository's sources: what the class hands to them
      is appended to a log field of the record, what they answer is an
      argument of the function that asks. *)

From Stdlib Require Import ZArith List String Ascii Bool Lia.
Import ListNotations.
Open Scope Z_scope.

(** ** Machine integers *)

Definition u32 (z : Z) : Z := z mod 2 ^ 32.
Definition i32 (z : Z) : Z := (z + 2 ^ 31) mod 2 ^ 32 - 2 ^ 31.

(** ** Constants of the translation unit *)

Definition LoopSampleRate : Z := 1000.
Definition EarlySleepSec : Z := 2.
Definition MiscSleepWakeSec : Z := 3.
Definition LockTimeoutSec : Z := 10.

(** The two size estimates are [sizeof(literal) - 1]; the literals are
    rebuilt here, [dq] being the double quote. *)
Definition dq : string := String (ascii_of_nat 34) EmptyString.

Definition WpsHeaderLiteral : string :=
  ("," ++ "{" ++ dq ++ "wps" ++ dq ++ ":[]}")%string.
Definition WpsDataLiteral : string :=
  ("{" ++ dq ++ "bssid" ++ dq ++ ":" ++ dq ++ "00:11:22:33:44:55" ++ dq
   ++ "," ++ dq ++ "ch" ++ dq ++ ":99," ++ dq ++ "str" ++ dq ++ ":-999},")%string.

Definition ObjectEstimateWpsHeaderSize : Z :=
  Eval cbv in Z.of_nat (String.length WpsHeaderLiteral).
Definition ObjectEstimateWpsDataSize : Z :=
  Eval cbv in Z.of_nat (String.length WpsDataLiteral).

(** [errno] values of the toolchain's C library. *)
Definition EBUSY : Z := 16.
Definition EINVAL : Z := 22.
Definition SYSTEM_ERROR_NONE : Z := 0.

(** ** Enumerations *)

Module PublishReason.
Inductive t : Set := NONE | TIME | TRIGGERS | IMMEDIATE.
End PublishReason.

Module Trigger.
Inductive t : Set := NORMAL | IMMEDIATE.
End Trigger.

Module GnssState.
Inductive t : Set :=
  DISABLED | OFF | ERROR | ON_UNLOCKED | ON_LOCKED_UNSTABLE | ON_LOCKED_STABLE.

Definition eqb (a b : t) : bool :=
  match a, b with
  | DISABLED, DISABLED | OFF, OFF | ERROR, ERROR
  | ON_UNLOCKED, ON_UNLOCKED | ON_LOCKED_UNSTABLE, ON_LOCKED_UNSTABLE
  | ON_LOCKED_STABLE, ON_LOCKED_STABLE => true
  | _, _ => false
  end.
End GnssState.

Module CloudServiceStatus.
(** [UNEXPECTED] stands for any value outside the three enumerators, which
    the completion handler has a branch for. *)
Inductive t : Set := SUCCESS | FAILURE | TIMEOUT | UNEXPECTED (code : Z).
End CloudServiceStatus.

Module RadioAccessTechnology.
Inductive t : Set := NONE | LTE | LTE_CAT_M1 | LTE_NB_IOT.
End RadioAccessTechnology.

Module TrackerSleepError.
(** Only [TIME_IN_PAST] is told apart by this translation unit. *)
Inductive t : Set := NONE | TIME_IN_PAST.
End TrackerSleepError.

(** ** Plain data *)

Record tracker_location_config_t : Set := mkConfig {
  interval_min_seconds : Z;
  interval_max_seconds : Z;
  min_publish : bool;
  lock_trigger : bool;
  process_ack : bool;
  tower : bool;
  gnss : bool;
  wps : bool;
  enhance_loc : bool;
  loc_cb : bool
}.

Record EvaluationResults : Set := mkEvaluationResults {
  reason : PublishReason.t;
  networkNeeded : bool;
  lockWait : bool
}.

(** A [float] is carried as its bit pattern and never computed with. *)
Definition float : Set := Z.

Record LocationPoint : Set := mkLocationPoint {
  locked : bool;
  stable : bool;
  epochTime : Z;
  latitude : float;
  longitude : float;
  altitude : float;
  heading : float;
  speed : float;
  horizontalAccuracy : float;
  verticalAccuracy : float
}.

Definition LocationPoint_default : LocationPoint :=
  mkLocationPoint false false 0 0 0 0 0 0 0 0.

Record CellularServing : Set := mkCellularServing {
  serving_rat : RadioAccessTechnology.t;
  mcc : Z;
  mnc : Z;
  cellId : Z;
  tac : Z;
  serving_signalPower : Z
}.

Record CellularNeighbors : Set := mkCellularNeighbors {
  neighbor_rat : RadioAccessTechnology.t;
  earfcn : Z;
  neighborId : Z;
  signalQuality : Z;
  signalPower : Z;
  signalStrength : Z
}.

Record WiFiAccessPoint : Set := mkWiFiAccessPoint {
  bssid : list Z;
  channel : Z;
  rssi : Z
}.

(** The calls made on the cloud service's JSON writer, in order.
    [JbeginCommand] is the cloud service's own [beginCommand], which starts
    a fresh message. *)
Inductive jevent : Set :=
| JbeginCommand (cmd : string)
| Jname (n : string)
| JbeginObject
| JendObject
| JbeginArray
| JendArray
| Jint (v : Z)
| Juint (v : Z)
| Jbool (v : bool)
| Jstring (v : string)
| Jfloat (v : float) (precision : Z).

(** A registered completion callback is known by its identity; calling it
    leaves a [CallbackCall] in the log. *)
Definition callback : Set := nat.

Record CallbackCall : Set := mkCallbackCall {
  cc_callback : callback;
  cc_status : CloudServiceStatus.t;
  cc_rsp_root : option string;
  cc_req_event : option string
}.

(** Calls into the sleep, location and WiFi services. *)
Inductive ServiceCall : Set :=
| forceFullWakeCycle
| wakeAtSeconds (wake : Z)
| LocationService_start
| LocationService_stop
| WiFi_on
| WiFi_off
| setWayPoint (lat lon : float).

(** ** What the headers fix

    [tracker_location.h] and the cloud service are not among the sources:
    the two collection limits and the writer's measures are parameters. *)

Class TrackerLimits : Set := {
  TrackerLocationMaxTowerSend : Z;
  TrackerLocationMaxWpsCollect : Z
}.

Class CloudWriter : Set := {
  (** [writer().buffer()] after the given calls *)
  writer_buffer : list jevent -> string;
  (** [writer().dataSize()] after the given calls *)
  writer_dataSize : list jevent -> Z;
  (** [writer().bufferSize()] *)
  writer_bufferSize : Z;
  estimatedEndCommandSize : Z
}.

(** ** The object *)

Record TrackerLocation : Type := mkTrackerLocation {
  _config_state : tracker_location_config_t;
  _config_state_shadow : tracker_location_config_t;
  _config_state_loop_safe : tracker_location_config_t;
  _pending_triggers : list string;
  _pending_immediate : bool;
  _first_publish : bool;
  _pending_first_publish : bool;
  _newMonotonic : bool;
  _last_location_publish_sec : Z;
  _monotonic_publish_sec : Z;
  _gnssStartedSec : Z;
  _firstLockSec : Z;
  _nextEarlyWake : Z;
  _earlyWake : Z;
  _loopSampleTick : Z;
  _lastGnssState : GnssState.t;
  location_publish_retry_str : option string;
  locGenCallbacks : list (LocationPoint -> list jevent);
  locPubCallbacks : list callback;
  pendingLocPubCallbacks : list callback;
  servingTower : CellularServing;
  towerList : list CellularNeighbors;
  wpsList : list WiFiAccessPoint;
  cloud_writer : list jevent;
  cloud_sent : list string;
  callback_log : list CallbackCall;
  service_log : list ServiceCall
}.

Definition set_config_state (v : tracker_location_config_t) (s : TrackerLocation) : TrackerLocation :=
  mkTrackerLocation
    v (_config_state_shadow s) (_config_state_loop_safe s)
    (_pending_triggers s) (_pending_immediate s) (_first_publish s)
    (_pending_first_publish s) (_newMonotonic s)
    (_last_location_publish_sec s) (_monotonic_publish_sec s)
    (_gnssStartedSec s) (_firstLockSec s) (_nextEarlyWake s) (_earlyWake s)
    (_loopSampleTick s) (_lastGnssState s) (location_publish_retry_str s)
    (locGenCallbacks s) (locPubCallbacks s) (pendingLocPubCallbacks s)
    (servingTower s) (towerList s) (wpsList s) (cloud_writer s) (cloud_sent s)
    (callback_log s) (service_log s).

Definition set_config_state_shadow (v : tracker_location_config_t) (s : TrackerLocation) : TrackerLocation :=
  mkTrackerLocation
    (_config_state s) v (_config_state_loop_safe s) (_pending_triggers s)
    (_pending_immediate s) (_first_publish s) (_pending_first_publish s)
    (_newMonotonic s) (_last_location_publish_sec s)
    (_monotonic_publish_sec s) (_gnssStartedSec s) (_firstLockSec s)
    (_nextEarlyWake s) (_earlyWake s) (_loopSampleTick s) (_lastGnssState s)
    (location_publish_retry_str s) (locGenCallbacks s) (locPubCallbacks s)
    (pendingLocPubCallbacks s) (servingTower s) (towerList s) (wpsList s)
    (cloud_writer s) (cloud_sent s) (callback_log s) (service_log s).

Definition set_config_state_loop_safe (v : tracker_location_config_t) (s : TrackerLocation) : TrackerLocation :=
  mkTrackerLocation
    (_config_state s) (_config_state_shadow s) v (_pending_triggers s)
    (_pending_immediate s) (_first_publish s) (_pending_first_publish s)
    (_newMonotonic s) (_last_location_publish_sec s)
    (_monotonic_publish_sec s) (_gnssStartedSec s) (_firstLockSec s)
    (_nextEarlyWake s) (_earlyWake s) (_loopSampleTick s) (_lastGnssState s)
    (location_publish_retry_str s) (locGenCallbacks s) (locPubCallbacks s)
    (pendingLocPubCallbacks s) (servingTower s) (towerList s) (wpsList s)
    (cloud_writer s) (cloud_sent s) (callback_log s) (service_log s).

Definition set_pending_triggers (v : list string) (s : TrackerLocation) : TrackerLocation :=
  mkTrackerLocation
    (_config_state s) (_config_state_shadow s) (_config_state_loop_safe s) v
    (_pending_immediate s) (_first_publish s) (_pending_first_publish s)
    (_newMonotonic s) (_last_location_publish_sec s)
    (_monotonic_publish_sec s) (_gnssStartedSec s) (_firstLockSec s)
    (_nextEarlyWake s) (_earlyWake s) (_loopSampleTick s) (_lastGnssState s)
    (location_publish_retry_str s) (locGenCallbacks s) (locPubCallbacks s)
    (pendingLocPubCallbacks s) (servingTower s) (towerList s) (wpsList s)
    (cloud_writer s) (cloud_sent s) (callback_log s) (service_log s).

Definition set_pending_immediate (v : bool) (s : TrackerLocation) : TrackerLocation :=
  mkTrackerLocation
    (_config_state s) (_config_state_shadow s) (_config_state_loop_safe s)
    (_pending_triggers s) v (_first_publish s) (_pending_first_publish s)
    (_newMonotonic s) (_last_location_publish_sec s)
    (_monotonic_publish_sec s) (_gnssStartedSec s) (_firstLockSec s)
    (_nextEarlyWake s) (_earlyWake s) (_loopSampleTick s) (_lastGnssState s)
    (location_publish_retry_str s) (locGenCallbacks s) (locPubCallbacks s)
    (pendingLocPubCallbacks s) (servingTower s) (towerList s) (wpsList s)
    (cloud_writer s) (cloud_sent s) (callback_log s) (service_log s).

Definition set_first_publish (v : bool) (s : TrackerLocation) : TrackerLocation :=
  mkTrackerLocation
    (_config_state s) (_config_state_shadow s) (_config_state_loop_safe s)
    (_pending_triggers s) (_pending_immediate s) v (_pending_first_publish s)
    (_newMonotonic s) (_last_location_publish_sec s)
    (_monotonic_publish_sec s) (_gnssStartedSec s) (_firstLockSec s)
    (_nextEarlyWake s) (_earlyWake s) (_loopSampleTick s) (_lastGnssState s)
    (location_publish_retry_str s) (locGenCallbacks s) (locPubCallbacks s)
    (pendingLocPubCallbacks s) (servingTower s) (towerList s) (wpsList s)
    (cloud_writer s) (cloud_sent s) (callback_log s) (service_log s).

Definition set_pending_first_publish (v : bool) (s : TrackerLocation) : TrackerLocation :=
  mkTrackerLocation
    (_config_state s) (_config_state_shadow s) (_config_state_loop_safe s)
    (_pending_triggers s) (_pending_immediate s) (_first_publish s) v
    (_newMonotonic s) (_last_location_publish_sec s)
    (_monotonic_publish_sec s) (_gnssStartedSec s) (_firstLockSec s)
    (_nextEarlyWake s) (_earlyWake s) (_loopSampleTick s) (_lastGnssState s)
    (location_publish_retry_str s) (locGenCallbacks s) (locPubCallbacks s)
    (pendingLocPubCallbacks s) (servingTower s) (towerList s) (wpsList s)
    (cloud_writer s) (cloud_sent s) (callback_log s) (service_log s).

Definition set_newMonotonic (v : bool) (s : TrackerLocation) : TrackerLocation :=
  mkTrackerLocation
    (_config_state s) (_config_state_shadow s) (_config_state_loop_safe s)
    (_pending_triggers s) (_pending_immediate s) (_first_publish s)
    (_pending_first_publish s) v (_last_location_publish_sec s)
    (_monotonic_publish_sec s) (_gnssStartedSec s) (_firstLockSec s)
    (_nextEarlyWake s) (_earlyWake s) (_loopSampleTick s) (_lastGnssState s)
    (location_publish_retry_str s) (locGenCallbacks s) (locPubCallbacks s)
    (pendingLocPubCallbacks s) (servingTower s) (towerList s) (wpsList s)
    (cloud_writer s) (cloud_sent s) (callback_log s) (service_log s).

Definition set_last_location_publish_sec (v : Z) (s : TrackerLocation) : TrackerLocation :=
  mkTrackerLocation
    (_config_state s) (_config_state_shadow s) (_config_state_loop_safe s)
    (_pending_triggers s) (_pending_immediate s) (_first_publish s)
    (_pending_first_publish s) (_newMonotonic s) v (_monotonic_publish_sec s)
    (_gnssStartedSec s) (_firstLockSec s) (_nextEarlyWake s) (_earlyWake s)
    (_loopSampleTick s) (_lastGnssState s) (location_publish_retry_str s)
    (locGenCallbacks s) (locPubCallbacks s) (pendingLocPubCallbacks s)
    (servingTower s) (towerList s) (wpsList s) (cloud_writer s) (cloud_sent s)
    (callback_log s) (service_log s).

Definition set_monotonic_publish_sec (v : Z) (s : TrackerLocation) : TrackerLocation :=
  mkTrackerLocation
    (_config_state s) (_config_state_shadow s) (_config_state_loop_safe s)
    (_pending_triggers s) (_pending_immediate s) (_first_publish s)
    (_pending_first_publish s) (_newMonotonic s)
    (_last_location_publish_sec s) v (_gnssStartedSec s) (_firstLockSec s)
    (_nextEarlyWake s) (_earlyWake s) (_loopSampleTick s) (_lastGnssState s)
    (location_publish_retry_str s) (locGenCallbacks s) (locPubCallbacks s)
    (pendingLocPubCallbacks s) (servingTower s) (towerList s) (wpsList s)
    (cloud_writer s) (cloud_sent s) (callback_log s) (service_log s).

Definition set_gnssStartedSec (v : Z) (s : TrackerLocation) : TrackerLocation :=
  mkTrackerLocation
    (_config_state s) (_config_state_shadow s) (_config_state_loop_safe s)
    (_pending_triggers s) (_pending_immediate s) (_first_publish s)
    (_pending_first_publish s) (_newMonotonic s)
    (_last_location_publish_sec s) (_monotonic_publish_sec s) v
    (_firstLockSec s) (_nextEarlyWake s) (_earlyWake s) (_loopSampleTick s)
    (_lastGnssState s) (location_publish_retry_str s) (locGenCallbacks s)
    (locPubCallbacks s) (pendingLocPubCallbacks s) (servingTower s)
    (towerList s) (wpsList s) (cloud_writer s) (cloud_sent s) (callback_log s)
    (service_log s).

Definition set_firstLockSec (v : Z) (s : TrackerLocation) : TrackerLocation :=
  mkTrackerLocation
    (_config_state s) (_config_state_shadow s) (_config_state_loop_safe s)
    (_pending_triggers s) (_pending_immediate s) (_first_publish s)
    (_pending_first_publish s) (_newMonotonic s)
    (_last_location_publish_sec s) (_monotonic_publish_sec s)
    (_gnssStartedSec s) v (_nextEarlyWake s) (_earlyWake s)
    (_loopSampleTick s) (_lastGnssState s) (location_publish_retry_str s)
    (locGenCallbacks s) (locPubCallbacks s) (pendingLocPubCallbacks s)
    (servingTower s) (towerList s) (wpsList s) (cloud_writer s) (cloud_sent s)
    (callback_log s) (service_log s).

Definition set_nextEarlyWake (v : Z) (s : TrackerLocation) : TrackerLocation :=
  mkTrackerLocation
    (_config_state s) (_config_state_shadow s) (_config_state_loop_safe s)
    (_pending_triggers s) (_pending_immediate s) (_first_publish s)
    (_pending_first_publish s) (_newMonotonic s)
    (_last_location_publish_sec s) (_monotonic_publish_sec s)
    (_gnssStartedSec s) (_firstLockSec s) v (_earlyWake s) (_loopSampleTick s)
    (_lastGnssState s) (location_publish_retry_str s) (locGenCallbacks s)
    (locPubCallbacks s) (pendingLocPubCallbacks s) (servingTower s)
    (towerList s) (wpsList s) (cloud_writer s) (cloud_sent s) (callback_log s)
    (service_log s).

Definition set_earlyWake (v : Z) (s : TrackerLocation) : TrackerLocation :=
  mkTrackerLocation
    (_config_state s) (_config_state_shadow s) (_config_state_loop_safe s)
    (_pending_triggers s) (_pending_immediate s) (_first_publish s)
    (_pending_first_publish s) (_newMonotonic s)
    (_last_location_publish_sec s) (_monotonic_publish_sec s)
    (_gnssStartedSec s) (_firstLockSec s) (_nextEarlyWake s) v
    (_loopSampleTick s) (_lastGnssState s) (location_publish_retry_str s)
    (locGenCallbacks s) (locPubCallbacks s) (pendingLocPubCallbacks s)
    (servingTower s) (towerList s) (wpsList s) (cloud_writer s) (cloud_sent s)
    (callback_log s) (service_log s).

Definition set_loopSampleTick (v : Z) (s : TrackerLocation) : TrackerLocation :=
  mkTrackerLocation
    (_config_state s) (_config_state_shadow s) (_config_state_loop_safe s)
    (_pending_triggers s) (_pending_immediate s) (_first_publish s)
    (_pending_first_publish s) (_newMonotonic s)
    (_last_location_publish_sec s) (_monotonic_publish_sec s)
    (_gnssStartedSec s) (_firstLockSec s) (_nextEarlyWake s) (_earlyWake s) v
    (_lastGnssState s) (location_publish_retry_str s) (locGenCallbacks s)
    (locPubCallbacks s) (pendingLocPubCallbacks s) (servingTower s)
    (towerList s) (wpsList s) (cloud_writer s) (cloud_sent s) (callback_log s)
    (service_log s).

Definition set_lastGnssState (v : GnssState.t) (s : TrackerLocation) : TrackerLocation :=
  mkTrackerLocation
    (_config_state s) (_config_state_shadow s) (_config_state_loop_safe s)
    (_pending_triggers s) (_pending_immediate s) (_first_publish s)
    (_pending_first_publish s) (_newMonotonic s)
    (_last_location_publish_sec s) (_monotonic_publish_sec s)
    (_gnssStartedSec s) (_firstLockSec s) (_nextEarlyWake s) (_earlyWake s)
    (_loopSampleTick s) v (location_publish_retry_str s) (locGenCallbacks s)
    (locPubCallbacks s) (pendingLocPubCallbacks s) (servingTower s)
    (towerList s) (wpsList s) (cloud_writer s) (cloud_sent s) (callback_log s)
    (service_log s).

Definition set_location_publish_retry_str (v : option string) (s : TrackerLocation) : TrackerLocation :=
  mkTrackerLocation
    (_config_state s) (_config_state_shadow s) (_config_state_loop_safe s)
    (_pending_triggers s) (_pending_immediate s) (_first_publish s)
    (_pending_first_publish s) (_newMonotonic s)
    (_last_location_publish_sec s) (_monotonic_publish_sec s)
    (_gnssStartedSec s) (_firstLockSec s) (_nextEarlyWake s) (_earlyWake s)
    (_loopSampleTick s) (_lastGnssState s) v (locGenCallbacks s)
    (locPubCallbacks s) (pendingLocPubCallbacks s) (servingTower s)
    (towerList s) (wpsList s) (cloud_writer s) (cloud_sent s) (callback_log s)
    (service_log s).

Definition set_locGenCallbacks (v : list (LocationPoint -> list jevent)) (s : TrackerLocation) : TrackerLocation :=
  mkTrackerLocation
    (_config_state s) (_config_state_shadow s) (_config_state_loop_safe s)
    (_pending_triggers s) (_pending_immediate s) (_first_publish s)
    (_pending_first_publish s) (_newMonotonic s)
    (_last_location_publish_sec s) (_monotonic_publish_sec s)
    (_gnssStartedSec s) (_firstLockSec s) (_nextEarlyWake s) (_earlyWake s)
    (_loopSampleTick s) (_lastGnssState s) (location_publish_retry_str s) v
    (locPubCallbacks s) (pendingLocPubCallbacks s) (servingTower s)
    (towerList s) (wpsList s) (cloud_writer s) (cloud_sent s) (callback_log s)
    (service_log s).

Definition set_locPubCallbacks (v : list callback) (s : TrackerLocation) : TrackerLocation :=
  mkTrackerLocation
    (_config_state s) (_config_state_shadow s) (_config_state_loop_safe s)
    (_pending_triggers s) (_pending_immediate s) (_first_publish s)
    (_pending_first_publish s) (_newMonotonic s)
    (_last_location_publish_sec s) (_monotonic_publish_sec s)
    (_gnssStartedSec s) (_firstLockSec s) (_nextEarlyWake s) (_earlyWake s)
    (_loopSampleTick s) (_lastGnssState s) (location_publish_retry_str s)
    (locGenCallbacks s) v (pendingLocPubCallbacks s) (servingTower s)
    (towerList s) (wpsList s) (cloud_writer s) (cloud_sent s) (callback_log s)
    (service_log s).

Definition set_pendingLocPubCallbacks (v : list callback) (s : TrackerLocation) : TrackerLocation :=
  mkTrackerLocation
    (_config_state s) (_config_state_shadow s) (_config_state_loop_safe s)
    (_pending_triggers s) (_pending_immediate s) (_first_publish s)
    (_pending_first_publish s) (_newMonotonic s)
    (_last_location_publish_sec s) (_monotonic_publish_sec s)
    (_gnssStartedSec s) (_firstLockSec s) (_nextEarlyWake s) (_earlyWake s)
    (_loopSampleTick s) (_lastGnssState s) (location_publish_retry_str s)
    (locGenCallbacks s) (locPubCallbacks s) v (servingTower s) (towerList s)
    (wpsList s) (cloud_writer s) (cloud_sent s) (callback_log s)
    (service_log s).

Definition set_servingTower (v : CellularServing) (s : TrackerLocation) : TrackerLocation :=
  mkTrackerLocation
    (_config_state s) (_config_state_shadow s) (_config_state_loop_safe s)
    (_pending_triggers s) (_pending_immediate s) (_first_publish s)
    (_pending_first_publish s) (_newMonotonic s)
    (_last_location_publish_sec s) (_monotonic_publish_sec s)
    (_gnssStartedSec s) (_firstLockSec s) (_nextEarlyWake s) (_earlyWake s)
    (_loopSampleTick s) (_lastGnssState s) (location_publish_retry_str s)
    (locGenCallbacks s) (locPubCallbacks s) (pendingLocPubCallbacks s) v
    (towerList s) (wpsList s) (cloud_writer s) (cloud_sent s) (callback_log s)
    (service_log s).

Definition set_towerList (v : list CellularNeighbors) (s : TrackerLocation) : TrackerLocation :=
  mkTrackerLocation
    (_config_state s) (_config_state_shadow s) (_config_state_loop_safe s)
    (_pending_triggers s) (_pending_immediate s) (_first_publish s)
    (_pending_first_publish s) (_newMonotonic s)
    (_last_location_publish_sec s) (_monotonic_publish_sec s)
    (_gnssStartedSec s) (_firstLockSec s) (_nextEarlyWake s) (_earlyWake s)
    (_loopSampleTick s) (_lastGnssState s) (location_publish_retry_str s)
    (locGenCallbacks s) (locPubCallbacks s) (pendingLocPubCallbacks s)
    (servingTower s) v (wpsList s) (cloud_writer s) (cloud_sent s)
    (callback_log s) (service_log s).

Definition set_wpsList (v : list WiFiAccessPoint) (s : TrackerLocation) : TrackerLocation :=
  mkTrackerLocation
    (_config_state s) (_config_state_shadow s) (_config_state_loop_safe s)
    (_pending_triggers s) (_pending_immediate s) (_first_publish s)
    (_pending_first_publish s) (_newMonotonic s)
    (_last_location_publish_sec s) (_monotonic_publish_sec s)
    (_gnssStartedSec s) (_firstLockSec s) (_nextEarlyWake s) (_earlyWake s)
    (_loopSampleTick s) (_lastGnssState s) (location_publish_retry_str s)
    (locGenCallbacks s) (locPubCallbacks s) (pendingLocPubCallbacks s)
    (servingTower s) (towerList s) v (cloud_writer s) (cloud_sent s)
    (callback_log s) (service_log s).

Definition set_cloud_writer (v : list jevent) (s : TrackerLocation) : TrackerLocation :=
  mkTrackerLocation
    (_config_state s) (_config_state_shadow s) (_config_state_loop_safe s)
    (_pending_triggers s) (_pending_immediate s) (_first_publish s)
    (_pending_first_publish s) (_newMonotonic s)
    (_last_location_publish_sec s) (_monotonic_publish_sec s)
    (_gnssStartedSec s) (_firstLockSec s) (_nextEarlyWake s) (_earlyWake s)
    (_loopSampleTick s) (_lastGnssState s) (location_publish_retry_str s)
    (locGenCallbacks s) (locPubCallbacks s) (pendingLocPubCallbacks s)
    (servingTower s) (towerList s) (wpsList s) v (cloud_sent s)
    (callback_log s) (service_log s).

Definition set_cloud_sent (v : list string) (s : TrackerLocation) : TrackerLocation :=
  mkTrackerLocation
    (_config_state s) (_config_state_shadow s) (_config_state_loop_safe s)
    (_pending_triggers s) (_pending_immediate s) (_first_publish s)
    (_pending_first_publish s) (_newMonotonic s)
    (_last_location_publish_sec s) (_monotonic_publish_sec s)
    (_gnssStartedSec s) (_firstLockSec s) (_nextEarlyWake s) (_earlyWake s)
    (_loopSampleTick s) (_lastGnssState s) (location_publish_retry_str s)
    (locGenCallbacks s) (locPubCallbacks s) (pendingLocPubCallbacks s)
    (servingTower s) (towerList s) (wpsList s) (cloud_writer s) v
    (callback_log s) (service_log s).

Definition set_callback_log (v : list CallbackCall) (s : TrackerLocation) : TrackerLocation :=
  mkTrackerLocation
    (_config_state s) (_config_state_shadow s) (_config_state_loop_safe s)
    (_pending_triggers s) (_pending_immediate s) (_first_publish s)
    (_pending_first_publish s) (_newMonotonic s)
    (_last_location_publish_sec s) (_monotonic_publish_sec s)
    (_gnssStartedSec s) (_firstLockSec s) (_nextEarlyWake s) (_earlyWake s)
    (_loopSampleTick s) (_lastGnssState s) (location_publish_retry_str s)
    (locGenCallbacks s) (locPubCallbacks s) (pendingLocPubCallbacks s)
    (servingTower s) (towerList s) (wpsList s) (cloud_writer s) (cloud_sent s)
    v (service_log s).

Definition set_service_log (v : list ServiceCall) (s : TrackerLocation) : TrackerLocation :=
  mkTrackerLocation
    (_config_state s) (_config_state_shadow s) (_config_state_loop_safe s)
    (_pending_triggers s) (_pending_immediate s) (_first_publish s)
    (_pending_first_publish s) (_newMonotonic s)
    (_last_location_publish_sec s) (_monotonic_publish_sec s)
    (_gnssStartedSec s) (_firstLockSec s) (_nextEarlyWake s) (_earlyWake s)
    (_loopSampleTick s) (_lastGnssState s) (location_publish_retry_str s)
    (locGenCallbacks s) (locPubCallbacks s) (pendingLocPubCallbacks s)
    (servingTower s) (towerList s) (wpsList s) (cloud_writer s) (cloud_sent s)
    (callback_log s) v.

Definition nonempty {A} (l : list A) : bool :=
  match l with [] => false | _ :: _ => true end.

Definition is_some {A} (o : option A) : bool :=
  match o with Some _ => true | None => false end.

Definition log_service (c : ServiceCall) (s : TrackerLocation) : TrackerLocation :=
  set_service_log (service_log s ++ [c]) s.

(** ** Configuration transaction *)

Definition enter_location_config_cb (write : bool) (s : TrackerLocation)
  : Z * TrackerLocation :=
  (0, if write then set_config_state_shadow (_config_state s) s else s).

Definition exit_location_config_cb (write : bool) (status : Z) (s : TrackerLocation)
  : Z * TrackerLocation :=
  if write && (status =? 0) then
    if interval_max_seconds (_config_state_shadow s)
       <? interval_min_seconds (_config_state_shadow s)
    then (- EINVAL, s)
    else (status, set_config_state (_config_state_shadow s) s)
  else (status, s).

(** A whole write: the parameter layer enters, rewrites the shadow copy with
    [edit], reports [status] and exits. *)
Definition config_write
    (edit : tracker_location_config_t -> tracker_location_config_t)
    (status : Z) (s : TrackerLocation) : Z * TrackerLocation :=
  let s := snd (enter_location_config_cb true s) in
  let s := set_config_state_shadow (edit (_config_state_shadow s)) s in
  exit_location_config_cb true status s.

(** ** Pending triggers *)

(** The scan of [triggerLocPub]: [strcmp] against each pending name, leaving
    at the first match. *)
Fixpoint trigger_matched (pending : list string) (s : string) : bool :=
  match pending with
  | [] => false
  | trigger :: rest => if String.eqb trigger s then true else trigger_matched rest s
  end.

Definition triggerLocPub (type : Trigger.t) (name : string) (s : TrackerLocation)
  : TrackerLocation :=
  let s :=
    if trigger_matched (_pending_triggers s) name then s
    else set_pending_triggers (_pending_triggers s ++ [name]) s in
  match type with
  | Trigger.IMMEDIATE => set_pending_immediate true s
  | Trigger.NORMAL => s
  end.

(** ** Completion callbacks and the retry slot *)


Definition issue_location_publish_callbacks
    (status : CloudServiceStatus.t) (rsp_root req_event : option string)
    (s : TrackerLocation) : TrackerLocation :=
  let calls :=
    map (fun cb => mkCallbackCall cb status rsp_root req_event)
        (pendingLocPubCallbacks s) in
  set_pendingLocPubCallbacks [] (set_callback_log (callback_log s ++ calls) s).

(** [malloc_ok] tells whether the allocation of the retry copy succeeds; it
    is consulted on the one path that allocates. *)
Definition location_publish_cb
    (status : CloudServiceStatus.t) (rsp_root req_event : option string)
    (malloc_ok : bool) (s : TrackerLocation) : TrackerLocation :=
  let '(issue_callbacks, s) :=
    match status with
    | CloudServiceStatus.SUCCESS =>
        (true, set_pending_first_publish false (set_first_publish false s))
    | CloudServiceStatus.FAILURE =>
        match req_event, location_publish_retry_str s with
        | Some text, None =>
            if malloc_ok
            then (false, set_location_publish_retry_str (Some text) s)
            else (true, s)
        | _, _ => (true, s)
        end
    | CloudServiceStatus.TIMEOUT => (true, s)
    | CloudServiceStatus.UNEXPECTED _ => (true, s)
    end in
  if issue_callbacks
  then issue_location_publish_callbacks status rsp_root req_event s
  else s.

Section Publish.
Context {W : CloudWriter}.

(** [rval] is what [cloud_service.send] returns.  The text handed to it is
    the retry copy when there is one, the writer's buffer otherwise. *)
Definition location_publish (rval : Z) (malloc_ok : bool) (s : TrackerLocation)
  : TrackerLocation :=
  let buffer := writer_buffer (cloud_writer s) in
  let s :=
    match location_publish_retry_str s with
    | Some retry => set_cloud_sent (cloud_sent s ++ [retry]) s
    | None => set_cloud_sent (cloud_sent s ++ [buffer]) s
    end in
  if rval =? - EBUSY then
    match location_publish_retry_str s with
    | None =>
        if malloc_ok
        then set_location_publish_retry_str (Some buffer) s
        else issue_location_publish_callbacks
               CloudServiceStatus.FAILURE None (Some buffer) s
    | Some _ => s
    end
  else
    let s :=
      if negb (rval =? 0)
      then issue_location_publish_callbacks
             CloudServiceStatus.FAILURE None (location_publish_retry_str s) s
      else s in
    match location_publish_retry_str s with
    | Some _ => set_location_publish_retry_str None s
    | None => s
    end.

End Publish.

(** ** The publish evaluator *)

Definition enableNetwork (uptime : Z) (s : TrackerLocation) : TrackerLocation :=
  set_gnssStartedSec uptime (log_service forceFullWakeCycle s).

Definition enableGnss : TrackerLocation -> TrackerLocation := log_service LocationService_start.
Definition disableGnss : TrackerLocation -> TrackerLocation := log_service LocationService_stop.
Definition enableWifi : TrackerLocation -> TrackerLocation := log_service WiFi_on.
Definition disableWifi : TrackerLocation -> TrackerLocation := log_service WiFi_off.

(** Elapsed times as the evaluator computes them. *)
Definition elapsed_since_publish (now : Z) (s : TrackerLocation) : Z :=
  u32 (now - _last_location_publish_sec s).
Definition elapsed_since_anchor (now : Z) (s : TrackerLocation) : Z :=
  u32 (now - _monotonic_publish_sec s).

(** The interval brought forward by the early-wake lead, as both halves of
    the evaluator compute it: the lead is taken off only from an interval
    that exceeds it. *)
Definition lead_adjusted (interval lead : Z) : Z :=
  if lead <? interval then u32 (interval - lead) else interval.

(** [now] is [System.uptime()], [connecting] is
    [_sleep.getConfigConnectingTime()]. *)
Definition evaluatePublish (now connecting : Z) (s : TrackerLocation)
  : EvaluationResults :=
  if _pending_immediate s then
    mkEvaluationResults PublishReason.IMMEDIATE true false
  else if _first_publish s && negb (_pending_first_publish s) then
    mkEvaluationResults PublishReason.TRIGGERS true
      (u32 (now - _gnssStartedSec s) <? u32 connecting)
  else
    let interval := u32 (now - _last_location_publish_sec s) in
    let maxInterval := u32 (now - _monotonic_publish_sec s) in
    let max := u32 (interval_max_seconds (_config_state s)) in
    let maxNetwork := lead_adjusted max (u32 (_nextEarlyWake s)) in
    let max_configured := negb (interval_max_seconds (_config_state s) =? 0) in
    let networkNeeded := max_configured && (maxNetwork <=? maxInterval) in
    if max_configured && (max <=? maxInterval) then
      mkEvaluationResults PublishReason.TIME true
        (u32 (maxInterval - max) <? LockTimeoutSec)
    else
      let min := u32 (interval_min_seconds (_config_state s)) in
      let minNetwork := lead_adjusted min (u32 (_nextEarlyWake s)) in
      let no_min := interval_min_seconds (_config_state s) =? 0 in
      if nonempty (_pending_triggers s) then
        let networkNeeded :=
          if no_min || (minNetwork <=? interval) then true else networkNeeded in
        if no_min || (min <=? interval) then
          mkEvaluationResults PublishReason.TRIGGERS true
            (u32 (interval - min) <? LockTimeoutSec)
        else mkEvaluationResults PublishReason.NONE networkNeeded false
      else mkEvaluationResults PublishReason.NONE networkNeeded false.

(** ** Sleep preparation *)

(** The early-wake lead [onSleepPrepare] settles on.  [lastWakeMs] is the
    context's time of the last wake, [t_conn] the connecting time already
    converted to [uint32_t]. *)
Definition newEarlyWakeSec (lastWakeMs t_conn : Z) (s : TrackerLocation) : Z :=
  let lastWakeSec := u32 (lastWakeMs + 500) / 1000 in
  let lastWakeSec :=
    if MiscSleepWakeSec <=? lastWakeSec
    then u32 (lastWakeSec - MiscSleepWakeSec) else lastWakeSec in
  let wakeToLockDurationSec :=
    if _firstLockSec s =? 0 then t_conn
    else u32 (_firstLockSec s - lastWakeSec) in
  let publishVariance :=
    i32 (i32 (_last_location_publish_sec s) - i32 (_monotonic_publish_sec s)) in
  let newEarlyWakeSec := u32 (wakeToLockDurationSec + publishVariance + 1) in
  if t_conn <? newEarlyWakeSec then t_conn else newEarlyWakeSec.

(** [isFullWakeCycle], [connecting] and [wakeAt] are the sleep service's
    answers: [wakeAt w] is what [_sleep.wakeAtSeconds(w)] returns. *)
Definition onSleepPrepare
    (lastWakeMs : Z) (isFullWakeCycle : bool) (connecting : Z)
    (wakeAt : Z -> TrackerSleepError.t) (s : TrackerLocation) : TrackerLocation :=
  let wake := _last_location_publish_sec s in
  let interval :=
    if nonempty (_pending_triggers s)
    then interval_min_seconds (_config_state s)
    else interval_max_seconds (_config_state s) in
  let wake := u32 (wake + interval) in
  let t_conn := u32 connecting in
  let s :=
    if isFullWakeCycle then
      let early := newEarlyWakeSec lastWakeMs t_conn s in
      set_nextEarlyWake early (set_earlyWake early s)
    else
      set_nextEarlyWake (if _earlyWake s =? 0 then t_conn else _earlyWake s) s in
  let wake :=
    if _nextEarlyWake s <? wake then u32 (wake - _nextEarlyWake s) else wake in
  let s := log_service (wakeAtSeconds wake) s in
  match wakeAt wake with
  | TrackerSleepError.TIME_IN_PAST => log_service (wakeAtSeconds 0) s
  | TrackerSleepError.NONE => s
  end.

(** ** Payload assembly *)

(** The loops of the two enrichment blocks: the body runs for an element
    unless the countdown, tested before it is decremented, has reached
    zero. *)
Fixpoint counted {A : Type} (count : Z) (l : list A) : list A :=
  match l with
  | [] => []
  | x :: rest => if count <=? 0 then [] else x :: counted (count - 1) rest
  end.

Definition hex_digit (n : Z) : ascii :=
  nth (Z.to_nat n) (list_ascii_of_string "0123456789abcdef") "0"%char.

Definition hex2 (byte : Z) : string :=
  let b := byte mod 256 in
  String (hex_digit (b / 16)) (String (hex_digit (b mod 16)) EmptyString).

Definition format_bssid (b : list Z) : string :=
  (hex2 (nth 0 b 0) ++ ":" ++ hex2 (nth 1 b 0) ++ ":" ++ hex2 (nth 2 b 0) ++ ":"
   ++ hex2 (nth 3 b 0) ++ ":" ++ hex2 (nth 4 b 0) ++ ":" ++ hex2 (nth 5 b 0))%string.

Definition serving_object (t : CellularServing) : list jevent :=
  [JbeginObject;
   Jname "rat"; Jstring "lte";
   Jname "mcc"; Juint (u32 (mcc t));
   Jname "mnc"; Juint (u32 (mnc t));
   Jname "lac"; Juint (u32 (tac t));
   Jname "cid"; Juint (u32 (cellId t));
   Jname "str"; Jint (serving_signalPower t);
   JendObject].

Definition neighbor_object (t : CellularNeighbors) : list jevent :=
  [JbeginObject;
   Jname "nid"; Juint (u32 (neighborId t));
   Jname "ch"; Juint (u32 (earfcn t));
   Jname "str"; Jint (signalPower t);
   JendObject].

Definition wps_object (ap : WiFiAccessPoint) : list jevent :=
  [JbeginObject;
   Jname "bssid"; Jstring (format_bssid (bssid ap));
   Jname "ch"; Jint (channel ap);
   Jname "str"; Jint (rssi ap);
   JendObject].

Definition write (evs : list jevent) (s : TrackerLocation) : TrackerLocation :=
  set_cloud_writer (cloud_writer s ++ evs) s.

(** What the modem and the WiFi radio answer while a report is built:
    for each line of the serving-cell answer the value [parseServeCell]
    leaves in its output, the neighbour lines that parse, and the access
    points the scan reports. *)
Record Radio : Set := mkRadio {
  serving_rsp : list CellularServing;
  neighbor_rsp : list CellularNeighbors;
  wifi_scan : list WiFiAccessPoint
}.

Section Build.
Context {L : TrackerLimits} {W : CloudWriter}.

Definition serving_cb (s : TrackerLocation) (parsed : CellularServing) : TrackerLocation :=
  set_servingTower parsed s.

Definition neighbor_cb (s : TrackerLocation) (parsed : CellularNeighbors) : TrackerLocation :=
  set_towerList (towerList s ++ [parsed]) s.

Definition wifi_cb (s : TrackerLocation) (wap : WiFiAccessPoint) : TrackerLocation :=
  if Z.of_nat (List.length (wpsList s)) <? TrackerLocationMaxWpsCollect
  then set_wpsList (wpsList s ++ [wap]) s
  else s.

Definition buildTowerInfo (r : Radio) (size : Z) (s : TrackerLocation)
  : Z * TrackerLocation :=
  if negb (tower (_config_state_loop_safe s)) then (0, s)
  else
    let written := writer_dataSize (cloud_writer s) in
    let s := fold_left serving_cb (serving_rsp r) s in
    let s :=
      match serving_rat (servingTower s) with
      | RadioAccessTechnology.NONE => s
      | _ =>
          let s := write [Jname "towers"; JbeginArray] s in
          let s := write (serving_object (servingTower s)) s in
          let s := set_towerList [] s in
          let s := fold_left neighbor_cb (neighbor_rsp r) s in
          let towerCount := TrackerLocationMaxTowerSend - 1 in
          let s :=
            write (flat_map neighbor_object (counted towerCount (towerList s))) s in
          write [JendArray] s
      end in
    (u32 (writer_dataSize (cloud_writer s) - written), s).

(** The access points the WiFi block writes an object for, once the scan
    has filled [wpsList]. *)
Definition wps_selected (size : Z) (s : TrackerLocation) : list WiFiAccessPoint :=
  let wpsCount := (size - ObjectEstimateWpsHeaderSize) / ObjectEstimateWpsDataSize in
  let wifiCount := i32 wpsCount in
  counted wifiCount (wpsList s).

Definition buildWpsInfo (r : Radio) (size : Z) (s : TrackerLocation)
  : Z * TrackerLocation :=
  if negb (wps (_config_state_loop_safe s)) then (0, s)
  else
    let written := writer_dataSize (cloud_writer s) in
    let s :=
      if size <=? ObjectEstimateWpsHeaderSize then s
      else
        let wpsCount :=
          (size - ObjectEstimateWpsHeaderSize) / ObjectEstimateWpsDataSize in
        if wpsCount =? 0 then s
        else
          let s := set_wpsList [] s in
          let s := fold_left wifi_cb (wifi_scan r) s in
          if nonempty (wpsList s) then
            let s := write [Jname "wps"; JbeginArray] s in
            let s := write (flat_map wps_object (wps_selected size s)) s in
            write [JendArray] s
          else s in
    (u32 (writer_dataSize (cloud_writer s) - written), s).

Definition loc_object (locked : bool) (cur_loc : LocationPoint) (s : TrackerLocation)
  : list jevent :=
  [Jname "loc"; JbeginObject]
  ++ (if locked then
        [Jname "lck"; Jint 1;
         Jname "time"; Juint (u32 (epochTime cur_loc));
         Jname "lat"; Jfloat (latitude cur_loc) 8;
         Jname "lon"; Jfloat (longitude cur_loc) 8]
        ++ (if min_publish (_config_state s) then []
            else [Jname "alt"; Jfloat (altitude cur_loc) 3;
                  Jname "hd"; Jfloat (heading cur_loc) 2;
                  Jname "spd"; Jfloat (speed cur_loc) 2;
                  Jname "h_acc"; Jfloat (horizontalAccuracy cur_loc) 3;
                  Jname "v_acc"; Jfloat (verticalAccuracy cur_loc) 3])
      else [Jname "lck"; Jint 0])
  ++ flat_map (fun cb => cb cur_loc) (locGenCallbacks s)
  ++ [JendObject].

(** The [trig] array of a report listing [names]. *)
Definition trig_array (names : list string) : list jevent :=
  [Jname "trig"; JbeginArray] ++ map Jstring names ++ [JendArray].

Definition buildPublish (r : Radio) (cur_loc : LocationPoint) (s : TrackerLocation)
  : TrackerLocation :=
  let locked := if gnss (_config_state s) then locked cur_loc else false in
  let s :=
    if locked
    then log_service (setWayPoint (latitude cur_loc) (longitude cur_loc)) s
    else s in
  let s := set_cloud_writer [JbeginCommand "loc"] s in
  let s := write (loc_object locked cur_loc s) s in
  let s :=
    if nonempty (_pending_triggers s) then
      let s := write (trig_array (_pending_triggers s)) s in
      set_pending_triggers [] s
    else s in
  if enhance_loc (_config_state_loop_safe s) then
    let s :=
      if loc_cb (_config_state_loop_safe s)
      then write [Jname "loc_cb"; Jbool true] s else s in
    let remainingSize :=
      u32 (writer_bufferSize - 1 - writer_dataSize (cloud_writer s)
           - estimatedEndCommandSize) in
    let tower_block := buildTowerInfo r remainingSize s in
    let remainingSize := u32 (remainingSize - fst tower_block) in
    let wps_block := buildWpsInfo r remainingSize (snd tower_block) in
    snd wps_block
  else s.

End Build.

(** ** Location sampling *)

(** What one pass of [loop] learns from its surroundings, in the order it
    asks. *)
Record LoopEnv : Set := mkLoopEnv {
  millis_check : Z;
  millis_tick : Z;
  status_powered_sync : bool;
  connected_retry : bool;
  retry_rval : Z;
  retry_malloc_ok : bool;
  status_powered : bool;
  getLocation_rc : Z;
  getLocation_point : LocationPoint;
  radius_set : bool;
  outside_radius : bool;
  uptime_lock : Z;
  sleep_disabled : bool;
  uptime_evaluate : Z;
  connecting_time : Z;
  full_wake_cycle : bool;
  uptime_network : Z;
  connected_publish : bool;
  radio : Radio;
  uptime_publish : Z;
  publish_rval : Z;
  publish_malloc_ok : bool
}.

(** The block that classifies the fix: the fix state, the fix and the
    object, which a fix outside the radius leaves with the "radius"
    trigger. *)
Definition loopLocation_fix (e : LoopEnv) (s : TrackerLocation)
  : GnssState.t * LocationPoint * TrackerLocation :=
  if negb (status_powered e) then
    (GnssState.OFF, LocationPoint_default, s)
  else if negb (getLocation_rc e =? SYSTEM_ERROR_NONE) then
    (GnssState.ERROR, getLocation_point e, s)
  else if negb (locked (getLocation_point e)) then
    (GnssState.ON_UNLOCKED, getLocation_point e, s)
  else if negb (stable (getLocation_point e)) then
    (GnssState.ON_LOCKED_UNSTABLE, getLocation_point e, s)
  else
    (GnssState.ON_LOCKED_STABLE, getLocation_point e,
     if radius_set e && outside_radius e
     then triggerLocPub Trigger.NORMAL "radius" s else s).

Definition loopLocation (e : LoopEnv) (s : TrackerLocation)
  : GnssState.t * LocationPoint * TrackerLocation :=
  if negb (gnss (_config_state s)) then
    (GnssState.DISABLED, LocationPoint_default, s)
  else
    let classified := loopLocation_fix e s in
    let currentGnssState := fst (fst classified) in
    let cur_loc := snd (fst classified) in
    let s := snd classified in
    let s :=
      if GnssState.eqb currentGnssState GnssState.ON_LOCKED_STABLE
         && negb (GnssState.eqb currentGnssState (_lastGnssState s))
      then
        let s :=
          if _firstLockSec s =? 0 then set_firstLockSec (uptime_lock e) s else s in
        if sleep_disabled e && lock_trigger (_config_state s)
        then triggerLocPub Trigger.NORMAL "lock" s else s
      else s in
    (currentGnssState, cur_loc, set_lastGnssState currentGnssState s).

(** ** The main loop *)

(** The power synchronisation at the head of a pass. *)
Definition loop_sync (e : LoopEnv) (firstLoop : bool)
    (captureConfig : tracker_location_config_t) (s : TrackerLocation)
  : TrackerLocation :=
  if firstLoop then
    let s := if gnss captureConfig then enableGnss s else s in
    if enhance_loc captureConfig && wps captureConfig then enableWifi s
    else if enhance_loc captureConfig && negb (wps captureConfig) then disableWifi s
    else s
  else
    let s :=
      if gnss captureConfig && negb (status_powered_sync e) then enableGnss s
      else if negb (gnss captureConfig) && status_powered_sync e then disableGnss s
      else s in
    if enhance_loc captureConfig && wps captureConfig
       && negb (wps (_config_state_loop_safe s)) then enableWifi s
    else if enhance_loc captureConfig && negb (wps captureConfig)
            && wps (_config_state_loop_safe s) then disableWifi s
    else s.

(** The [switch] on the evaluator's verdict: [None] is the early [return]
    of the NONE case, otherwise [publishNow] and the state. *)
Definition loop_switch (publishReason : EvaluationResults)
    (locationStatus : GnssState.t) (s : TrackerLocation)
  : option (bool * TrackerLocation) :=
  match reason publishReason with
  | PublishReason.NONE => None
  | PublishReason.TIME =>
      match locationStatus with
      | GnssState.DISABLED | GnssState.ON_LOCKED_STABLE =>
          Some (true, triggerLocPub Trigger.NORMAL "time" s)
      | GnssState.OFF | GnssState.ON_UNLOCKED | GnssState.ON_LOCKED_UNSTABLE =>
          if negb (lockWait publishReason)
          then Some (true, triggerLocPub Trigger.NORMAL "time" s)
          else Some (false, s)
      | GnssState.ERROR => Some (false, s)
      end
  | PublishReason.TRIGGERS =>
      match locationStatus with
      | GnssState.DISABLED | GnssState.ON_LOCKED_STABLE =>
          Some (true, set_newMonotonic true s)
      | GnssState.OFF | GnssState.ON_UNLOCKED | GnssState.ON_LOCKED_UNSTABLE =>
          if negb (lockWait publishReason)
          then Some (true, set_newMonotonic true s)
          else Some (false, s)
      | GnssState.ERROR => Some (false, s)
      end
  | PublishReason.IMMEDIATE =>
      Some (true, set_newMonotonic true (set_pending_immediate false s))
  end.

Section Loop.
Context {L : TrackerLimits} {W : CloudWriter}.

(** The body of [if (publishNow && Particle.connected())]. *)
Definition loop_publish (e : LoopEnv) (cur_loc : LocationPoint) (s : TrackerLocation)
  : TrackerLocation :=
  let s :=
    match location_publish_retry_str s with
    | Some retry =>
        set_location_publish_retry_str None
          (issue_location_publish_callbacks
             CloudServiceStatus.TIMEOUT None (Some retry) s)
    | None => s
    end in
  let s := buildPublish (radio e) cur_loc s in
  let s := set_pendingLocPubCallbacks (locPubCallbacks s) s in
  let s := set_locPubCallbacks [] s in
  let s := set_last_location_publish_sec (uptime_publish e) s in
  let s :=
    if (_first_publish s && negb (_pending_first_publish s)) || _newMonotonic s
    then set_newMonotonic false
           (set_monotonic_publish_sec (_last_location_publish_sec s) s)
    else set_monotonic_publish_sec
           (u32 (_monotonic_publish_sec s
                 + u32 (interval_max_seconds (_config_state s)))) s in
  let s :=
    if negb (process_ack (_config_state s)) && _first_publish s
    then set_first_publish false s else s in
  let s := location_publish (publish_rval e) (publish_malloc_ok e) s in
  if _first_publish s && negb (_pending_first_publish s)
  then set_pending_first_publish true s else s.

(** The early [return] of a pass that comes before the sample period. *)
Definition loop_skipped (e : LoopEnv) (s : TrackerLocation) : bool :=
  u32 (millis_check e - _loopSampleTick s) <? LoopSampleRate.

(** A pass up to and including the location sampling: the state, fix state
    and fix the evaluator and the [switch] then work on. *)
Definition loop_sample (e : LoopEnv) (s : TrackerLocation)
  : GnssState.t * LocationPoint * TrackerLocation :=
  let firstLoop := _loopSampleTick s =? 0 in
  let s := set_loopSampleTick (millis_tick e) s in
  let captureConfig := _config_state s in
  let s := loop_sync e firstLoop captureConfig s in
  let s := set_config_state_loop_safe captureConfig s in
  let s :=
    if is_some (location_publish_retry_str s) && connected_retry e
    then location_publish (retry_rval e) (retry_malloc_ok e) s
    else s in
  loopLocation e s.

(** The rest of the pass, from the evaluation on. *)
Definition loop_act (e : LoopEnv) (locationStatus : GnssState.t)
    (cur_loc : LocationPoint) (s : TrackerLocation) : TrackerLocation :=
  let publishReason := evaluatePublish (uptime_evaluate e) (connecting_time e) s in
  let s :=
    if negb (full_wake_cycle e) && networkNeeded publishReason
    then enableNetwork (uptime_network e) s else s in
  match loop_switch publishReason locationStatus s with
  | None => s
  | Some (publishNow, s) =>
      if publishNow && connected_publish e then loop_publish e cur_loc s else s
  end.

Definition loop (e : LoopEnv) (s : TrackerLocation) : TrackerLocation :=
  if loop_skipped e s then s
  else
    let sampled := loop_sample e s in
    let locationStatus := fst (fst sampled) in
    let cur_loc := snd (fst sampled) in
    loop_act e locationStatus cur_loc (snd sampled).

End Loop.

(** ** The scheduling rules as the specification words them

    Kept apart from the embedding above, to be compared with it. *)


(** "target wake = lastPublishTime + (min interval if triggers pending else
    max interval)", then "subtract the lead from the target wake". *)
Definition spec_target_wake (s : TrackerLocation) : Z :=
  _last_location_publish_sec s
  + (if nonempty (_pending_triggers s)
     then interval_min_seconds (_config_state s)
     else interval_max_seconds (_config_state s)).

Definition spec_wake (s : TrackerLocation) (earlyWakeLead : Z) : Z :=
  spec_target_wake s - earlyWakeLead.

(** ** Views of the object

    The fields that decide when to publish, and the fields through which
    the cloud service and the completion callbacks are reached. *)

Definition schedule_of (s : TrackerLocation) :=
  (_config_state s, _first_publish s, _pending_first_publish s,
   _newMonotonic s, _pending_immediate s,
   _last_location_publish_sec s, _monotonic_publish_sec s, _nextEarlyWake s).

Definition cloud_of (s : TrackerLocation) :=
  (cloud_writer s, cloud_sent s, callback_log s,
   pendingLocPubCallbacks s, locPubCallbacks s, location_publish_retry_str s).

(** ** Sequences of calls *)

(** Requests for triggers, in order. *)
Definition request_all (reqs : list (Trigger.t * string)) (s : TrackerLocation)
  : TrackerLocation :=
  fold_left (fun s r => triggerLocPub (fst r) (snd r) s) reqs s.

Section Sequences.
Context {L : TrackerLimits} {W : CloudWriter}.

(** The retry of a buffered report as [loop] drives it: [busy] attempts
    that the cloud service turns down with [-EBUSY], then one it accepts. *)
Definition retry_until_accepted (busy : nat) (s : TrackerLocation) : TrackerLocation :=
  location_publish 0 false
    (Nat.iter busy (location_publish (- EBUSY) false) s).

(** A pass of [loop] gets as far as the evaluator and this is its verdict. *)
Definition loop_reason (e : LoopEnv) (s : TrackerLocation) : PublishReason.t :=
  reason (evaluatePublish (uptime_evaluate e) (connecting_time e)
            (snd (loop_sample e s))).

(** A pass of [loop] reaches the body of
    [if (publishNow && Particle.connected())]. *)
Definition loop_publishes (e : LoopEnv) (s : TrackerLocation) : bool :=
  if loop_skipped e s then false
  else
    let sampled := loop_sample e s in
    let publishReason :=
      evaluatePublish (uptime_evaluate e) (connecting_time e) (snd sampled) in
    match loop_switch publishReason (fst (fst sampled)) (snd sampled) with
    | Some (publishNow, _) => publishNow && connected_publish e
    | None => false
    end.

End Sequences.

(** ** Sample data for the examples *)

(** A stand-in for the cloud service's writer: one mark per call. *)
Definition sample_mark (ev : jevent) : string :=
  match ev with
  | JbeginCommand cmd => ("<" ++ cmd ++ ">")%string
  | Jname n => (n ++ ":")%string
  | JbeginObject => "{"
  | JendObject => "}"
  | JbeginArray => "["
  | JendArray => "]"
  | Jint _ | Juint _ | Jfloat _ _ => "#"
  | Jbool true => "true"
  | Jbool false => "false"
  | Jstring v => (v ++ ",")%string
  end.

Definition sample_text (evs : list jevent) : string :=
  fold_right (fun ev acc => (sample_mark ev ++ acc)%string) EmptyString evs.

#[local] Instance sample_writer : CloudWriter := {|
  writer_buffer := sample_text;
  writer_dataSize := fun evs => Z.of_nat (String.length (sample_text evs));
  writer_bufferSize := 1024;
  estimatedEndCommandSize := 2
|}.

#[local] Instance sample_limits : TrackerLimits := {|
  TrackerLocationMaxTowerSend := 3;
  TrackerLocationMaxWpsCollect := 20
|}.

Definition sample_config (interval_min interval_max : Z) : tracker_location_config_t :=
  mkConfig interval_min interval_max false false false false false false false false.

(** A device that published at uptime 1000, first publish acknowledged,
    nothing pending, location sources switched off. *)
Definition sample_state : TrackerLocation :=
  mkTrackerLocation
    (sample_config 60 600) (sample_config 60 600) (sample_config 60 600)
    [] false false false false
    1000 1000 0 0 0 0 0
    GnssState.DISABLED None
    [] [] []
    (mkCellularServing RadioAccessTechnology.NONE 0 0 0 0 0) [] []
    [] [] [] [].

(** A pass of [loop] at uptime [now] with the fix source unpowered and the
    cloud service accepting what it is sent; [connected] tells whether the
    cloud is reachable. *)
Definition sample_env (now : Z) (connected : bool) : LoopEnv :=
  mkLoopEnv
    (now * 1000) (now * 1000) false
    connected 0 true
    false 0 LocationPoint_default false false
    now false
    now 90
    true now
    connected (mkRadio [] [] [])
    now 0 true.

(** [interval_max_seconds] of 10 under an early-wake lead of 20 s. *)
Definition short_max_state : TrackerLocation :=
  set_nextEarlyWake 20 (set_config_state (sample_config 0 10) sample_state).

(** A trigger pending under an early-wake lead of 10 s. *)
Definition triggered_state : TrackerLocation :=
  set_nextEarlyWake 10 (set_pending_triggers ["radius"%string] sample_state).

(** A publish in flight with two completion callbacks waiting. *)
Definition in_flight_state : TrackerLocation :=
  set_pendingLocPubCallbacks [1%nat; 2%nat]
    (set_cloud_writer [JbeginCommand "loc"; Jname "loc"; JbeginObject;
                       Jname "lck"; Jint 0; JendObject] sample_state).

(** A write that asks for [interval_min] 500 and [interval_max] 100. *)
Definition edit_500_100 (c : tracker_location_config_t) : tracker_location_config_t :=
  mkConfig 500 100 (min_publish c) (lock_trigger c) (process_ack c) (tower c)
           (gnss c) (wps c) (enhance_loc c) (loc_cb c).

(** A device that was asked for an immediate report while the connection
    was down: the pass at uptime 1100 took the request and could not
    publish. *)
Definition immediate_dropped_state (L : TrackerLimits) (W : CloudWriter)
  : TrackerLocation :=
  loop (sample_env 1100 false)
    (triggerLocPub Trigger.IMMEDIATE "imm" sample_state).

(** Shortly after start: last publish at 10 s, [interval_max_seconds] 50,
    no lead learned yet. *)
Definition early_boot_state : TrackerLocation :=
  set_last_location_publish_sec 10
    (set_monotonic_publish_sec 10
       (set_config_state (sample_config 0 50) sample_state)).

(** A sleep service that, at uptime [now], turns down the wake times that
    are not ahead of it. *)
Definition wakeAt_uptime (now : Z) (wake : Z) : TrackerSleepError.t :=
  if wake <=? now then TrackerSleepError.TIME_IN_PAST else TrackerSleepError.NONE.




(** A scan that reports two access points, and an object with the WiFi
    block enabled. *)
Definition two_aps : list WiFiAccessPoint :=
  [mkWiFiAccessPoint [0; 17; 34; 51; 68; 85] 6 (-40);
   mkWiFiAccessPoint [160; 177; 194; 211; 228; 245] 11 (-70)].

Definition wps_state : TrackerLocation :=
  set_config_state_loop_safe
    (mkConfig 60 600 false false false false false true true false)
    sample_state.

(** * The rest of the translation unit *)

(** ** Registration, commands and start-up *)

Definition regLocGenCallback (cb : LocationPoint -> list jevent) (s : TrackerLocation)
  : Z * TrackerLocation :=
  (0, set_locGenCallbacks (locGenCallbacks s ++ [cb]) s).


(** What [init] does to the object itself; its other statements hand
    descriptors and closures to the configuration, cloud and sleep
    services.  [uptime] is [System.uptime()]. *)
Definition init (uptime : Z) (s : TrackerLocation) : TrackerLocation :=
  set_last_location_publish_sec
    (u32 (uptime - interval_min_seconds (_config_state s))) s.

(** ** The sleep hooks *)

Module TrackerSleepReason.
(** [OTHER] stands for the reasons the state hook has no case for. *)
Inductive t : Set := STATE_TO_CONNECTING | STATE_TO_SHUTDOWN | OTHER.
End TrackerSleepReason.

(** The vote for an early shutdown that [onWake] may cast with the sleep
    service. *)
Inductive SleepVote : Set :=
| extendExecutionFromNow (seconds : Z) (force : bool).

Definition onSleepCancel (s : TrackerLocation) : TrackerLocation := s.

Definition onSleep (s : TrackerLocation) : TrackerLocation :=
  disableWifi (disableGnss s).

(** [now] is the uptime the evaluator reads, [connecting] the sleep
    service's connecting time, [uptime_enable] the uptime [enableNetwork]
    reads. *)
Definition onWake (now connecting uptime_enable : Z) (s : TrackerLocation)
  : option SleepVote * TrackerLocation :=
  let s := set_firstLockSec 0 s in
  let result := evaluatePublish now connecting s in
  if networkNeeded result then
    let s := enableNetwork uptime_enable s in
    let s := if gnss (_config_state_loop_safe s) then enableGnss s else s in
    let s :=
      if enhance_loc (_config_state_loop_safe s) then
        if wps (_config_state_loop_safe s) then enableWifi s else s
      else s in
    (None, set_loopSampleTick 0 s)
  else
    (Some (extendExecutionFromNow EarlySleepSec true), set_loopSampleTick 0 s).

Definition onSleepState (why : TrackerSleepReason.t) (s : TrackerLocation)
  : TrackerLocation :=
  match why with
  | TrackerSleepReason.STATE_TO_CONNECTING => log_service LocationService_start s
  | TrackerSleepReason.STATE_TO_SHUTDOWN => disableGnss s
  | TrackerSleepReason.OTHER => s
  end.

(** ** Answers of the modem *)

(** The two error codes come from the system's headers. *)
Class SystemErrors : Set := {
  SYSTEM_ERROR_NOT_ENOUGH_DATA : Z;
  SYSTEM_ERROR_NOT_SUPPORTED : Z
}.

(** What [sscanf] makes of a line of the serving-cell answer: the number of
    items it assigned and the variables it was given. *)
Record ServingScan : Set := mkServingScan {
  serving_nitems : Z;
  serving_scan_state : string;
  serving_scan_rat : string;
  serving_scan_mcc : Z;
  serving_scan_mnc : Z;
  serving_scan_cellId : Z;
  serving_scan_tac : Z;
  serving_scan_signalPower : Z
}.

Record NeighborScan : Set := mkNeighborScan {
  neighbor_nitems : Z;
  neighbor_scan_rat : string;
  neighbor_scan_earfcn : Z;
  neighbor_scan_neighborId : Z;
  neighbor_scan_signalQuality : Z;
  neighbor_scan_signalPower : Z;
  neighbor_scan_signalStrength : Z
}.

(** The chain of [strncmp] tests both parsers run on the access
    technology. *)
Definition radio_access (rat : string) : option RadioAccessTechnology.t :=
  if String.prefix "CAT-M" rat then Some RadioAccessTechnology.LTE_CAT_M1
  else if String.prefix "LTE" rat then Some RadioAccessTechnology.LTE
  else if String.prefix "CAT-NB" rat then Some RadioAccessTechnology.LTE_NB_IOT
  else None.

Definition CellularServing_default : CellularServing :=
  mkCellularServing RadioAccessTechnology.NONE 0 0 0 0 0.

Section Parsers.
Context {E : SystemErrors}.

(** The result code and what is left in [out], which is cleared first. *)
Definition parseServeCell (scan : ServingScan) : Z * CellularServing :=
  if serving_nitems scan <? 7 then
    (SYSTEM_ERROR_NOT_ENOUGH_DATA, CellularServing_default)
  else
    match radio_access (serving_scan_rat scan) with
    | None => (SYSTEM_ERROR_NOT_SUPPORTED, CellularServing_default)
    | Some rat =>
        (SYSTEM_ERROR_NONE,
         mkCellularServing rat
           (serving_scan_mcc scan) (serving_scan_mnc scan)
           (serving_scan_cellId scan) (serving_scan_tac scan)
           (serving_scan_signalPower scan))
    end.

(** The result code and what is left in [out], which is written only when
    the line parses. *)
Definition parseCell (scan : NeighborScan) (out : CellularNeighbors)
  : Z * CellularNeighbors :=
  if neighbor_nitems scan <? 6 then (SYSTEM_ERROR_NOT_ENOUGH_DATA, out)
  else
    match radio_access (neighbor_scan_rat scan) with
    | None => (SYSTEM_ERROR_NOT_SUPPORTED, out)
    | Some rat =>
        (SYSTEM_ERROR_NONE,
         mkCellularNeighbors rat
           (neighbor_scan_earfcn scan) (neighbor_scan_neighborId scan)
           (neighbor_scan_signalQuality scan) (neighbor_scan_signalPower scan)
           (neighbor_scan_signalStrength scan))
    end.

(** What the two response callbacks make of the lines that precede the
    final OK: every line of the serving-cell answer overwrites
    [servingTower]; a line of the neighbour answer is appended when it
    parses, [scratch] being the callback's local. *)
Definition serving_answer (lines : list ServingScan) : list CellularServing :=
  map (fun scan => snd (parseServeCell scan)) lines.

Definition neighbor_answer (scratch : CellularNeighbors) (lines : list NeighborScan)
  : list CellularNeighbors :=
  flat_map
    (fun scan =>
       if fst (parseCell scan scratch) =? SYSTEM_ERROR_NONE
       then [snd (parseCell scan scratch)] else [])
    lines.

End Parsers.

(** ** The enhanced location command *)

Module LocationSource.
Inductive t : Set := CELL | WIFI | GNSS | NONE.
End LocationSource.

Module LocationType.
(** [DEFAULT] is the type of a value-initialised point. *)
Inductive t : Set := DEFAULT | CLOUD.
End LocationType.

(** A parsed JSON value.  A number is carried as the [float] the handler
    converts it to. *)
#[warnings="-register-all"]
Inductive JSONValue : Set :=
| JSONNull
| JSONBool (b : bool)
| JSONNumber (v : float)
| JSONString (text : string)
| JSONArray (elements : list JSONValue)
| JSONObject (members : list (string * JSONValue)).

Definition isObject (v : JSONValue) : bool :=
  match v with JSONObject _ => true | _ => false end.
Definition isNumber (v : JSONValue) : bool :=
  match v with JSONNumber _ => true | _ => false end.
Definition isArray (v : JSONValue) : bool :=
  match v with JSONArray _ => true | _ => false end.
Definition isString (v : JSONValue) : bool :=
  match v with JSONString _ => true | _ => false end.

(** What an object iterator and an array iterator walk through. *)
Definition object_members (v : JSONValue) : list (string * JSONValue) :=
  match v with JSONObject members => members | _ => [] end.
Definition array_elements (v : JSONValue) : list JSONValue :=
  match v with JSONArray elements => elements | _ => [] end.

(** The point the enhanced-location handler fills: the fix, its type and
    its sources. *)
Record EnhancedPoint : Set := mkEnhancedPoint {
  point_fix : LocationPoint;
  point_type : LocationType.t;
  point_sources : list LocationSource.t
}.

Definition EnhancedPoint_default : EnhancedPoint :=
  mkEnhancedPoint LocationPoint_default LocationType.DEFAULT [].

Definition set_latitude (v : float) (p : EnhancedPoint) : EnhancedPoint :=
  let f := point_fix p in
  mkEnhancedPoint
    (mkLocationPoint (locked f) (stable f) (epochTime f) v (longitude f)
       (altitude f) (heading f) (speed f) (horizontalAccuracy f)
       (verticalAccuracy f))
    (point_type p) (point_sources p).

Definition set_longitude (v : float) (p : EnhancedPoint) : EnhancedPoint :=
  let f := point_fix p in
  mkEnhancedPoint
    (mkLocationPoint (locked f) (stable f) (epochTime f) (latitude f) v
       (altitude f) (heading f) (speed f) (horizontalAccuracy f)
       (verticalAccuracy f))
    (point_type p) (point_sources p).

Definition set_horizontalAccuracy (v : float) (p : EnhancedPoint) : EnhancedPoint :=
  let f := point_fix p in
  mkEnhancedPoint
    (mkLocationPoint (locked f) (stable f) (epochTime f) (latitude f)
       (longitude f) (altitude f) (heading f) (speed f) v
       (verticalAccuracy f))
    (point_type p) (point_sources p).

Definition append_source (source : LocationSource.t) (p : EnhancedPoint)
  : EnhancedPoint :=
  mkEnhancedPoint (point_fix p) (point_type p) (point_sources p ++ [source]).

(** The source a string of the src array names, if any. *)
Definition source_named (text : string) : option LocationSource.t :=
  if String.eqb text "cell" then Some LocationSource.CELL
  else if String.eqb text "wifi" then Some LocationSource.WIFI
  else if String.eqb text "gnss" then Some LocationSource.GNSS
  else None.

(** The inner loop of [buildEnhLocation], over the src array. *)
Fixpoint buildEnhLocation_sources (elements : list JSONValue) (point : EnhancedPoint)
  : Z * EnhancedPoint :=
  match elements with
  | [] => (0, point)
  | JSONString text :: rest =>
      match source_named text with
      | Some source => buildEnhLocation_sources rest (append_source source point)
      | None => buildEnhLocation_sources rest point
      end
  | _ :: _ => (- EINVAL, point)
  end.

(** The outer loop of [buildEnhLocation], over the members of the node. *)
Fixpoint buildEnhLocation_members (members : list (string * JSONValue))
    (point : EnhancedPoint) : Z * EnhancedPoint :=
  match members with
  | [] => (0, point)
  | (name, value) :: rest =>
      if String.eqb name "lat" then
        match value with
        | JSONNumber v => buildEnhLocation_members rest (set_latitude v point)
        | _ => (- EINVAL, point)
        end
      else if String.eqb name "lon" then
        match value with
        | JSONNumber v => buildEnhLocation_members rest (set_longitude v point)
        | _ => (- EINVAL, point)
        end
      else if String.eqb name "h_acc" then
        match value with
        | JSONNumber v =>
            buildEnhLocation_members rest (set_horizontalAccuracy v point)
        | _ => (- EINVAL, point)
        end
      else if String.eqb name "src" then
        match value with
        | JSONArray elements =>
            let listed := buildEnhLocation_sources elements point in
            if fst listed =? 0
            then buildEnhLocation_members rest (snd listed)
            else listed
        | _ => (- EINVAL, point)
        end
      else buildEnhLocation_members rest point
  end.

Definition buildEnhLocation (node : JSONValue) (point : EnhancedPoint)
  : Z * EnhancedPoint :=
  buildEnhLocation_members (object_members node) point.

(** The search of [enhanced_cb] for the object to read: each member named
    loc-enhanced that is an object replaces the one found before. *)
Definition find_loc_enhanced (root : JSONValue) : option JSONValue :=
  fold_left
    (fun found item =>
       if String.eqb (fst item) "loc-enhanced" && isObject (snd item)
       then Some (snd item) else found)
    (object_members root) None.

(** [callbacks] is the member [enhancedLocCallbacks]; the result is the
    return value and the calls made, in order. *)
Definition enhanced_cb (callbacks : list callback) (root : JSONValue)
  : Z * list (callback * EnhancedPoint) :=
  match find_loc_enhanced root with
  | Some locObject =>
      let point :=
        mkEnhancedPoint (point_fix EnhancedPoint_default) LocationType.CLOUD
          (point_sources EnhancedPoint_default) in
      let point := snd (buildEnhLocation locObject point) in
      (0, map (fun cb => (cb, point)) callbacks)
  | None => (0, [])
  end.

(** ** Further views and samples *)

(** The object after the payload builder has been at it: only the log of
    service calls, the writer, the pending triggers and the three scratch
    fields of the enrichment blocks can differ. *)
Definition build_form
    (calls : list ServiceCall) (written : list jevent) (pending : list string)
    (serving : CellularServing) (towers : list CellularNeighbors)
    (aps : list WiFiAccessPoint) (s : TrackerLocation) : TrackerLocation :=
  set_wpsList aps
    (set_towerList towers
       (set_servingTower serving
          (set_pending_triggers pending
             (set_cloud_writer written (set_service_log calls s))))).

Definition built_from (s s' : TrackerLocation) : Prop :=
  exists calls written pending serving towers aps,
    s' = build_form calls written pending serving towers aps s.

(** The completion of a publish as the cloud service reports it. *)
Definition call_all (status : CloudServiceStatus.t) (rsp_root req_event : option string)
    (callbacks : list callback) : list CallbackCall :=
  map (fun cb => mkCallbackCall cb status rsp_root req_event) callbacks.

Definition is_immediate (r : Trigger.t * string) : bool :=
  match fst r with Trigger.IMMEDIATE => true | Trigger.NORMAL => false end.

(** The test a member of an enhanced-location object has to pass. *)
Definition source_element_ok (v : JSONValue) : bool := isString v.

Definition member_ok (m : string * JSONValue) : bool :=
  if String.eqb (fst m) "lat" then isNumber (snd m)
  else if String.eqb (fst m) "lon" then isNumber (snd m)
  else if String.eqb (fst m) "h_acc" then isNumber (snd m)
  else if String.eqb (fst m) "src" then
    isArray (snd m) && forallb source_element_ok (array_elements (snd m))
  else true.

#[local] Instance sample_errors : SystemErrors := {|
  SYSTEM_ERROR_NOT_ENOUGH_DATA := -171;
  SYSTEM_ERROR_NOT_SUPPORTED := -120
|}.

Definition sample_enhanced : JSONValue :=
  JSONObject
    [("cmd"%string, JSONString "loc-enhanced");
     ("loc-enhanced"%string,
      JSONObject
        [("lat"%string, JSONNumber 1); ("lon"%string, JSONNumber 2);
         ("h_acc"%string, JSONNumber 3);
         ("src"%string,
          JSONArray [JSONString "cell"; JSONString "beacon"; JSONString "wifi"])])].

(** An object that builds the tower block, a serving tower and three
    neighbours, and the lines of two answers of the modem. *)
Definition tower_state : TrackerLocation :=
  set_config_state_loop_safe
    (mkConfig 60 600 false false false true false false false false)
    sample_state.

Definition sample_serving : CellularServing :=
  mkCellularServing RadioAccessTechnology.LTE 310 410 100 200 (-90).

Definition three_neighbors : list CellularNeighbors :=
  [mkCellularNeighbors RadioAccessTechnology.LTE 5110 301 (-10) (-95) (-70);
   mkCellularNeighbors RadioAccessTechnology.LTE 5110 302 (-11) (-96) (-71);
   mkCellularNeighbors RadioAccessTechnology.LTE 5110 303 (-12) (-97) (-72)].

Definition good_serving_line : ServingScan :=
  mkServingScan 7 "NOCONN" "LTE" 310 410 100 200 (-90).

Definition short_serving_line : ServingScan :=
  mkServingScan 2 "SEARCH" "" 0 0 0 0 0.

Definition neighbor_lines : list NeighborScan :=
  [mkNeighborScan 6 "LTE" 5110 301 (-10) (-95) (-70);
   mkNeighborScan 1 "" 0 0 0 0 0;
   mkNeighborScan 6 "GSM" 1 2 3 4 5].

(** The test [enhanced_cb] puts to a member of the root object. *)
Definition is_loc_enhanced (item : string * JSONValue) : bool :=
  String.eqb (fst item) "loc-enhanced" && isObject (snd item).

(** * Properties *)

(** ** Proof tools *)

(** Closed facts about sample data are settled by evaluation. *)
Ltac by_evaluation :=
  vm_compute; repeat split;
  first [reflexivity | discriminate | intro; discriminate].

(** Reads of fields through the updates made before them. *)
Ltac state_simpl :=
  cbn [
      _config_state _config_state_shadow _config_state_loop_safe
      _pending_triggers _pending_immediate _first_publish
      _pending_first_publish _newMonotonic _last_location_publish_sec
      _monotonic_publish_sec _gnssStartedSec _firstLockSec _nextEarlyWake
      _earlyWake _loopSampleTick _lastGnssState location_publish_retry_str
      locGenCallbacks locPubCallbacks pendingLocPubCallbacks servingTower
      towerList wpsList cloud_writer cloud_sent callback_log service_log
      set_config_state set_config_state_shadow set_config_state_loop_safe
      set_pending_triggers set_pending_immediate set_first_publish
      set_pending_first_publish set_newMonotonic
      set_last_location_publish_sec set_monotonic_publish_sec
      set_gnssStartedSec set_firstLockSec set_nextEarlyWake set_earlyWake
      set_loopSampleTick set_lastGnssState set_location_publish_retry_str
      set_locGenCallbacks set_locPubCallbacks set_pendingLocPubCallbacks
      set_servingTower set_towerList set_wpsList set_cloud_writer
      set_cloud_sent set_callback_log set_service_log log_service write
      fst snd
  ].

(** Case analysis on the conditions a definition branches on. *)
Ltac break_match :=
  match goal with
  | |- context [match ?c with _ => _ end] => destruct c eqn:?
  end.

(** A field that no branch touches. *)
Ltac frame := intros; repeat break_match; reflexivity.

(** ** Machine integers *)

Lemma u32_range (z : Z) : 0 <= u32 z < 2 ^ 32.
Proof. unfold u32. apply Z.mod_pos_bound. lia. Qed.

Lemma u32_small (z : Z) : 0 <= z < 2 ^ 32 -> u32 z = z.
Proof. intros H. unfold u32. apply Z.mod_small. exact H. Qed.

Lemma u32_sub_le (a b : Z) : 0 <= b <= a -> a < 2 ^ 32 -> u32 (a - b) = a - b.
Proof. intros Hb Ha. apply u32_small. lia. Qed.

Lemma i32_le (z : Z) : 0 <= z -> i32 z <= z.
Proof.
  intros Hz. unfold i32.
  assert (H : (z + 2 ^ 31) mod 2 ^ 32 <= z + 2 ^ 31) by (apply Z.mod_le; lia).
  lia.
Qed.

Lemma nonempty_true {A : Type} (l : list A) : l <> [] -> nonempty l = true.
Proof. destruct l as [|x l]; [congruence | reflexivity]. Qed.

(** ** The publish evaluator *)

Lemma lead_adjusted_cases (interval lead : Z) :
  0 <= lead -> 0 <= interval < 2 ^ 32 ->
  lead_adjusted interval lead
  = if lead <? interval then interval - lead else interval.
Proof.
  intros Hl Hi. unfold lead_adjusted.
  destruct (Z.ltb_spec lead interval); [apply u32_sub_le; lia | reflexivity].
Qed.

(** Once the immediate and first-publish cases are out of the way the
    evaluator is a function of the two elapsed times. *)
Lemma evaluatePublish_steady (now connecting : Z) (s : TrackerLocation) :
  _pending_immediate s = false ->
  _first_publish s && negb (_pending_first_publish s) = false ->
  evaluatePublish now connecting s
  = let interval := elapsed_since_publish now s in
    let maxInterval := elapsed_since_anchor now s in
    let max := u32 (interval_max_seconds (_config_state s)) in
    let min := u32 (interval_min_seconds (_config_state s)) in
    let lead := u32 (_nextEarlyWake s) in
    let max_configured := negb (interval_max_seconds (_config_state s) =? 0) in
    let no_min := interval_min_seconds (_config_state s) =? 0 in
    if max_configured && (max <=? maxInterval) then
      mkEvaluationResults PublishReason.TIME true
        (u32 (maxInterval - max) <? LockTimeoutSec)
    else if nonempty (_pending_triggers s) && (no_min || (min <=? interval)) then
      mkEvaluationResults PublishReason.TRIGGERS true
        (u32 (interval - min) <? LockTimeoutSec)
    else
      mkEvaluationResults PublishReason.NONE
        ((max_configured && (lead_adjusted max lead <=? maxInterval))
         || (nonempty (_pending_triggers s)
             && (no_min || (lead_adjusted min lead <=? interval))))
        false.
Proof.
  intros Him Hfirst. unfold evaluatePublish, elapsed_since_publish, elapsed_since_anchor.
  rewrite Him, Hfirst. cbv zeta.
  destruct (negb (interval_max_seconds (_config_state s) =? 0)
            && (u32 (interval_max_seconds (_config_state s))
                <=? u32 (now - _monotonic_publish_sec s))); [reflexivity|].
  destruct (nonempty (_pending_triggers s)); cbn [andb];
    [|rewrite orb_false_r; reflexivity].
  destruct (interval_min_seconds (_config_state s) =? 0); cbn [orb]; [reflexivity|].
  destruct (u32 (interval_min_seconds (_config_state s))
            <=? u32 (now - _last_location_publish_sec s)); [reflexivity|].
  destruct (lead_adjusted _ _ <=? u32 (now - _last_location_publish_sec s));
    [rewrite orb_true_r|rewrite orb_false_r]; reflexivity.
Qed.




(** C2, as amended.  With [interval_min_seconds] 60 and
    [interval_max_seconds] 600, no immediate request pending, the first
    publish completed and fewer than 600 s elapsed since the anchor: the
    evaluator returns NONE at every instant before 60 s have elapsed since
    the last publish; with a trigger pending and an early-wake lead below
    60 s it marks networkNeeded from 60 s minus the lead on, still with
    reason NONE; it returns TRIGGERS, with networkNeeded set, once 60 s
    have elapsed. *)
Theorem evaluatePublish_trigger_scenario (now connecting : Z) (s : TrackerLocation) :
  interval_min_seconds (_config_state s) = 60 ->
  interval_max_seconds (_config_state s) = 600 ->
  _pending_immediate s = false ->
  _first_publish s = false ->
  elapsed_since_anchor now s < 600 ->
  let t := elapsed_since_publish now s in
  let lead := u32 (_nextEarlyWake s) in
  let r := evaluatePublish now connecting s in
  (t < 60 -> reason r = PublishReason.NONE)
  /\ (_pending_triggers s <> [] -> 0 < lead < 60 -> 60 - lead <= t < 60 ->
      r = mkEvaluationResults PublishReason.NONE true false)
  /\ (_pending_triggers s <> [] -> 60 <= t ->
      r = mkEvaluationResults PublishReason.TRIGGERS true
            (t - 60 <? LockTimeoutSec)).
Proof.
  intros Hmin Hmax Him Hfirst Hanchor t lead r.
  assert (Hr : r = evaluatePublish now connecting s) by reflexivity.
  rewrite evaluatePublish_steady in Hr by (rewrite ?Hfirst; auto).
  cbv zeta in Hr. fold t lead in Hr. rewrite Hmin, Hmax in Hr.
  change (u32 600) with 600 in Hr. change (u32 60) with 60 in Hr.
  change (negb (600 =? 0)) with true in Hr. change (60 =? 0) with false in Hr.
  cbn [andb orb] in Hr.
  assert (Hrt : 0 <= t < 2 ^ 32) by apply u32_range.
  assert (Hrl : 0 <= lead < 2 ^ 32) by apply u32_range.
  destruct (Z.leb_spec 600 (elapsed_since_anchor now s)) as [Hge|_]; [lia|].
  repeat split.
  - intros Ht. rewrite Hr.
    destruct (Z.leb_spec 60 t); [lia|]. rewrite andb_false_r. reflexivity.
  - intros Hp Hl Ht. rewrite Hr, (nonempty_true _ Hp). cbn [andb].
    destruct (Z.leb_spec 60 t); [lia|].
    rewrite (lead_adjusted_cases 60 lead) by lia.
    destruct (Z.ltb_spec lead 60); [|lia].
    destruct (Z.leb_spec (60 - lead) t); [|lia].
    rewrite orb_true_r. reflexivity.
  - intros Hp Ht. rewrite Hr, (nonempty_true _ Hp). cbn [andb].
    destruct (Z.leb_spec 60 t); [|lia].
    rewrite (u32_sub_le t 60) by lia. reflexivity.
Qed.

(** C2 as stated fails: 50 s after the last publish, which is 60 s minus a
    lead of 10 s, with a trigger pending, the evaluator does not report
    TRIGGERS. *)
Lemma evaluatePublish_no_trigger_at_lead :
  interval_min_seconds (_config_state triggered_state) = 60
  /\ interval_max_seconds (_config_state triggered_state) = 600
  /\ _pending_triggers triggered_state <> []
  /\ elapsed_since_publish 1050 triggered_state
     = 60 - u32 (_nextEarlyWake triggered_state)
  /\ ~ (reason (evaluatePublish 1050 90 triggered_state) = PublishReason.TRIGGERS
        /\ networkNeeded (evaluatePublish 1050 90 triggered_state) = true).
Proof.
  repeat split; try reflexivity; try discriminate.
  intros [H _]. vm_compute in H. discriminate.
Qed.

(** An instance: lead 10 s, evaluated 30 s, 50 s and 60 s after the last publish. *)
Lemma evaluatePublish_trigger_scenario_witness :
  reason (evaluatePublish 1030 90 triggered_state) = PublishReason.NONE
  /\ evaluatePublish 1050 90 triggered_state
     = mkEvaluationResults PublishReason.NONE true false
  /\ evaluatePublish 1060 90 triggered_state
     = mkEvaluationResults PublishReason.TRIGGERS true true.
Proof.
  assert (Hp : _pending_triggers triggered_state <> []) by discriminate.
  assert (Ha : forall now, 1000 <= now < 1600 ->
                 elapsed_since_anchor now triggered_state < 600).
  { intros now Hnow. unfold elapsed_since_anchor. simpl.
    rewrite u32_small; lia. }
  destruct (evaluatePublish_trigger_scenario 1030 90 triggered_state
              eq_refl eq_refl eq_refl eq_refl (Ha 1030 ltac:(lia))) as [H30 _].
  destruct (evaluatePublish_trigger_scenario 1050 90 triggered_state
              eq_refl eq_refl eq_refl eq_refl (Ha 1050 ltac:(lia))) as [_ [H50 _]].
  destruct (evaluatePublish_trigger_scenario 1060 90 triggered_state
              eq_refl eq_refl eq_refl eq_refl (Ha 1060 ltac:(lia))) as [_ [_ H60]].
  split; [|split].
  - apply H30. by_evaluation.
  - apply H50; [exact Hp | by_evaluation | by_evaluation].
  - apply H60; [exact Hp | by_evaluation].
Defined.

(** ** Configuration transaction *)

(** C5.  On exit from a write whose shadow copy has [interval_min_seconds]
    above [interval_max_seconds], the validation answers [-EINVAL] and the
    object is left as it was (whatever status the parameter layer reports,
    the answer is nonzero and nothing is copied); a write that passes the
    validation answers 0 and the whole shadow copy becomes the live
    configuration. *)
Theorem exit_location_config_cb_validates (status : Z) (s : TrackerLocation) :
  let shadow := _config_state_shadow s in
  (interval_max_seconds shadow < interval_min_seconds shadow ->
     exit_location_config_cb true 0 s = (- EINVAL, s)
     /\ fst (exit_location_config_cb true status s) <> 0
     /\ snd (exit_location_config_cb true status s) = s)
  /\ (interval_min_seconds shadow <= interval_max_seconds shadow ->
     exit_location_config_cb true 0 s = (0, set_config_state shadow s)
     /\ _config_state (snd (exit_location_config_cb true 0 s)) = shadow).
Proof.
  intros shadow. unfold exit_location_config_cb. fold shadow. split.
  - intros Hlt. apply Z.ltb_lt in Hlt. cbn [andb Z.eqb]. rewrite Hlt.
    split; [reflexivity|].
    destruct (Z.eqb_spec status 0) as [->|Hne]; cbn [andb fst snd];
      [split; [discriminate | reflexivity] | split; [exact Hne | reflexivity]].
  - intros Hle. apply Z.ltb_ge in Hle. cbn [andb Z.eqb]. rewrite Hle.
    split; reflexivity.
Qed.

(** An instance: the whole transaction for a write of 500 and 100, and for a write that changes nothing. *)
Lemma exit_location_config_cb_validates_witness :
  config_write edit_500_100 0 sample_state
  = (- EINVAL,
     set_config_state_shadow (edit_500_100 (_config_state sample_state)) sample_state)
  /\ _config_state (snd (config_write edit_500_100 0 sample_state))
     = _config_state sample_state
  /\ _config_state (snd (config_write (fun c => c) 0 short_max_state))
     = _config_state_shadow
         (set_config_state_shadow (_config_state short_max_state) short_max_state).
Proof.
  split; [|split].
  - apply (exit_location_config_cb_validates 0
             (set_config_state_shadow (edit_500_100 (_config_state sample_state))
                (snd (enter_location_config_cb true sample_state)))).
    by_evaluation.
  - reflexivity.
  - apply (exit_location_config_cb_validates 0
             (set_config_state_shadow (_config_state short_max_state)
                (snd (enter_location_config_cb true short_max_state)))).
    by_evaluation.
Defined.

(** ** Sleep preparation *)

Lemma newEarlyWakeSec_range (lastWakeMs connecting : Z) (s : TrackerLocation) :
  0 <= newEarlyWakeSec lastWakeMs (u32 connecting) s < 2 ^ 32.
Proof.
  unfold newEarlyWakeSec. cbv zeta.
  match goal with |- context [if ?c then _ else _] => destruct c end;
    apply u32_range.
Qed.

(** C8, as amended.  [onSleepPrepare] takes as target the last publish
    time plus [interval_min_seconds] when triggers are pending and plus
    [interval_max_seconds] otherwise; it takes the early-wake lead off a
    target that exceeds the lead and leaves any other target as it is; it
    asks the sleep service for that wake time and, when the service answers
    that the time is in the past, asks for wake time 0. *)
Theorem onSleepPrepare_wake
    (lastWakeMs : Z) (isFullWakeCycle : bool) (connecting : Z)
    (wakeAt : Z -> TrackerSleepError.t) (s : TrackerLocation) :
  0 <= _earlyWake s < 2 ^ 32 ->
  let s' := onSleepPrepare lastWakeMs isFullWakeCycle connecting wakeAt s in
  let target :=
    u32 (_last_location_publish_sec s
         + (if nonempty (_pending_triggers s)
            then interval_min_seconds (_config_state s)
            else interval_max_seconds (_config_state s))) in
  let lead := _nextEarlyWake s' in
  let wake := if lead <? target then target - lead else target in
  lead = (if isFullWakeCycle then newEarlyWakeSec lastWakeMs (u32 connecting) s
          else if _earlyWake s =? 0 then u32 connecting else _earlyWake s)
  /\ service_log s'
     = service_log s
       ++ wakeAtSeconds wake
          :: match wakeAt wake with
             | TrackerSleepError.TIME_IN_PAST => [wakeAtSeconds 0]
             | TrackerSleepError.NONE => []
             end.
Proof.
  intros Hearly. cbv zeta.
  set (target := u32 (_last_location_publish_sec s
                      + (if nonempty (_pending_triggers s)
                         then interval_min_seconds (_config_state s)
                         else interval_max_seconds (_config_state s)))).
  set (early := if isFullWakeCycle
                then newEarlyWakeSec lastWakeMs (u32 connecting) s
                else if _earlyWake s =? 0 then u32 connecting else _earlyWake s).
  assert (Hlead : _nextEarlyWake
                    (onSleepPrepare lastWakeMs isFullWakeCycle connecting wakeAt s)
                  = early).
  { unfold onSleepPrepare. cbv zeta.
    destruct isFullWakeCycle;
      match goal with |- context [wakeAt ?w] => destruct (wakeAt w) end;
      reflexivity. }
  rewrite Hlead. split; [reflexivity|].
  assert (Hrange : 0 <= early < 2 ^ 32).
  { subst early. destruct isFullWakeCycle; [apply newEarlyWakeSec_range|].
    destruct (_earlyWake s =? 0); [apply u32_range | exact Hearly]. }
  assert (Htarget : 0 <= target < 2 ^ 32) by apply u32_range.
  assert (Hwake : (if early <? target then target - early else target)
                  = if early <? target then u32 (target - early) else target).
  { destruct (Z.ltb_spec early target); [|reflexivity].
    symmetry. apply u32_sub_le; lia. }
  rewrite Hwake. clear Hwake Hlead Hrange Htarget.
  unfold onSleepPrepare. cbv zeta. fold target.
  destruct isFullWakeCycle; subst early; state_simpl;
    match goal with |- context [wakeAt ?w] => destruct (wakeAt w) end;
    state_simpl; rewrite <- ?app_assoc; reflexivity.
Qed.

(** C8 as stated fails: 20 s after start, with the last publish at 10 s,
    [interval_max_seconds] 50 and a lead of 90 s, the target less the lead
    lies in the past, yet the sleep is not cancelled: the one wake time
    asked for is the target itself. *)
Lemma onSleepPrepare_lead_above_target :
  let s' := onSleepPrepare 0 false 90 (wakeAt_uptime 20) early_boot_state in
  let wake := spec_wake early_boot_state (_nextEarlyWake s') in
  wakeAt_uptime 20 wake = TrackerSleepError.TIME_IN_PAST
  /\ service_log s' = [wakeAtSeconds 60]
  /\ ~ In (wakeAtSeconds 0) (service_log s')
  /\ ~ In (wakeAtSeconds wake) (service_log s')
  /\ ~ In (wakeAtSeconds (u32 wake)) (service_log s').
Proof.
  cbv zeta. split; [reflexivity|]. split; [reflexivity|].
  repeat split; intros [H|[]]; vm_compute in H; discriminate H.
Qed.

(** An instance: last publish at 1000 s, lead 90 s, asked at uptime 1200 and at uptime 1550. *)
Lemma onSleepPrepare_wake_witness :
  service_log (onSleepPrepare 0 false 90 (wakeAt_uptime 1200) sample_state)
  = [wakeAtSeconds 1510]
  /\ service_log (onSleepPrepare 0 false 90 (wakeAt_uptime 1550) sample_state)
     = [wakeAtSeconds 1510; wakeAtSeconds 0].
Proof.
  assert (He : 0 <= _earlyWake sample_state < 2 ^ 32) by (simpl; lia).
  split.
  - exact (proj2 (onSleepPrepare_wake 0 false 90 (wakeAt_uptime 1200) sample_state He)).
  - exact (proj2 (onSleepPrepare_wake 0 false 90 (wakeAt_uptime 1550) sample_state He)).
Defined.

(** ** The retry slot *)

Section RetryProofs.
Context {W : CloudWriter}.

Lemma busy_with_retry_copy (malloc_ok : bool) (text : string)
    (s : TrackerLocation) :
  location_publish_retry_str s = Some text ->
  location_publish (- EBUSY) malloc_ok s
  = set_cloud_sent (cloud_sent s ++ [text]) s.
Proof.
  intros Hretry. unfold location_publish. rewrite Hretry. cbn.
  rewrite Hretry. reflexivity.
Qed.

Lemma busy_attempts_with_retry_copy (busy : nat) (malloc_ok : bool) (text : string)
    (s : TrackerLocation) :
  location_publish_retry_str s = Some text ->
  Nat.iter busy (location_publish (- EBUSY) malloc_ok) s
  = set_cloud_sent (cloud_sent s ++ repeat text busy) s.
Proof.
  intros Hretry. induction busy as [|busy IH].
  - cbn. rewrite app_nil_r. destruct s; reflexivity.
  - rewrite Nat.iter_succ, IH.
    rewrite (busy_with_retry_copy malloc_ok text) by exact Hretry.
    state_simpl. rewrite <- app_assoc.
    change [text] with (repeat text 1). rewrite <- repeat_app.
    rewrite Nat.add_1_r. reflexivity.
Qed.



(** C4.  When [cloud_service.send] answers [-EBUSY] and no retry copy
    exists, the text of the writer's buffer becomes the retry copy and no
    completion callback is called; if the copy cannot be allocated, the
    pending callbacks are called at once with FAILURE and that text, and
    the pending list is emptied. *)
Theorem location_publish_busy (malloc_ok : bool) (s : TrackerLocation) :
  location_publish_retry_str s = None ->
  let s' := location_publish (- EBUSY) malloc_ok s in
  let payload := writer_buffer (cloud_writer s) in
  if malloc_ok then
    location_publish_retry_str s' = Some payload
    /\ callback_log s' = callback_log s
    /\ pendingLocPubCallbacks s' = pendingLocPubCallbacks s
  else
    location_publish_retry_str s' = None
    /\ callback_log s'
       = callback_log s
         ++ map (fun cb => mkCallbackCall cb CloudServiceStatus.FAILURE
                             None (Some payload))
                (pendingLocPubCallbacks s)
    /\ pendingLocPubCallbacks s' = [].
Proof.
  intros Hnone s' payload. subst s'. unfold location_publish.
  rewrite Hnone. cbn. rewrite Hnone.
  destruct malloc_ok; repeat split; try reflexivity; cbn; exact Hnone.
Qed.

End RetryProofs.


(** An instance: two callbacks waiting, with and without memory for the copy. *)
Lemma location_publish_busy_witness :
  location_publish_retry_str (location_publish (- EBUSY) true in_flight_state)
  = Some "<loc>loc:{lck:#}"%string
  /\ callback_log (location_publish (- EBUSY) false in_flight_state)
     = [mkCallbackCall 1%nat CloudServiceStatus.FAILURE None
          (Some "<loc>loc:{lck:#}"%string);
        mkCallbackCall 2%nat CloudServiceStatus.FAILURE None
          (Some "<loc>loc:{lck:#}"%string)].
Proof.
  split.
  - exact (proj1 (location_publish_busy true in_flight_state eq_refl)).
  - exact (proj1 (proj2 (location_publish_busy false in_flight_state eq_refl))).
Defined.

(** ** Pending triggers *)

Lemma trigger_matched_In (pending : list string) (name : string) :
  trigger_matched pending name = true <-> In name pending.
Proof.
  induction pending as [|trigger rest IH]; cbn.
  - split; [discriminate | intros []].
  - destruct (String.eqb_spec trigger name) as [->|Hne].
    + split; auto.
    + rewrite IH. split; [auto | intros [H|H]; [congruence | exact H]].
Qed.

Lemma triggerLocPub_pending (type : Trigger.t) (name : string) (s : TrackerLocation) :
  _pending_triggers (triggerLocPub type name s)
  = if trigger_matched (_pending_triggers s) name
    then _pending_triggers s
    else _pending_triggers s ++ [name].
Proof.
  unfold triggerLocPub.
  destruct (trigger_matched (_pending_triggers s) name), type; reflexivity.
Qed.

Lemma triggerLocPub_In (type : Trigger.t) (name : string) (s : TrackerLocation) :
  In name (_pending_triggers (triggerLocPub type name s)).
Proof.
  rewrite triggerLocPub_pending.
  destruct (trigger_matched (_pending_triggers s) name) eqn:Hm.
  - apply trigger_matched_In. exact Hm.
  - apply in_or_app. right. left. reflexivity.
Qed.

Lemma triggerLocPub_keeps (type : Trigger.t) (name other : string)
    (s : TrackerLocation) :
  In other (_pending_triggers s) ->
  In other (_pending_triggers (triggerLocPub type name s)).
Proof.
  intros Hin. rewrite triggerLocPub_pending.
  destruct (trigger_matched (_pending_triggers s) name);
    [exact Hin | apply in_or_app; left; exact Hin].
Qed.

(** The names of the pending set are pairwise distinct: an invariant of
    every request. *)
Lemma triggerLocPub_NoDup (type : Trigger.t) (name : string) (s : TrackerLocation) :
  NoDup (_pending_triggers s) ->
  NoDup (_pending_triggers (triggerLocPub type name s)).
Proof.
  intros Hnd. rewrite triggerLocPub_pending.
  destruct (trigger_matched (_pending_triggers s) name) eqn:Hm; [exact Hnd|].
  apply NoDup_app; [exact Hnd | constructor; [intros [] | constructor] |].
  intros x Hx [<-|[]].
  apply trigger_matched_In in Hx. congruence.
Qed.





(** ** Payload assembly *)

Lemma counted_firstn {A : Type} (count : Z) (l : list A) :
  counted count l = firstn (Z.to_nat count) l.
Proof.
  revert count. induction l as [|x l IH]; intros count; cbn.
  - rewrite firstn_nil. reflexivity.
  - destruct (Z.leb_spec count 0) as [Hle|Hgt].
    + replace (Z.to_nat count) with 0%nat by lia. reflexivity.
    + replace (Z.to_nat count) with (S (Z.to_nat (count - 1))) by lia.
      cbn. rewrite IH. reflexivity.
Qed.

Lemma counted_length {A : Type} (count : Z) (l : list A) :
  Z.of_nat (List.length (counted count l)) <= Z.max 0 count.
Proof.
  rewrite counted_firstn, length_firstn. lia.
Qed.

Lemma firstn_self_length {A : Type} (n : nat) (l : list A) :
  firstn n l = firstn (List.length (firstn n l)) l.
Proof.
  rewrite length_firstn.
  destruct (Nat.le_ge_cases n (List.length l)) as [H|H].
  - rewrite Nat.min_l by exact H. reflexivity.
  - rewrite Nat.min_r by exact H.
    rewrite firstn_all. apply firstn_all2. exact H.
Qed.

Section BuildProofs.
Context {L : TrackerLimits} {W : CloudWriter}.

(** The scan fills [wpsList] up to the collection limit, in the order of
    the report, and touches nothing else. *)
Lemma wifi_scan_collects (scan : list WiFiAccessPoint) (s : TrackerLocation) :
  fold_left wifi_cb scan s
  = set_wpsList
      (wpsList s
       ++ firstn (Z.to_nat (TrackerLocationMaxWpsCollect
                            - Z.of_nat (List.length (wpsList s)))) scan) s.
Proof.
  revert s. induction scan as [|wap scan IH]; intros s.
  - cbn. rewrite firstn_nil, app_nil_r. destruct s; reflexivity.
  - cbn [fold_left]. unfold wifi_cb at 2.
    destruct (Z.ltb_spec (Z.of_nat (List.length (wpsList s)))
                TrackerLocationMaxWpsCollect) as [Hlt|Hge].
    + rewrite IH. state_simpl. rewrite length_app, <- app_assoc. cbn [List.length app].
      replace (Z.to_nat (TrackerLocationMaxWpsCollect
                         - Z.of_nat (List.length (wpsList s))))
        with (S (Z.to_nat (TrackerLocationMaxWpsCollect
                           - Z.of_nat (List.length (wpsList s) + 1)))) by lia.
      reflexivity.
    + rewrite IH.
      replace (Z.to_nat (TrackerLocationMaxWpsCollect
                         - Z.of_nat (List.length (wpsList s)))) with 0%nat by lia.
      reflexivity.
Qed.

Lemma u32_sub_diag (z : Z) : u32 (z - z) = 0.
Proof. rewrite Z.sub_diag. reflexivity. Qed.

Lemma wps_quota_nonneg (size : Z) :
  ObjectEstimateWpsHeaderSize <= size ->
  0 <= (size - ObjectEstimateWpsHeaderSize) / ObjectEstimateWpsDataSize.
Proof.
  unfold ObjectEstimateWpsHeaderSize, ObjectEstimateWpsDataSize. intros H.
  apply Z.div_pos; lia.
Qed.

(** C9.  Whatever byte budget [buildWpsInfo] is given, the access points
    it writes are a prefix of the scan's report, at most
    [(budget - header estimate) / per-entry estimate] of them (none when
    that number is negative); when the budget does not exceed the header
    estimate, when the quotient is 0 or when the scan reports nothing, the
    writer is left as it was and the size returned is 0. *)
Theorem buildWpsInfo_entries_bounded (r : Radio) (size : Z) (s : TrackerLocation) :
  let quota := (size - ObjectEstimateWpsHeaderSize) / ObjectEstimateWpsDataSize in
  let res := buildWpsInfo r size s in
  exists entries : list WiFiAccessPoint,
    (cloud_writer (snd res) = cloud_writer s /\ entries = []
     \/ cloud_writer (snd res)
        = cloud_writer s
          ++ [Jname "wps"; JbeginArray]
          ++ flat_map wps_object entries ++ [JendArray])
    /\ entries = firstn (List.length entries) (wifi_scan r)
    /\ Z.of_nat (List.length entries) <= Z.max 0 quota
    /\ (ObjectEstimateWpsHeaderSize <= size ->
        Z.of_nat (List.length entries) <= quota)
    /\ (size <= ObjectEstimateWpsHeaderSize \/ quota = 0 \/ wifi_scan r = [] ->
        cloud_writer (snd res) = cloud_writer s /\ fst res = 0).
Proof.
  intros quota res.
  assert (Hnothing : forall out : Z * TrackerLocation,
             cloud_writer (snd out) = cloud_writer s -> fst out = 0 ->
             exists entries : list WiFiAccessPoint,
               (cloud_writer (snd out) = cloud_writer s /\ entries = []
                \/ cloud_writer (snd out)
                   = cloud_writer s
                     ++ [Jname "wps"; JbeginArray]
                     ++ flat_map wps_object entries ++ [JendArray])
               /\ entries = firstn (List.length entries) (wifi_scan r)
               /\ Z.of_nat (List.length entries) <= Z.max 0 quota
               /\ (ObjectEstimateWpsHeaderSize <= size ->
                   Z.of_nat (List.length entries) <= quota)
               /\ (size <= ObjectEstimateWpsHeaderSize \/ quota = 0
                   \/ wifi_scan r = [] ->
                   cloud_writer (snd out) = cloud_writer s /\ fst out = 0)).
  { intros out Hw Hz. exists []. cbn [List.length firstn].
    split; [left; split; [exact Hw | reflexivity]|].
    split; [reflexivity|]. split; [lia|].
    split; [intros Hs; apply (wps_quota_nonneg size Hs)|].
    intros _. split; assumption. }
  subst res. unfold buildWpsInfo.
  destruct (wps (_config_state_loop_safe s)); cbn [negb];
    [|apply (Hnothing (0, s)); reflexivity].
  cbv zeta. fold quota.
  destruct (Z.leb_spec size ObjectEstimateWpsHeaderSize) as [Hsmall|Hbig];
    [apply (Hnothing (u32 (writer_dataSize (cloud_writer s)
                           - writer_dataSize (cloud_writer s)), s));
     [reflexivity | apply u32_sub_diag]|].
  destruct (Z.eqb_spec quota 0) as [Hzero|Hpos];
    [apply (Hnothing (u32 (writer_dataSize (cloud_writer s)
                           - writer_dataSize (cloud_writer s)), s));
     [reflexivity | apply u32_sub_diag]|].
  rewrite wifi_scan_collects. state_simpl. cbn [List.length app].
  set (collected := firstn (Z.to_nat (TrackerLocationMaxWpsCollect - Z.of_nat 0))
                      (wifi_scan r)).
  destruct (nonempty collected) eqn:Hne.
  - clear Hnothing. unfold wps_selected. state_simpl. fold quota.
    exists (counted (i32 quota) collected).
    assert (Hq : 0 <= quota) by (apply wps_quota_nonneg; lia).
    split; [right; rewrite <- !app_assoc; reflexivity|].
    split.
    { rewrite counted_firstn. subst collected. rewrite firstn_firstn.
      apply firstn_self_length. }
    split.
    { pose proof (counted_length (i32 quota) collected).
      pose proof (i32_le quota Hq). lia. }
    split.
    { intros _. pose proof (counted_length (i32 quota) collected).
      pose proof (i32_le quota Hq). lia. }
    intros [H|[H|H]]; [lia | lia |].
    subst collected. rewrite H, firstn_nil in Hne. discriminate Hne.
  - apply (Hnothing (u32 (writer_dataSize (cloud_writer s)
                          - writer_dataSize (cloud_writer s)),
                     set_wpsList collected (set_wpsList [] s)));
      [reflexivity | apply u32_sub_diag].
Qed.

End BuildProofs.

(** ** What the parts of a pass leave alone *)

Lemma fold_left_frame {A X : Type} (proj : TrackerLocation -> X)
    (f : TrackerLocation -> A -> TrackerLocation) :
  (forall s a, proj (f s a) = proj s) ->
  forall l s, proj (fold_left f l s) = proj s.
Proof.
  intros Hf l. induction l as [|a l IH]; intros s; cbn.
  - reflexivity.
  - rewrite IH. apply Hf.
Qed.

Lemma triggerLocPub_normal_schedule (name : string) (s : TrackerLocation) :
  schedule_of (triggerLocPub Trigger.NORMAL name s) = schedule_of s.
Proof. unfold triggerLocPub. frame. Qed.

Lemma triggerLocPub_cloud (type : Trigger.t) (name : string) (s : TrackerLocation) :
  cloud_of (triggerLocPub type name s) = cloud_of s.
Proof. unfold triggerLocPub. frame. Qed.

Section FrameProofs.
Context {L : TrackerLimits} {W : CloudWriter}.

Lemma serving_collects (rsp : list CellularServing) (s : TrackerLocation) :
  exists t : CellularServing, fold_left serving_cb rsp s = set_servingTower t s.
Proof.
  revert s. induction rsp as [|parsed rsp IH]; intros s.
  - exists (servingTower s). destruct s; reflexivity.
  - cbn [fold_left]. destruct (IH (serving_cb s parsed)) as [t Ht].
    exists t. rewrite Ht. reflexivity.
Qed.

Lemma neighbor_collects (rsp : list CellularNeighbors) (s : TrackerLocation) :
  fold_left neighbor_cb rsp s = set_towerList (towerList s ++ rsp) s.
Proof.
  revert s. induction rsp as [|parsed rsp IH]; intros s.
  - cbn. rewrite app_nil_r. destruct s; reflexivity.
  - cbn [fold_left]. rewrite IH. unfold neighbor_cb. state_simpl.
    rewrite <- app_assoc. reflexivity.
Qed.

(** The tower block appends to the writer and keeps to its own fields. *)
Lemma buildTowerInfo_frame (r : Radio) (size : Z) (s : TrackerLocation) :
  let s' := snd (buildTowerInfo r size s) in
  schedule_of s' = schedule_of s
  /\ _pending_triggers s' = _pending_triggers s
  /\ _config_state_loop_safe s' = _config_state_loop_safe s
  /\ exists evs, cloud_writer s' = cloud_writer s ++ evs.
Proof.
  unfold buildTowerInfo. cbv zeta.
  destruct (tower (_config_state_loop_safe s)); cbn [negb snd];
    [|repeat split; exists []; rewrite app_nil_r; reflexivity].
  destruct (serving_collects (serving_rsp r) s) as [t ->].
  state_simpl.
  destruct (serving_rat t); rewrite ?neighbor_collects; state_simpl;
    repeat split;
    first [ exists []; rewrite app_nil_r; reflexivity
          | eexists; rewrite <- !app_assoc; reflexivity ].
Qed.

Lemma buildWpsInfo_frame (r : Radio) (size : Z) (s : TrackerLocation) :
  let s' := snd (buildWpsInfo r size s) in
  schedule_of s' = schedule_of s
  /\ _pending_triggers s' = _pending_triggers s
  /\ exists evs, cloud_writer s' = cloud_writer s ++ evs.
Proof.
  unfold buildWpsInfo. cbv zeta.
  rewrite wifi_scan_collects.
  repeat break_match; state_simpl; repeat split;
    first [ exists []; rewrite app_nil_r; reflexivity
          | eexists; rewrite <- !app_assoc; reflexivity ].
Qed.

(** A report starts a fresh message, lists every pending trigger in its
    [trig] array and empties the pending set; the schedule is left to the
    caller. *)
Lemma buildPublish_frame (r : Radio) (cur_loc : LocationPoint) (s : TrackerLocation) :
  let s' := buildPublish r cur_loc s in
  schedule_of s' = schedule_of s
  /\ _pending_triggers s' = []
  /\ (_pending_triggers s <> [] ->
      exists pre post,
        cloud_writer s' = pre ++ trig_array (_pending_triggers s) ++ post).
Proof.
  unfold buildPublish. cbv zeta.
  set (locked_now := if gnss (_config_state s) then locked cur_loc else false).
  set (s1 := if locked_now
             then log_service (setWayPoint (latitude cur_loc) (longitude cur_loc)) s
             else s).
  assert (H1 : schedule_of s1 = schedule_of s
               /\ _pending_triggers s1 = _pending_triggers s)
    by (subst s1; destruct locked_now; split; reflexivity).
  destruct H1 as [Hs1 Hp1].
  set (s2 := write (loc_object locked_now cur_loc (set_cloud_writer [JbeginCommand "loc"] s1))
               (set_cloud_writer [JbeginCommand "loc"] s1)).
  assert (H2 : schedule_of s2 = schedule_of s
               /\ _pending_triggers s2 = _pending_triggers s
               /\ cloud_writer s2
                  = [JbeginCommand "loc"]
                    ++ loc_object locked_now cur_loc
                         (set_cloud_writer [JbeginCommand "loc"] s1)).
  { subst s2. rewrite <- Hs1, <- Hp1. repeat split. }
  destruct H2 as [Hs2 [Hp2 Hw2]].
  set (s3 := if nonempty (_pending_triggers s2)
             then set_pending_triggers []
                    (write (trig_array (_pending_triggers s2)) s2)
             else s2).
  assert (H3 : schedule_of s3 = schedule_of s
               /\ _pending_triggers s3 = []
               /\ (_pending_triggers s <> [] ->
                   cloud_writer s3
                   = cloud_writer s2 ++ trig_array (_pending_triggers s))).
  { subst s3. rewrite Hp2. destruct (_pending_triggers s) as [|name names] eqn:Hp.
    - cbn [nonempty]. repeat split; [exact Hs2 | exact Hp2 | congruence].
    - cbn [nonempty]. rewrite <- Hs2. repeat split. }
  destruct H3 as [Hs3 [Hp3 Hw3]].
  destruct (enhance_loc (_config_state_loop_safe s3)).
  - set (s4 := if loc_cb (_config_state_loop_safe s3)
               then write [Jname "loc_cb"; Jbool true] s3 else s3).
    assert (H4 : schedule_of s4 = schedule_of s
                 /\ _pending_triggers s4 = []
                 /\ exists evs, cloud_writer s4 = cloud_writer s3 ++ evs).
    { subst s4. destruct (loc_cb (_config_state_loop_safe s3)).
      - rewrite <- Hs3, <- Hp3. repeat split. eexists. reflexivity.
      - repeat split; [exact Hs3 | exact Hp3 | exists []; rewrite app_nil_r; reflexivity]. }
    destruct H4 as [Hs4 [Hp4 [evs4 Hw4]]].
    match goal with
    | |- context [buildWpsInfo r ?size2 (snd (buildTowerInfo r ?size1 s4))] =>
        destruct (buildTowerInfo_frame r size1 s4) as [Hs5 [Hp5 [_ [evs5 Hw5]]]];
        destruct (buildWpsInfo_frame r size2 (snd (buildTowerInfo r size1 s4)))
          as [Hs6 [Hp6 [evs6 Hw6]]]
    end.
    cbv zeta in Hs5, Hp5, Hw5, Hs6, Hp6, Hw6.
    split; [rewrite Hs6, Hs5; exact Hs4|].
    split; [rewrite Hp6, Hp5; exact Hp4|].
    intros Hne. exists (cloud_writer s2), (evs4 ++ evs5 ++ evs6).
    rewrite Hw6, Hw5, Hw4, (Hw3 Hne), <- !app_assoc. reflexivity.
  - split; [exact Hs3|]. split; [exact Hp3|].
    intros Hne. exists (cloud_writer s2), []. rewrite app_nil_r. apply Hw3, Hne.
Qed.

Lemma location_publish_schedule (rval : Z) (malloc_ok : bool) (s : TrackerLocation) :
  schedule_of (location_publish rval malloc_ok s) = schedule_of s.
Proof. unfold location_publish, issue_location_publish_callbacks. frame. Qed.

Lemma location_publish_triggers (rval : Z) (malloc_ok : bool) (s : TrackerLocation) :
  _pending_triggers (location_publish rval malloc_ok s) = _pending_triggers s.
Proof. unfold location_publish, issue_location_publish_callbacks. frame. Qed.

Lemma location_publish_writer (rval : Z) (malloc_ok : bool) (s : TrackerLocation) :
  cloud_writer (location_publish rval malloc_ok s) = cloud_writer s.
Proof. unfold location_publish, issue_location_publish_callbacks. frame. Qed.

Lemma loop_sync_schedule (e : LoopEnv) (firstLoop : bool)
    (c : tracker_location_config_t) (s : TrackerLocation) :
  schedule_of (loop_sync e firstLoop c s) = schedule_of s
  /\ cloud_of (loop_sync e firstLoop c s) = cloud_of s
  /\ _pending_triggers (loop_sync e firstLoop c s) = _pending_triggers s.
Proof. unfold loop_sync. repeat split; frame. Qed.

Lemma loopLocation_schedule (e : LoopEnv) (s : TrackerLocation) :
  schedule_of (snd (loopLocation e s)) = schedule_of s
  /\ cloud_of (snd (loopLocation e s)) = cloud_of s.
Proof.
  unfold loopLocation, loopLocation_fix, triggerLocPub. cbv zeta. split; frame.
Qed.

Lemma loopLocation_keeps (e : LoopEnv) (name : string) (s : TrackerLocation) :
  In name (_pending_triggers s) ->
  In name (_pending_triggers (snd (loopLocation e s))).
Proof.
  intros Hin. unfold loopLocation, loopLocation_fix. cbv zeta.
  repeat break_match; cbn [snd]; state_simpl;
    repeat apply triggerLocPub_keeps; state_simpl; exact Hin.
Qed.

Lemma loop_sample_schedule (e : LoopEnv) (s : TrackerLocation) :
  schedule_of (snd (loop_sample e s)) = schedule_of s.
Proof.
  unfold loop_sample. cbv zeta.
  rewrite (proj1 (loopLocation_schedule _ _)).
  break_match; rewrite ?location_publish_schedule;
    match goal with
    | |- schedule_of (set_config_state_loop_safe _ ?x) = _ =>
        transitivity (schedule_of x); [reflexivity|]
    end;
    rewrite (proj1 (loop_sync_schedule _ _ _ _)); reflexivity.
Qed.

Lemma loop_sample_keeps (e : LoopEnv) (name : string) (s : TrackerLocation) :
  In name (_pending_triggers s) ->
  In name (_pending_triggers (snd (loop_sample e s))).
Proof.
  intros Hin. unfold loop_sample. cbv zeta.
  apply loopLocation_keeps.
  break_match; rewrite ?location_publish_triggers;
    match goal with
    | |- In _ (_pending_triggers (set_config_state_loop_safe _ ?x)) =>
        change (In name (_pending_triggers x))
    end;
    rewrite (proj2 (proj2 (loop_sync_schedule _ _ _ _))); exact Hin.
Qed.

(** With the connection down the head of the pass does not reach the
    cloud service. *)
Lemma loop_sample_cloud (e : LoopEnv) (s : TrackerLocation) :
  connected_retry e = false ->
  cloud_of (snd (loop_sample e s)) = cloud_of s.
Proof.
  intros Hdown. unfold loop_sample. cbv zeta.
  rewrite (proj2 (loopLocation_schedule _ _)).
  rewrite Hdown, andb_false_r.
  match goal with
  | |- cloud_of (set_config_state_loop_safe _ ?x) = _ =>
      transitivity (cloud_of x); [reflexivity|]
  end.
  rewrite (proj1 (proj2 (loop_sync_schedule _ _ _ _))). reflexivity.
Qed.

End FrameProofs.

(** ** The pending set and the report *)

Section TriggerProofs.
Context {L : TrackerLimits} {W : CloudWriter}.


End TriggerProofs.


(** An instance: a budget of 70 bytes leaves room for one of two access points. *)
Lemma buildWpsInfo_entries_bounded_witness :
  exists entries : list WiFiAccessPoint,
    entries = firstn (List.length entries) two_aps
    /\ Z.of_nat (List.length entries) <= 1.
Proof.
  destruct (buildWpsInfo_entries_bounded (mkRadio [] [] two_aps) 70 wps_state)
    as [entries [_ [Hprefix [_ [Hquota _]]]]].
  exists entries. split; [exact Hprefix|].
  apply Hquota. by_evaluation.
Defined.

(** ** The anchor and the last publish time *)

Lemma schedule_of_fields (a b : TrackerLocation) :
  schedule_of a = schedule_of b ->
  _config_state a = _config_state b
  /\ _first_publish a = _first_publish b
  /\ _pending_first_publish a = _pending_first_publish b
  /\ _newMonotonic a = _newMonotonic b
  /\ _pending_immediate a = _pending_immediate b
  /\ _last_location_publish_sec a = _last_location_publish_sec b
  /\ _monotonic_publish_sec a = _monotonic_publish_sec b
  /\ _nextEarlyWake a = _nextEarlyWake b.
Proof.
  unfold schedule_of. intros H. injection H as -> -> -> -> -> -> -> ->.
  repeat split.
Qed.

Lemma loop_switch_publishNow (r : EvaluationResults) (st : GnssState.t)
    (a b : TrackerLocation) :
  option_map fst (loop_switch r st a) = option_map fst (loop_switch r st b).
Proof.
  unfold loop_switch.
  destruct (reason r), st, (lockWait r); reflexivity.
Qed.

Section LoopProofs.
Context {L : TrackerLimits} {W : CloudWriter}.

Lemma loop_publish_schedule (e : LoopEnv) (cur_loc : LocationPoint)
    (s : TrackerLocation) :
  let s' := loop_publish e cur_loc s in
  _last_location_publish_sec s' = uptime_publish e
  /\ _monotonic_publish_sec s'
     = if (_first_publish s && negb (_pending_first_publish s)) || _newMonotonic s
       then uptime_publish e
       else u32 (_monotonic_publish_sec s
                 + u32 (interval_max_seconds (_config_state s))).
Proof.
  unfold loop_publish. cbv zeta.
  set (s0 := match location_publish_retry_str s with
             | Some retry =>
                 set_location_publish_retry_str None
                   (issue_location_publish_callbacks
                      CloudServiceStatus.TIMEOUT None (Some retry) s)
             | None => s
             end).
  assert (H0 : schedule_of s0 = schedule_of s)
    by (subst s0; unfold issue_location_publish_callbacks; frame).
  destruct (buildPublish_frame (radio e) cur_loc s0) as [H1 _]. cbv zeta in H1.
  rewrite H0 in H1. clear H0.
  apply schedule_of_fields in H1.
  destruct H1 as [Hc [Hf [Hpf [Hn [_ [_ [Hm _]]]]]]].
  generalize dependent (buildPublish (radio e) cur_loc s0). clear s0.
  intros s1 Hc Hf Hpf Hn Hm. state_simpl. rewrite Hc, Hf, Hpf, Hn, Hm.
  match goal with
  | |- context [location_publish ?rv ?m ?x] =>
      pose proof (schedule_of_fields _ _ (location_publish_schedule rv m x)) as Hlp
  end.
  destruct Hlp as [_ [_ [_ [_ [_ [Hl' [Hm' _]]]]]]].
  split.
  - break_match; state_simpl; rewrite Hl'; repeat break_match; reflexivity.
  - break_match; state_simpl; rewrite Hm'; repeat break_match; reflexivity.
Qed.

Lemma evaluatePublish_TIME (now connecting : Z) (s : TrackerLocation) :
  reason (evaluatePublish now connecting s) = PublishReason.TIME ->
  _first_publish s && negb (_pending_first_publish s) = false.
Proof.
  unfold evaluatePublish.
  destruct (_pending_immediate s); [discriminate|].
  destruct (_first_publish s && negb (_pending_first_publish s));
    [discriminate | reflexivity].
Qed.

Lemma evaluatePublish_IMMEDIATE (now connecting : Z) (s : TrackerLocation) :
  reason (evaluatePublish now connecting s) = PublishReason.IMMEDIATE <->
  _pending_immediate s = true.
Proof.
  unfold evaluatePublish. split.
  - destruct (_pending_immediate s); [reflexivity|].
    cbv zeta. repeat break_match; discriminate.
  - intros ->. reflexivity.
Qed.

(** What the [switch] does to the schedule when it decides to publish. *)
Lemma loop_switch_schedule (r : EvaluationResults) (st : GnssState.t)
    (s s2 : TrackerLocation) :
  loop_switch r st s = Some (true, s2) ->
  match reason r with
  | PublishReason.NONE => False
  | PublishReason.TIME => schedule_of s2 = schedule_of s
  | PublishReason.TRIGGERS | PublishReason.IMMEDIATE => _newMonotonic s2 = true
  end.
Proof.
  unfold loop_switch.
  destruct (reason r), st, (lockWait r); cbn [negb]; intros H;
    try discriminate H; injection H as <-;
    first [reflexivity | apply triggerLocPub_normal_schedule].
Qed.

Lemma enableNetwork_schedule (uptime : Z) (s : TrackerLocation) :
  schedule_of (enableNetwork uptime s) = schedule_of s
  /\ cloud_of (enableNetwork uptime s) = cloud_of s
  /\ _pending_triggers (enableNetwork uptime s) = _pending_triggers s.
Proof. repeat split. Qed.

(** C7, as amended.  A pass of [loop] that publishes sets the last publish
    time to the uptime read at the publish.  When the evaluator's reason is
    TRIGGERS or IMMEDIATE, the first publish included, the anchor is set to
    that uptime as well.  When the reason is TIME and [_newMonotonic] is
    clear at the start of the pass, the anchor advances by
    [interval_max_seconds], in 32-bit arithmetic; when the flag is still
    set from an earlier pass it is set to the uptime instead. *)
Theorem loop_anchor_on_publish (e : LoopEnv) (s : TrackerLocation) :
  loop_publishes e s = true ->
  let s' := loop e s in
  _last_location_publish_sec s' = uptime_publish e
  /\ match loop_reason e s with
     | PublishReason.TIME =>
         _monotonic_publish_sec s'
         = if _newMonotonic s then uptime_publish e
           else u32 (_monotonic_publish_sec s
                     + u32 (interval_max_seconds (_config_state s)))
     | _ => _monotonic_publish_sec s' = uptime_publish e
     end.
Proof.
  unfold loop_publishes, loop, loop_reason.
  destruct (loop_skipped e s); [discriminate|]. cbv zeta.
  pose proof (schedule_of_fields _ _ (loop_sample_schedule e s))
    as [Hc [_ [_ [Hn [_ [_ [Hm _]]]]]]].
  destruct (loop_sample e s) as [[st cur_loc] s1]. cbn [fst snd] in *.
  unfold loop_act. cbv zeta.
  set (r := evaluatePublish (uptime_evaluate e) (connecting_time e) s1).
  set (s1n := if negb (full_wake_cycle e) && networkNeeded r
              then enableNetwork (uptime_network e) s1 else s1).
  assert (Hnet : schedule_of s1n = schedule_of s1)
    by (subst s1n; destruct (negb (full_wake_cycle e) && networkNeeded r);
        reflexivity).
  pose proof (loop_switch_publishNow r st s1 s1n) as Hsame.
  destruct (loop_switch r st s1) as [[publishNow s2']|]; [|discriminate].
  destruct (loop_switch r st s1n) as [[publishNow' s2]|] eqn:Hswitch;
    [|discriminate Hsame].
  cbn in Hsame. injection Hsame as <-. intros Hpub. rewrite Hpub.
  apply andb_prop in Hpub. destruct Hpub as [-> _].
  destruct (loop_publish_schedule e cur_loc s2) as [Hlast Hanchor].
  cbv zeta in Hlast, Hanchor. split; [exact Hlast|].
  rewrite Hanchor. clear Hlast Hanchor.
  pose proof (loop_switch_schedule _ _ _ _ Hswitch) as Hs2.
  destruct (reason r) eqn:Hreason.
  - destruct Hs2.
  - rewrite Hnet in Hs2. apply schedule_of_fields in Hs2.
    destruct Hs2 as [Hc2 [Hf2 [Hpf2 [Hn2 [_ [_ [Hm2 _]]]]]]].
    rewrite Hc2, Hf2, Hpf2, Hn2, Hm2, Hc, Hn, Hm.
    rewrite (evaluatePublish_TIME _ _ _ Hreason). reflexivity.
  - rewrite Hs2, orb_true_r. reflexivity.
  - rewrite Hs2, orb_true_r. reflexivity.
Qed.


(** The names of the pending set stay pairwise distinct through a pass. *)
Lemma loopLocation_NoDup (e : LoopEnv) (s : TrackerLocation) :
  NoDup (_pending_triggers s) ->
  NoDup (_pending_triggers (snd (loopLocation e s))).
Proof.
  intros Hnd. unfold loopLocation, loopLocation_fix. cbv zeta.
  repeat break_match; cbn [snd]; state_simpl;
    repeat apply triggerLocPub_NoDup; state_simpl; exact Hnd.
Qed.

Lemma loop_publish_triggers (e : LoopEnv) (cur_loc : LocationPoint)
    (s : TrackerLocation) :
  _pending_triggers (loop_publish e cur_loc s) = [].
Proof.
  unfold loop_publish. cbv zeta.
  match goal with
  | |- context [buildPublish ?r ?c ?x] =>
      destruct (buildPublish_frame r c x) as [_ [Hempty _]];
      cbv zeta in Hempty; generalize dependent (buildPublish r c x)
  end.
  intros s1 Hempty.
  repeat break_match; state_simpl; rewrite location_publish_triggers;
    repeat break_match; state_simpl; exact Hempty.
Qed.

Lemma loop_NoDup (e : LoopEnv) (s : TrackerLocation) :
  NoDup (_pending_triggers s) -> NoDup (_pending_triggers (loop e s)).
Proof.
  intros Hnd. unfold loop. destruct (loop_skipped e s); [exact Hnd|]. cbv zeta.
  assert (Hsample : NoDup (_pending_triggers (snd (loop_sample e s)))).
  { unfold loop_sample. cbv zeta. apply loopLocation_NoDup.
    break_match; rewrite ?location_publish_triggers;
      match goal with
      | |- NoDup (_pending_triggers (set_config_state_loop_safe _ ?x)) =>
          change (NoDup (_pending_triggers x))
      end;
      rewrite (proj2 (proj2 (loop_sync_schedule _ _ _ _))); exact Hnd. }
  destruct (loop_sample e s) as [[st cur_loc] s1]. cbn [fst snd] in *.
  unfold loop_act. cbv zeta.
  set (r := evaluatePublish (uptime_evaluate e) (connecting_time e) s1).
  set (s1n := if negb (full_wake_cycle e) && networkNeeded r
              then enableNetwork (uptime_network e) s1 else s1).
  assert (Hnet : NoDup (_pending_triggers s1n))
    by (subst s1n; destruct (negb (full_wake_cycle e) && networkNeeded r);
        exact Hsample).
  destruct (loop_switch r st s1n) as [[publishNow s2]|] eqn:Hswitch; [|exact Hnet].
  destruct (publishNow && connected_publish e).
  - rewrite loop_publish_triggers. constructor.
  - unfold loop_switch in Hswitch.
    destruct (reason r), st, (lockWait r); cbn [negb] in Hswitch;
      try discriminate Hswitch; injection Hswitch as _ <-;
      first [exact Hnet
            | exact (triggerLocPub_NoDup Trigger.NORMAL "time" s1n Hnet)].
Qed.

End LoopProofs.

(** C7 as stated fails: after a pass that took an immediate request
    without a connection, the next publish is decided by TIME, yet the
    anchor is set to the uptime, 1700, not advanced by
    [interval_max_seconds] to 1600. *)
Lemma loop_time_publish_resets_anchor :
  let e := sample_env 1700 true in
  let s := immediate_dropped_state sample_limits sample_writer in
  loop_publishes e s = true
  /\ loop_reason e s = PublishReason.TIME
  /\ _monotonic_publish_sec s = 1000
  /\ interval_max_seconds (_config_state s) = 600
  /\ _monotonic_publish_sec (loop e s) = 1700
  /\ _monotonic_publish_sec (loop e s)
     <> _monotonic_publish_sec s + interval_max_seconds (_config_state s).
Proof. by_evaluation. Qed.

(** An instance: a publish decided by TIME at uptime 1700, one decided by an immediate request at uptime 1030. *)
Lemma loop_anchor_on_publish_witness :
  _last_location_publish_sec (loop (sample_env 1700 true) sample_state) = 1700
  /\ _monotonic_publish_sec (loop (sample_env 1700 true) sample_state) = 1600
  /\ _monotonic_publish_sec
       (loop (sample_env 1030 true)
          (triggerLocPub Trigger.IMMEDIATE "imm" sample_state)) = 1030.
Proof.
  destruct (loop_anchor_on_publish (sample_env 1700 true) sample_state eq_refl)
    as [Hlast Hanchor].
  destruct (loop_anchor_on_publish (sample_env 1030 true)
              (triggerLocPub Trigger.IMMEDIATE "imm" sample_state) eq_refl)
    as [_ Himmediate].
  split; [exact Hlast|]. split; [exact Hanchor | exact Himmediate].
Defined.



(** * Further properties *)

(** ** Configuration transaction *)

Lemma config_write_result
    (edit : tracker_location_config_t -> tracker_location_config_t)
    (status : Z) (s : TrackerLocation) :
  config_write edit status s
  = let shadowed := set_config_state_shadow (edit (_config_state s)) s in
    if (status =? 0)
       && (interval_min_seconds (edit (_config_state s))
           <=? interval_max_seconds (edit (_config_state s)))
    then (0, set_config_state (edit (_config_state s)) shadowed)
    else (if status =? 0 then - EINVAL else status, shadowed).
Proof.
  unfold config_write, enter_location_config_cb, exit_location_config_cb.
  cbn [snd andb]. state_simpl.
  destruct (Z.eqb_spec status 0) as [->|Hne]; cbn [andb]; [|reflexivity].
  rewrite Z.leb_antisym.
  destruct (interval_max_seconds (edit (_config_state s))
            <? interval_min_seconds (edit (_config_state s))); reflexivity.
Qed.

(** X1.  A write transaction keeps the order of the two intervals: if the
    live configuration has [interval_min_seconds] at most
    [interval_max_seconds], it still has after any write, whatever the
    parameter layer wrote and reported; the live configuration is then
    either what it was or the whole of what was written, and the answer is
    0 only when the written values have become live. *)
Theorem config_write_keeps_order
    (edit : tracker_location_config_t -> tracker_location_config_t)
    (status : Z) (s : TrackerLocation) :
  interval_min_seconds (_config_state s) <= interval_max_seconds (_config_state s) ->
  let s' := snd (config_write edit status s) in
  interval_min_seconds (_config_state s') <= interval_max_seconds (_config_state s')
  /\ (_config_state s' = _config_state s
      \/ _config_state s' = edit (_config_state s))
  /\ (fst (config_write edit status s) = 0 ->
      status = 0 /\ _config_state s' = edit (_config_state s)).
Proof.
  intros Hlive. cbv zeta. rewrite config_write_result. cbv zeta.
  destruct (Z.eqb_spec status 0) as [->|Hne]; cbn [andb].
  - destruct (Z.leb_spec (interval_min_seconds (edit (_config_state s)))
                (interval_max_seconds (edit (_config_state s)))) as [Hle|Hgt];
      cbn [fst snd]; state_simpl.
    + split; [exact Hle|]. split; [right; reflexivity|]. intros _. split; reflexivity.
    + split; [exact Hlive|]. split; [left; reflexivity|].
      unfold EINVAL. intros H. discriminate H.
  - cbn [fst snd]. state_simpl.
    split; [exact Hlive|]. split; [left; reflexivity|].
    intros H. contradiction.
Qed.

(** A valid state stays valid under a rejected write and takes a valid
    one. *)
Lemma config_write_keeps_order_witness :
  interval_min_seconds (_config_state (snd (config_write edit_500_100 0 sample_state)))
  <= interval_max_seconds (_config_state (snd (config_write edit_500_100 0 sample_state))).
Proof.
  assert (H : interval_min_seconds (_config_state sample_state)
              <= interval_max_seconds (_config_state sample_state))
    by by_evaluation.
  exact (proj1 (config_write_keeps_order edit_500_100 0 sample_state H)).
Defined.

(** ** Pending triggers *)

Lemma triggerLocPub_members (type : Trigger.t) (name other : string)
    (s : TrackerLocation) :
  In other (_pending_triggers (triggerLocPub type name s))
  <-> In other (_pending_triggers s) \/ other = name.
Proof.
  rewrite triggerLocPub_pending.
  destruct (trigger_matched (_pending_triggers s) name) eqn:Hm.
  - apply trigger_matched_In in Hm. split; [auto|].
    intros [H| ->]; assumption.
  - rewrite in_app_iff. cbn. split.
    + intros [H|[H|[]]]; auto.
    + intros [H| ->]; auto.
Qed.

Lemma request_all_members (reqs : list (Trigger.t * string)) (name : string)
    (s : TrackerLocation) :
  In name (_pending_triggers (request_all reqs s))
  <-> In name (_pending_triggers s) \/ In name (map snd reqs).
Proof.
  revert s. induction reqs as [|[type first] reqs IH]; intros s; cbn.
  - split; [auto | intros [H|[]]; exact H].
  - unfold request_all in IH. rewrite IH, triggerLocPub_members. cbn.
    split; intros H; repeat destruct H as [H|H]; auto.
Qed.

(** X2.  Requests only ever extend the pending set at its end: the names
    pending before keep their places, every name added was asked for, and
    a name is pending afterwards exactly when it was pending before or was
    asked for. *)
Theorem request_all_extends (reqs : list (Trigger.t * string)) (s : TrackerLocation) :
  (exists added,
      _pending_triggers (request_all reqs s) = _pending_triggers s ++ added
      /\ forall name, In name added -> In name (map snd reqs))
  /\ forall name,
       In name (_pending_triggers (request_all reqs s))
       <-> In name (_pending_triggers s) \/ In name (map snd reqs).
Proof.
  split; [|intros name; apply request_all_members].
  revert s. induction reqs as [|[type first] reqs IH]; intros s; cbn.
  - exists []. rewrite app_nil_r. split; [reflexivity | intros name []].
  - destruct (IH (triggerLocPub type first s)) as [added [Heq Hadded]].
    unfold request_all in Heq. rewrite Heq, triggerLocPub_pending.
    destruct (trigger_matched (_pending_triggers s) first).
    + exists added. split; [reflexivity | intros name H; right; auto].
    + exists (first :: added). rewrite <- app_assoc. split; [reflexivity|].
      intros name [<-|H]; [left; reflexivity | right; auto].
Qed.

(** X3.  The immediate flag after a sequence of requests is set exactly
    when it was set before or one of the requests was of the immediate
    type; requests of the normal type neither set nor clear it. *)
Theorem request_all_immediate (reqs : list (Trigger.t * string)) (s : TrackerLocation) :
  _pending_immediate (request_all reqs s)
  = _pending_immediate s || existsb is_immediate reqs.
Proof.
  revert s. induction reqs as [|[type first] reqs IH]; intros s; cbn.
  - rewrite orb_false_r. reflexivity.
  - unfold request_all in IH. rewrite IH. unfold triggerLocPub, is_immediate.
    cbn [fst].
    destruct (trigger_matched (_pending_triggers s) first), type; state_simpl;
      rewrite ?orb_true_r; reflexivity.
Qed.

Section ReportProofs.
Context {L : TrackerLimits} {W : CloudWriter}.


End ReportProofs.


(** ** Completion callbacks and the retry slot *)

(** X5.  Issuing the completion callbacks a second time calls nothing: the
    pending list is emptied by the first issue, so no callback is called
    twice for one publish, whatever the second status. *)
Theorem issue_callbacks_once
    (status status' : CloudServiceStatus.t)
    (rsp_root req_event rsp_root' req_event' : option string) (s : TrackerLocation) :
  issue_location_publish_callbacks status' rsp_root' req_event'
    (issue_location_publish_callbacks status rsp_root req_event s)
  = issue_location_publish_callbacks status rsp_root req_event s
  /\ callback_log (issue_location_publish_callbacks status rsp_root req_event s)
     = callback_log s
       ++ call_all status rsp_root req_event (pendingLocPubCallbacks s).
Proof.
  unfold issue_location_publish_callbacks, call_all. state_simpl. cbn [map].
  rewrite app_nil_r. split; reflexivity.
Qed.

(** X6.  A completion that does not capture a retry copy issues the
    callbacks at once: unless the status is FAILURE with a request text,
    an empty retry slot and a successful allocation, every pending callback
    is called once with the reported status, response and request, the
    pending list is emptied and the retry slot is left as it was. *)
Theorem completion_without_capture
    (status : CloudServiceStatus.t) (rsp_root req_event : option string)
    (malloc_ok : bool) (s : TrackerLocation) :
  status <> CloudServiceStatus.FAILURE
  \/ req_event = None
  \/ location_publish_retry_str s <> None
  \/ malloc_ok = false ->
  let s' := location_publish_cb status rsp_root req_event malloc_ok s in
  callback_log s'
  = callback_log s ++ call_all status rsp_root req_event (pendingLocPubCallbacks s)
  /\ pendingLocPubCallbacks s' = []
  /\ location_publish_retry_str s' = location_publish_retry_str s.
Proof.
  intros Hcase. unfold location_publish_cb, issue_location_publish_callbacks, call_all.
  destruct status; try (repeat split; fail).
  destruct req_event as [text|]; [|repeat split].
  destruct (location_publish_retry_str s) as [retry|] eqn:Hretry;
    [repeat split; state_simpl; exact Hretry|].
  destruct malloc_ok; [|repeat split; state_simpl; exact Hretry].
  destruct Hcase as [H|[H|[H|H]]]; congruence.
Qed.

(** A timeout reaches the two waiting callbacks at once. *)
Lemma completion_without_capture_witness :
  callback_log (location_publish_cb CloudServiceStatus.TIMEOUT None
                  (Some "payload"%string) true in_flight_state)
  = call_all CloudServiceStatus.TIMEOUT None (Some "payload"%string) [1%nat; 2%nat].
Proof.
  apply (completion_without_capture CloudServiceStatus.TIMEOUT None
           (Some "payload"%string) true in_flight_state).
  left. discriminate.
Defined.

Section SendProofs.
Context {W : CloudWriter}.

(** X7.  Whatever [send] answers other than [-EBUSY], no retry copy is
    left afterwards and the text handed to [send] was the retry copy if
    there was one and the writer's buffer otherwise; on the answer 0 no
    callback is called, on any other answer the pending callbacks are
    called once with FAILURE and the former retry copy, and the pending list
    is emptied. *)
Theorem send_result_clears_retry (rval : Z) (malloc_ok : bool) (s : TrackerLocation) :
  rval <> - EBUSY ->
  let s' := location_publish rval malloc_ok s in
  location_publish_retry_str s' = None
  /\ cloud_sent s'
     = cloud_sent s
       ++ [match location_publish_retry_str s with
           | Some retry => retry
           | None => writer_buffer (cloud_writer s)
           end]
  /\ (rval = 0 ->
      callback_log s' = callback_log s
      /\ pendingLocPubCallbacks s' = pendingLocPubCallbacks s)
  /\ (rval <> 0 ->
      callback_log s'
      = callback_log s
        ++ call_all CloudServiceStatus.FAILURE None (location_publish_retry_str s)
             (pendingLocPubCallbacks s)
      /\ pendingLocPubCallbacks s' = []).
Proof.
  intros Hbusy. cbv zeta. apply Z.eqb_neq in Hbusy.
  unfold location_publish. cbv zeta.
  destruct (location_publish_retry_str s) as [retry|] eqn:Hretry;
    state_simpl; rewrite Hbusy, Hretry;
    destruct (Z.eqb_spec rval 0) as [->|Hne]; cbn [negb];
      unfold issue_location_publish_callbacks, call_all; state_simpl;
      rewrite Hretry; state_simpl;
      repeat split; intros; repeat split; try reflexivity;
      try contradiction; congruence.
Qed.

(** X8.  Once a busy send has captured the report, every later attempt
    hands the captured text to the cloud service, whatever the writer holds
    by then and however often the service is busy again: the texts sent are
    the first attempt's and copies of it. *)
Theorem retry_resends_captured_text
    (busy : nat) (later : list jevent) (s : TrackerLocation) :
  location_publish_retry_str s = None ->
  let text := writer_buffer (cloud_writer s) in
  let captured := location_publish (- EBUSY) true s in
  let s' := retry_until_accepted busy (set_cloud_writer later captured) in
  cloud_sent s' = cloud_sent s ++ repeat text (S (S busy))
  /\ location_publish_retry_str s' = None
  /\ callback_log s' = callback_log s.
Proof.
  intros Hnone text captured s'.
  assert (Hc : captured
               = set_location_publish_retry_str (Some text)
                   (set_cloud_sent (cloud_sent s ++ [text]) s)).
  { subst captured text. unfold location_publish. rewrite Hnone. cbn.
    rewrite Hnone. reflexivity. }
  subst s'. unfold retry_until_accepted.
  rewrite (busy_attempts_with_retry_copy busy false text)
    by (rewrite Hc; reflexivity).
  rewrite Hc. unfold location_publish. cbn.
  rewrite <- !app_assoc. change [text] with (repeat text 1).
  rewrite <- !repeat_app.
  replace (1 + (busy + 1))%nat with (S (S busy)) by lia.
  repeat split.
Qed.

End SendProofs.

(** A hard failure of a fresh send reaches the waiting callbacks. *)
Lemma send_result_clears_retry_witness :
  location_publish_retry_str (location_publish (-1) true in_flight_state) = None
  /\ pendingLocPubCallbacks (location_publish (-1) true in_flight_state) = [].
Proof.
  assert (Hrval : -1 <> - EBUSY) by by_evaluation.
  destruct (send_result_clears_retry (-1) true in_flight_state Hrval)
    as [Hretry [_ [_ Hfail]]].
  split; [exact Hretry|]. apply Hfail. lia.
Defined.

(** A captured report resent after the writer has moved on. *)
Lemma retry_resends_captured_text_witness :
  cloud_sent
    (retry_until_accepted 1
       (set_cloud_writer [JbeginCommand "other"]
          (location_publish (- EBUSY) true in_flight_state)))
  = repeat "<loc>loc:{lck:#}"%string 3.
Proof.
  exact (proj1 (retry_resends_captured_text 1 [JbeginCommand "other"]
                  in_flight_state eq_refl)).
Defined.

(** ** The publish evaluator *)

(** X9.  Every verdict that asks for a publish also asks for the network,
    and only the TIME and TRIGGERS verdicts ever ask to wait for a lock. *)
Theorem evaluatePublish_flags (now connecting : Z) (s : TrackerLocation) :
  let r := evaluatePublish now connecting s in
  (reason r <> PublishReason.NONE -> networkNeeded r = true)
  /\ (lockWait r = true ->
      reason r = PublishReason.TIME \/ reason r = PublishReason.TRIGGERS).
Proof.
  unfold evaluatePublish. cbv zeta.
  repeat break_match; cbn [reason networkNeeded lockWait];
    (split; [intros H; try reflexivity; try congruence
            | intros H; try discriminate H; auto]).
Qed.

(** X10.  With no immediate request, the first publish completed, no
    trigger pending and the maximum interval switched off, the evaluator
    asks for nothing at any time: no publish, no network, no lock wait. *)
Theorem evaluatePublish_idle (now connecting : Z) (s : TrackerLocation) :
  _pending_immediate s = false ->
  _first_publish s = false ->
  _pending_triggers s = [] ->
  interval_max_seconds (_config_state s) = 0 ->
  evaluatePublish now connecting s
  = mkEvaluationResults PublishReason.NONE false false.
Proof.
  intros Him Hfirst Hnone Hmax.
  rewrite evaluatePublish_steady by (rewrite ?Hfirst; auto).
  cbv zeta. rewrite Hnone, Hmax. reflexivity.
Qed.

Lemma evaluatePublish_idle_witness :
  evaluatePublish 999999 90 (set_config_state (sample_config 60 0) sample_state)
  = mkEvaluationResults PublishReason.NONE false false.
Proof.
  exact (evaluatePublish_idle 999999 90
           (set_config_state (sample_config 60 0) sample_state)
           eq_refl eq_refl eq_refl eq_refl).
Defined.

(** X11.  With a trigger pending and no minimum interval configured, the
    evaluator asks for a publish at every instant once the first publish
    is done: TIME when the maximum interval has run out, TRIGGERS
    otherwise. *)
Theorem trigger_without_minimum (now connecting : Z) (s : TrackerLocation) :
  _pending_immediate s = false ->
  _first_publish s = false ->
  _pending_triggers s <> [] ->
  interval_min_seconds (_config_state s) = 0 ->
  let r := evaluatePublish now connecting s in
  networkNeeded r = true
  /\ reason r
     = if negb (interval_max_seconds (_config_state s) =? 0)
          && (u32 (interval_max_seconds (_config_state s))
              <=? elapsed_since_anchor now s)
       then PublishReason.TIME else PublishReason.TRIGGERS.
Proof.
  intros Him Hfirst Hp Hmin.
  rewrite evaluatePublish_steady by (rewrite ?Hfirst; auto).
  cbv zeta. rewrite (nonempty_true _ Hp), Hmin. cbn [Z.eqb andb orb].
  destruct (negb (interval_max_seconds (_config_state s) =? 0)
            && (u32 (interval_max_seconds (_config_state s))
                <=? elapsed_since_anchor now s)); split; reflexivity.
Qed.

Lemma trigger_without_minimum_witness :
  reason (evaluatePublish 1001 90
            (set_config_state (sample_config 0 600) triggered_state))
  = PublishReason.TRIGGERS.
Proof.
  assert (Hp : _pending_triggers
                 (set_config_state (sample_config 0 600) triggered_state) <> [])
    by discriminate.
  exact (proj2 (trigger_without_minimum 1001 90
                  (set_config_state (sample_config 0 600) triggered_state)
                  eq_refl eq_refl Hp eq_refl)).
Defined.

(** ** Start-up and sleep *)

Lemma u32_sub_u32 (a b : Z) : u32 (a - u32 b) = u32 (a - b).
Proof. unfold u32. rewrite Zminus_mod_idemp_r. reflexivity. Qed.

(** X12.  [init] backdates the last publish by the minimum interval, in
    32-bit arithmetic: at any later uptime the time elapsed since the last
    publish, as the evaluator computes it, is the minimum interval plus the
    time since [init], so the minimum interval never holds back a trigger
    raised after start-up. *)
Theorem init_backdates_last_publish (uptime now : Z) (s : TrackerLocation) :
  0 <= interval_min_seconds (_config_state s) ->
  uptime <= now ->
  now - uptime + interval_min_seconds (_config_state s) < 2 ^ 32 ->
  elapsed_since_publish now (init uptime s)
  = interval_min_seconds (_config_state s) + (now - uptime)
  /\ u32 (interval_min_seconds (_config_state (init uptime s)))
     <= elapsed_since_publish now (init uptime s).
Proof.
  intros Hmin Hnow Hfit. unfold elapsed_since_publish, init. state_simpl.
  rewrite u32_sub_u32.
  replace (now - (uptime - interval_min_seconds (_config_state s)))
    with (interval_min_seconds (_config_state s) + (now - uptime)) by lia.
  rewrite !u32_small by lia. split; [reflexivity | lia].
Qed.

(** Started 5 s after power-up with a minimum interval of 60 s, looked at
    2 s later. *)
Lemma init_backdates_last_publish_witness :
  elapsed_since_publish 7 (init 5 sample_state) = 62.
Proof.
  refine (proj1 (init_backdates_last_publish 5 7 sample_state _ _ _));
    by_evaluation.
Defined.

(** What [onSleepPrepare] touches: the two lead fields and the log of
    service calls. *)
Lemma onSleepPrepare_fields
    (lastWakeMs : Z) (isFullWakeCycle : bool) (connecting : Z)
    (wakeAt : Z -> TrackerSleepError.t) (s : TrackerLocation) :
  let s' := onSleepPrepare lastWakeMs isFullWakeCycle connecting wakeAt s in
  let early :=
    if isFullWakeCycle then newEarlyWakeSec lastWakeMs (u32 connecting) s
    else if _earlyWake s =? 0 then u32 connecting else _earlyWake s in
  _nextEarlyWake s' = early
  /\ _earlyWake s' = (if isFullWakeCycle then early else _earlyWake s)
  /\ _config_state s' = _config_state s
  /\ _pending_triggers s' = _pending_triggers s
  /\ _pending_immediate s' = _pending_immediate s
  /\ _first_publish s' = _first_publish s
  /\ _pending_first_publish s' = _pending_first_publish s
  /\ _last_location_publish_sec s' = _last_location_publish_sec s
  /\ _monotonic_publish_sec s' = _monotonic_publish_sec s
  /\ cloud_of s' = cloud_of s.
Proof.
  unfold onSleepPrepare. cbv zeta.
  destruct isFullWakeCycle;
    match goal with |- context [wakeAt ?w] => destruct (wakeAt w) end;
    repeat split.
Qed.





(** X14.  In a full wake cycle the lead [onSleepPrepare] learns is at most
    the sleep service's connecting time and is remembered for the cycles
    that follow; outside a full wake cycle a lead that was never learned
    is taken to be the connecting time and a learned one is reused as it
    is. *)
Theorem early_wake_lead_bounded
    (lastWakeMs : Z) (isFullWakeCycle : bool) (connecting : Z)
    (wakeAt : Z -> TrackerSleepError.t) (s : TrackerLocation) :
  let s' := onSleepPrepare lastWakeMs isFullWakeCycle connecting wakeAt s in
  (isFullWakeCycle = true ->
   0 <= _nextEarlyWake s' <= u32 connecting /\ _earlyWake s' = _nextEarlyWake s')
  /\ (isFullWakeCycle = false ->
      _earlyWake s' = _earlyWake s
      /\ _nextEarlyWake s'
         = if _earlyWake s =? 0 then u32 connecting else _earlyWake s).
Proof.
  cbv zeta.
  destruct (onSleepPrepare_fields lastWakeMs isFullWakeCycle connecting wakeAt s)
    as [Hnext [Hearly _]]. cbv zeta in Hnext, Hearly. rewrite Hnext, Hearly.
  split; intros ->; [|split; reflexivity].
  split; [|reflexivity].
  pose proof (newEarlyWakeSec_range lastWakeMs connecting s) as Hrange.
  split; [lia|]. clear Hrange.
  unfold newEarlyWakeSec. cbv zeta.
  match goal with
  | |- (if ?a <? ?b then _ else _) <= _ => destruct (Z.ltb_spec a b); lia
  end.
Qed.

Lemma early_wake_lead_bounded_witness :
  _nextEarlyWake (onSleepPrepare 20000 true 90 (wakeAt_uptime 1200)
                    (set_firstLockSec 40 sample_state))
  <= u32 90.
Proof.
  exact (proj2 (proj1 (proj1 (early_wake_lead_bounded 20000 true 90
                                (wakeAt_uptime 1200)
                                (set_firstLockSec 40 sample_state)) eq_refl))).
Defined.

Section WakeProofs.
Context {L : TrackerLimits} {W : CloudWriter}.

(** X15.  [onWake] either brings the network up or votes for an early
    shutdown, never both: it does the first exactly when the evaluator
    marks networkNeeded, starting with the request for a full wake cycle and
    then at most the fix source and the WiFi radio; otherwise it calls no
    service and casts its vote.  In both cases it forgets the first lock,
    leaves the schedule, the pending triggers and the cloud side alone, and
    the next pass of [loop] is not skipped once the millisecond clock has
    passed the sample period. *)
Theorem onWake_network_or_vote (now connecting uptime_enable : Z)
    (s : TrackerLocation) :
  let needed := networkNeeded (evaluatePublish now connecting s) in
  let out := onWake now connecting uptime_enable s in
  (if needed then
     fst out = None
     /\ _gnssStartedSec (snd out) = uptime_enable
     /\ exists more,
          service_log (snd out) = service_log s ++ forceFullWakeCycle :: more
          /\ forall c, In c more -> c = LocationService_start \/ c = WiFi_on
   else
     fst out = Some (extendExecutionFromNow EarlySleepSec true)
     /\ service_log (snd out) = service_log s)
  /\ _firstLockSec (snd out) = 0
  /\ schedule_of (snd out) = schedule_of s
  /\ cloud_of (snd out) = cloud_of s
  /\ _pending_triggers (snd out) = _pending_triggers s
  /\ forall e, LoopSampleRate <= u32 (millis_check e) ->
               loop_skipped e (snd out) = false.
Proof.
  cbv zeta. unfold onWake. cbv zeta.
  change (evaluatePublish now connecting (set_firstLockSec 0 s))
    with (evaluatePublish now connecting s).
  destruct (networkNeeded (evaluatePublish now connecting s)).
  - unfold enableNetwork, enableGnss, enableWifi. state_simpl.
    destruct (gnss (_config_state_loop_safe s)); state_simpl;
      destruct (enhance_loc (_config_state_loop_safe s)); state_simpl;
      try (destruct (wps (_config_state_loop_safe s)); state_simpl);
      cbn [fst snd]; state_simpl;
      (split; [split; [reflexivity|]; split; [reflexivity|];
               eexists; rewrite <- ?app_assoc; split; [reflexivity|];
               cbn [app In]; intros c Hc; intuition auto
              | repeat split;
                intros e Hm; unfold loop_skipped; state_simpl;
                rewrite Z.sub_0_r; apply Z.ltb_ge; exact Hm]).
  - cbn [fst snd]. state_simpl. repeat split.
    intros e Hm. unfold loop_skipped. state_simpl.
    rewrite Z.sub_0_r. apply Z.ltb_ge. exact Hm.
Qed.

End WakeProofs.

(** ** Location sampling *)

(** X16.  A pass of the location sampler adds at most the two triggers
    radius and lock to the pending set, each only on a stable fix: radius
    when a radius is set and the fix lies outside it, lock when the fix
    state has just become stable, sleep is disabled and the lock trigger
    is configured.  With the fix source configured off it returns DISABLED
    and changes nothing; otherwise it records the state it returns. *)
Theorem loopLocation_triggers_origin (e : LoopEnv) (s : TrackerLocation) :
  let out := loopLocation e s in
  let state := fst (fst out) in
  (forall name,
      In name (_pending_triggers (snd out)) ->
      In name (_pending_triggers s)
      \/ (name = "radius"%string
          /\ state = GnssState.ON_LOCKED_STABLE
          /\ radius_set e = true /\ outside_radius e = true)
      \/ (name = "lock"%string
          /\ state = GnssState.ON_LOCKED_STABLE
          /\ _lastGnssState s <> GnssState.ON_LOCKED_STABLE
          /\ sleep_disabled e = true
          /\ lock_trigger (_config_state s) = true))
  /\ (gnss (_config_state s) = false ->
      state = GnssState.DISABLED /\ snd out = s)
  /\ (gnss (_config_state s) = true -> _lastGnssState (snd out) = state).
Proof.
  cbv zeta. unfold loopLocation, loopLocation_fix. cbv zeta.
  destruct (gnss (_config_state s)); cbn [negb];
    [|split; [intros name H; left; exact H|];
      split; [intros _; split; reflexivity | discriminate]].
  split; [|split; [discriminate|]].
  - intros name.
    destruct (status_powered e); cbn [negb fst snd GnssState.eqb andb];
      state_simpl; [|auto].
    destruct (getLocation_rc e =? SYSTEM_ERROR_NONE);
      cbn [negb fst snd GnssState.eqb andb]; state_simpl; [|auto].
    destruct (locked (getLocation_point e));
      cbn [negb fst snd GnssState.eqb andb]; state_simpl; [|auto].
    destruct (stable (getLocation_point e));
      cbn [negb fst snd GnssState.eqb andb]; state_simpl; [|auto].
    set (s1 := if radius_set e && outside_radius e
               then triggerLocPub Trigger.NORMAL "radius" s else s).
    assert (H1 : In name (_pending_triggers s1) ->
                 In name (_pending_triggers s)
                 \/ (name = "radius"%string
                     /\ radius_set e = true /\ outside_radius e = true)).
    { subst s1. destruct (radius_set e), (outside_radius e); cbn [andb]; auto.
      rewrite triggerLocPub_members. intros [H|H]; auto. }
    assert (Hc1 : _config_state s1 = _config_state s /\ _lastGnssState s1 = _lastGnssState s).
    { subst s1. unfold triggerLocPub. repeat break_match; split; reflexivity. }
    destruct Hc1 as [Hc1 Hg1]. rewrite Hg1.
    set (s2 := if _firstLockSec s1 =? 0
               then set_firstLockSec (uptime_lock e) s1 else s1).
    assert (H2 : _pending_triggers s2 = _pending_triggers s1
                 /\ _config_state s2 = _config_state s)
      by (subst s2; destruct (_firstLockSec s1 =? 0); state_simpl;
          rewrite Hc1; split; reflexivity).
    destruct H2 as [Hp2 Hc2]. rewrite Hc2.
    assert (Hthen :
              _lastGnssState s <> GnssState.ON_LOCKED_STABLE ->
              In name
                (_pending_triggers
                   (if sleep_disabled e && lock_trigger (_config_state s)
                    then triggerLocPub Trigger.NORMAL "lock" s2 else s2)) ->
              In name (_pending_triggers s)
              \/ (name = "radius"%string
                  /\ GnssState.ON_LOCKED_STABLE = GnssState.ON_LOCKED_STABLE
                  /\ radius_set e = true /\ outside_radius e = true)
              \/ (name = "lock"%string
                  /\ GnssState.ON_LOCKED_STABLE = GnssState.ON_LOCKED_STABLE
                  /\ _lastGnssState s <> GnssState.ON_LOCKED_STABLE
                  /\ sleep_disabled e = true
                  /\ lock_trigger (_config_state s) = true)).
    { intros Hnot.
      destruct (sleep_disabled e), (lock_trigger (_config_state s)); cbn [andb];
        rewrite ?triggerLocPub_members, Hp2;
        intros H; repeat destruct H as [H|H];
        try (destruct (H1 H) as [H'|[-> [Hr Ho]]];
             [left; exact H' | right; left; repeat split; assumption]).
      subst name. right. right. repeat split; auto. }
    destruct (_lastGnssState s) eqn:Hlast; cbn [negb]; state_simpl;
      try (apply Hthen; discriminate).
    intros H. destruct (H1 H) as [H'|[-> [Hr Ho]]];
      [left; exact H' | right; left; repeat split; assumption].
  - intros _. repeat break_match; reflexivity.
Qed.

(** ** What the payload builder leaves alone *)

Ltac state_simpl_in H :=
  unfold build_form in H;
  cbn [
      _config_state _config_state_shadow _config_state_loop_safe
      _pending_triggers _pending_immediate _first_publish
      _pending_first_publish _newMonotonic _last_location_publish_sec
      _monotonic_publish_sec _gnssStartedSec _firstLockSec _nextEarlyWake
      _earlyWake _loopSampleTick _lastGnssState location_publish_retry_str
      locGenCallbacks locPubCallbacks pendingLocPubCallbacks servingTower
      towerList wpsList cloud_writer cloud_sent callback_log service_log
      set_config_state set_config_state_shadow set_config_state_loop_safe
      set_pending_triggers set_pending_immediate set_first_publish
      set_pending_first_publish set_newMonotonic
      set_last_location_publish_sec set_monotonic_publish_sec
      set_gnssStartedSec set_firstLockSec set_nextEarlyWake set_earlyWake
      set_loopSampleTick set_lastGnssState set_location_publish_retry_str
      set_locGenCallbacks set_locPubCallbacks set_pendingLocPubCallbacks
      set_servingTower set_towerList set_wpsList set_cloud_writer
      set_cloud_sent set_callback_log set_service_log log_service write fst
      snd
  ] in H.

Lemma built_from_refl (s : TrackerLocation) : built_from s s.
Proof.
  exists (service_log s), (cloud_writer s), (_pending_triggers s),
    (servingTower s), (towerList s), (wpsList s).
  destruct s; reflexivity.
Qed.

Lemma built_from_trans (a b c : TrackerLocation) :
  built_from a b -> built_from b c -> built_from a c.
Proof.
  intros (c1 & w1 & p1 & s1 & t1 & a1 & ->) (c2 & w2 & p2 & s2 & t2 & a2 & ->).
  exists c2, w2, p2, s2, t2, a2. reflexivity.
Qed.

Lemma built_from_step (a : TrackerLocation)
    (calls : list ServiceCall) (written : list jevent) (pending : list string)
    (serving : CellularServing) (towers : list CellularNeighbors)
    (aps : list WiFiAccessPoint) :
  built_from a (build_form calls written pending serving towers aps a).
Proof. exists calls, written, pending, serving, towers, aps. reflexivity. Qed.

(** Each of these is one update of a field the builder owns. *)
Lemma built_from_writer (a : TrackerLocation) (w : list jevent) :
  built_from a (set_cloud_writer w a).
Proof.
  exists (service_log a), w, (_pending_triggers a),
    (servingTower a), (towerList a), (wpsList a).
  destruct a; reflexivity.
Qed.

Lemma built_from_pending (a : TrackerLocation) (p : list string) :
  built_from a (set_pending_triggers p a).
Proof.
  exists (service_log a), (cloud_writer a), p,
    (servingTower a), (towerList a), (wpsList a).
  destruct a; reflexivity.
Qed.

Lemma built_from_service (a : TrackerLocation) (l : list ServiceCall) :
  built_from a (set_service_log l a).
Proof.
  exists l, (cloud_writer a), (_pending_triggers a),
    (servingTower a), (towerList a), (wpsList a).
  destruct a; reflexivity.
Qed.

Lemma built_from_serving (a : TrackerLocation) (t : CellularServing) :
  built_from a (set_servingTower t a).
Proof.
  exists (service_log a), (cloud_writer a), (_pending_triggers a),
    t, (towerList a), (wpsList a).
  destruct a; reflexivity.
Qed.

Lemma built_from_towers (a : TrackerLocation) (t : list CellularNeighbors) :
  built_from a (set_towerList t a).
Proof.
  exists (service_log a), (cloud_writer a), (_pending_triggers a),
    (servingTower a), t, (wpsList a).
  destruct a; reflexivity.
Qed.

Lemma built_from_aps (a : TrackerLocation) (l : list WiFiAccessPoint) :
  built_from a (set_wpsList l a).
Proof.
  exists (service_log a), (cloud_writer a), (_pending_triggers a),
    (servingTower a), (towerList a), l.
  destruct a; reflexivity.
Qed.

(** Chains of such updates. *)
Ltac built :=
  repeat first
    [ apply built_from_refl
    | eapply built_from_trans; [|first
        [ apply built_from_writer | apply built_from_pending
        | apply built_from_service | apply built_from_serving
        | apply built_from_towers | apply built_from_aps ]] ].

Section BuilderProofs.
Context {L : TrackerLimits} {W : CloudWriter}.

Lemma buildTowerInfo_built (r : Radio) (size : Z) (s : TrackerLocation) :
  built_from s (snd (buildTowerInfo r size s)).
Proof.
  unfold buildTowerInfo. cbv zeta.
  destruct (tower (_config_state_loop_safe s)); cbn [negb snd];
    [|apply built_from_refl].
  destruct (serving_collects (serving_rsp r) s) as [t ->].
  destruct (serving_rat (servingTower (set_servingTower t s)));
    rewrite ?neighbor_collects; unfold write; built.
Qed.

Lemma buildWpsInfo_built (r : Radio) (size : Z) (s : TrackerLocation) :
  built_from s (snd (buildWpsInfo r size s)).
Proof.
  unfold buildWpsInfo. cbv zeta. rewrite wifi_scan_collects.
  repeat break_match; cbn [snd]; unfold write; built.
Qed.

Lemma buildPublish_built (r : Radio) (cur_loc : LocationPoint) (s : TrackerLocation) :
  built_from s (buildPublish r cur_loc s).
Proof.
  unfold buildPublish. cbv zeta.
  repeat match goal with
  | |- built_from _ (if ?c then _ else _) => destruct c
  | |- built_from _ (snd (buildWpsInfo _ _ _)) =>
      eapply built_from_trans; [|apply buildWpsInfo_built]
  | |- built_from _ (snd (buildTowerInfo _ _ _)) =>
      eapply built_from_trans; [|apply buildTowerInfo_built]
  end;
  repeat match goal with
  | |- context [if ?c then _ else _] => destruct c
  end;
  unfold write, log_service; built.
Qed.

End BuilderProofs.

(** ** The publish block *)

Lemma cloud_of_fields (a b : TrackerLocation) :
  cloud_of a = cloud_of b ->
  cloud_writer a = cloud_writer b
  /\ cloud_sent a = cloud_sent b
  /\ callback_log a = callback_log b
  /\ pendingLocPubCallbacks a = pendingLocPubCallbacks b
  /\ locPubCallbacks a = locPubCallbacks b
  /\ location_publish_retry_str a = location_publish_retry_str b.
Proof.
  unfold cloud_of. intros H. injection H as -> -> -> -> -> ->. repeat split.
Qed.

Section PublishBlockProofs.
Context {L : TrackerLimits} {W : CloudWriter}.

Lemma location_publish_accepted (malloc_ok : bool) (s : TrackerLocation) :
  location_publish_retry_str s = None ->
  location_publish 0 malloc_ok s
  = set_cloud_sent (cloud_sent s ++ [writer_buffer (cloud_writer s)]) s.
Proof.
  intros Hnone. unfold location_publish. rewrite Hnone.
  change (0 =? - EBUSY) with false. change (0 =? 0) with true.
  cbn [negb]. state_simpl. rewrite Hnone. reflexivity.
Qed.

Lemma location_publish_static (rval : Z) (malloc_ok : bool) (s : TrackerLocation) :
  locPubCallbacks (location_publish rval malloc_ok s) = locPubCallbacks s
  /\ _firstLockSec (location_publish rval malloc_ok s) = _firstLockSec s.
Proof.
  unfold location_publish, issue_location_publish_callbacks. split; frame.
Qed.

(** What the body of [if (publishNow && Particle.connected())] leaves
    behind. *)
Lemma loop_publish_effects (e : LoopEnv) (cur_loc : LocationPoint)
    (s : TrackerLocation) :
  let s' := loop_publish e cur_loc s in
  locPubCallbacks s' = []
  /\ _pending_immediate s' = _pending_immediate s
  /\ _firstLockSec s' = _firstLockSec s
  /\ _first_publish s' && negb (_pending_first_publish s') = false
  /\ (_pending_triggers s <> [] ->
      exists pre post,
        cloud_writer s' = pre ++ trig_array (_pending_triggers s) ++ post)
  /\ (publish_rval e = 0 ->
      location_publish_retry_str s' = None
      /\ pendingLocPubCallbacks s' = locPubCallbacks s
      /\ callback_log s'
         = callback_log s
           ++ match location_publish_retry_str s with
              | Some text =>
                  call_all CloudServiceStatus.TIMEOUT None (Some text)
                    (pendingLocPubCallbacks s)
              | None => []
              end
      /\ cloud_sent s' = cloud_sent s ++ [writer_buffer (cloud_writer s')]).
Proof.
  unfold loop_publish. cbv zeta.
  set (s0 := match location_publish_retry_str s with
             | Some retry =>
                 set_location_publish_retry_str None
                   (issue_location_publish_callbacks
                      CloudServiceStatus.TIMEOUT None (Some retry) s)
             | None => s
             end).
  assert (H0 : location_publish_retry_str s0 = None
               /\ _pending_triggers s0 = _pending_triggers s
               /\ locPubCallbacks s0 = locPubCallbacks s
               /\ _pending_immediate s0 = _pending_immediate s
               /\ _firstLockSec s0 = _firstLockSec s
               /\ cloud_sent s0 = cloud_sent s
               /\ callback_log s0
                  = callback_log s
                    ++ match location_publish_retry_str s with
                       | Some text =>
                           call_all CloudServiceStatus.TIMEOUT None (Some text)
                             (pendingLocPubCallbacks s)
                       | None => []
                       end).
  { subst s0. unfold issue_location_publish_callbacks, call_all.
    destruct (location_publish_retry_str s) eqn:Hretry; state_simpl;
      rewrite ?app_nil_r; repeat split; exact Hretry. }
  destruct H0 as [Hr0 [Hp0 [Hcb0 [Hi0 [Hl0 [Hsent0 Hlog0]]]]]].
  clearbody s0.
  destruct (buildPublish_frame (radio e) cur_loc s0) as [_ [_ Hshape]].
  cbv zeta in Hshape. rewrite Hp0 in Hshape.
  assert (H1 : location_publish_retry_str (buildPublish (radio e) cur_loc s0) = None
               /\ locPubCallbacks (buildPublish (radio e) cur_loc s0)
                  = locPubCallbacks s
               /\ _pending_immediate (buildPublish (radio e) cur_loc s0)
                  = _pending_immediate s
               /\ _firstLockSec (buildPublish (radio e) cur_loc s0)
                  = _firstLockSec s
               /\ cloud_sent (buildPublish (radio e) cur_loc s0) = cloud_sent s
               /\ callback_log (buildPublish (radio e) cur_loc s0)
                  = callback_log s0).
  { destruct (buildPublish_built (radio e) cur_loc s0)
      as (calls & w & p & sv & tw & aps & ->).
    rewrite <- Hr0, <- Hcb0, <- Hi0, <- Hl0, <- Hsent0. repeat split. }
  destruct H1 as [Hr1 [Hcb1 [Hi1 [Hl1 [Hsent1 Hlog1]]]]].
  rewrite Hlog0 in Hlog1. clear Hr0 Hp0 Hcb0 Hi0 Hl0 Hsent0 Hlog0.
  generalize dependent (buildPublish (radio e) cur_loc s0). clear s0.
  intros s1 Hshape Hr1 Hcb1 Hi1 Hl1 Hsent1 Hlog1.
  (* the state handed to the send: the anchor and the first-publish flag
     are settled, the rest is as the builder left it *)
  match goal with
  | |- context [location_publish _ _ ?x] => set (s4 := x)
  end.
  assert (H4 : location_publish_retry_str s4 = None
               /\ locPubCallbacks s4 = []
               /\ pendingLocPubCallbacks s4 = locPubCallbacks s
               /\ _pending_immediate s4 = _pending_immediate s
               /\ _firstLockSec s4 = _firstLockSec s
               /\ cloud_writer s4 = cloud_writer s1
               /\ cloud_sent s4 = cloud_sent s
               /\ callback_log s4 = callback_log s1).
  { subst s4. rewrite <- Hr1, <- Hcb1, <- Hi1, <- Hl1, <- Hsent1.
    repeat break_match; repeat split. }
  destruct H4 as [Hr4 [Hcb4 [Hpc4 [Hi4 [Hl4 [Hw4 [Hsent4 Hlog4]]]]]]].
  clearbody s4.
  pose proof (schedule_of_fields _ _
                (location_publish_schedule (publish_rval e) (publish_malloc_ok e) s4))
    as [_ [_ [_ [_ [Hi5 _]]]]].
  destruct (location_publish_static (publish_rval e) (publish_malloc_ok e) s4)
    as [Hcb5 Hl5].
  pose proof (location_publish_writer (publish_rval e) (publish_malloc_ok e) s4) as Hw5.
  split; [break_match; state_simpl; rewrite Hcb5; exact Hcb4|].
  split; [break_match; state_simpl; rewrite Hi5; exact Hi4|].
  split; [break_match; state_simpl; rewrite Hl5; exact Hl4|].
  split.
  { match goal with
    | |- context [if ?c then _ else _] => destruct c eqn:Hc
    end; [state_simpl; apply andb_false_r | exact Hc]. }
  split.
  { intros Hne. destruct (Hshape Hne) as (pre & post & Hw).
    exists pre, post. rewrite <- Hw, <- Hw4, <- Hw5.
    break_match; reflexivity. }
  intros Hrval. rewrite Hrval.
  rewrite (location_publish_accepted (publish_malloc_ok e) s4 Hr4).
  break_match; state_simpl; rewrite Hr4, Hpc4, Hlog4, Hlog1, Hsent4, Hw4;
    repeat split.
Qed.

End PublishBlockProofs.

(** ** Passes of the main loop *)

Lemma triggerLocPub_first_lock (type : Trigger.t) (name : string)
    (s : TrackerLocation) :
  _firstLockSec (triggerLocPub type name s) = _firstLockSec s.
Proof. unfold triggerLocPub. frame. Qed.

(** What the [switch] hands on. *)
Lemma loop_switch_effects (r : EvaluationResults) (st : GnssState.t)
    (s s2 : TrackerLocation) (publishNow : bool) :
  loop_switch r st s = Some (publishNow, s2) ->
  cloud_of s2 = cloud_of s
  /\ _firstLockSec s2 = _firstLockSec s
  /\ _last_location_publish_sec s2 = _last_location_publish_sec s
  /\ _monotonic_publish_sec s2 = _monotonic_publish_sec s
  /\ _first_publish s2 = _first_publish s
  /\ _pending_first_publish s2 = _pending_first_publish s
  /\ (forall name, In name (_pending_triggers s) -> In name (_pending_triggers s2))
  /\ (reason r = PublishReason.TIME -> publishNow = true ->
      In "time"%string (_pending_triggers s2))
  /\ (reason r = PublishReason.IMMEDIATE ->
      publishNow = true /\ _pending_immediate s2 = false)
  /\ (reason r <> PublishReason.IMMEDIATE ->
      _pending_immediate s2 = _pending_immediate s)
  /\ reason r <> PublishReason.NONE.
Proof.
  unfold loop_switch.
  pose proof (triggerLocPub_cloud Trigger.NORMAL "time" s) as Hc.
  pose proof (triggerLocPub_first_lock Trigger.NORMAL "time" s) as Hk.
  pose proof (schedule_of_fields _ _
                (triggerLocPub_normal_schedule "time" s))
    as [_ [Hf [Hpf [_ [Hi [Hl [Hm _]]]]]]].
  pose proof (fun other => triggerLocPub_keeps Trigger.NORMAL "time" other s)
    as Hkeep.
  pose proof (triggerLocPub_In Trigger.NORMAL "time" s) as Hin.
  remember (triggerLocPub Trigger.NORMAL "time" s) as t eqn:Ht.
  clear Ht.
  destruct (reason r), st, (lockWait r); cbn [negb]; intros H;
    try discriminate H; injection H as <- <-;
    (split; [first [reflexivity | exact Hc]|];
     split; [first [reflexivity | exact Hk]|];
     split; [first [reflexivity | exact Hl]|];
     split; [first [reflexivity | exact Hm]|];
     split; [first [reflexivity | exact Hf]|];
     split; [first [reflexivity | exact Hpf]|];
     split; [intros name Hname;
             first [exact Hname | apply Hkeep; exact Hname]|];
     split; [intros Hr Hb; first [discriminate Hr | discriminate Hb | exact Hin]|];
     split; [intros Hr; first [discriminate Hr | split; reflexivity]|];
     split; [intros Hr; first [reflexivity | exact Hi | congruence]|];
     discriminate).
Qed.


(** The [switch] publishes on TIME unless the fix source is in error or a
    lock is still waited for. *)
Lemma loop_switch_time (r : EvaluationResults) (st : GnssState.t)
    (s : TrackerLocation) :
  reason r = PublishReason.TIME ->
  lockWait r = false ->
  st <> GnssState.ERROR ->
  exists s2, loop_switch r st s = Some (true, s2).
Proof.
  unfold loop_switch. intros -> -> Hst.
  destruct st; cbn [negb]; try (eexists; reflexivity). congruence.
Qed.

Lemma loop_switch_error (r : EvaluationResults) (s : TrackerLocation) :
  reason r <> PublishReason.IMMEDIATE ->
  option_map fst (loop_switch r GnssState.ERROR s) = Some false
  \/ loop_switch r GnssState.ERROR s = None.
Proof.
  unfold loop_switch. destruct (reason r); intros H;
    [right; reflexivity | left; reflexivity | left; reflexivity | congruence].
Qed.

Section PassProofs.
Context {L : TrackerLimits} {W : CloudWriter}.

Lemma location_publish_loop_safe (rval : Z) (malloc_ok : bool) (s : TrackerLocation) :
  _config_state_loop_safe (location_publish rval malloc_ok s)
  = _config_state_loop_safe s.
Proof. unfold location_publish, issue_location_publish_callbacks. frame. Qed.

(** The state the sampler is handed has the configuration of the start of
    the pass. *)
Lemma loop_sample_status (e : LoopEnv) (s : TrackerLocation) :
  exists pre,
    loop_sample e s = loopLocation e pre
    /\ _config_state pre = _config_state s
    /\ _firstLockSec pre = _firstLockSec s
    /\ cloud_writer pre = cloud_writer s
    /\ (location_publish_retry_str s = None -> cloud_of pre = cloud_of s).
Proof.
  unfold loop_sample. cbv zeta. eexists. split; [reflexivity|].
  set (x := set_config_state_loop_safe
              (_config_state (set_loopSampleTick (millis_tick e) s))
              (loop_sync e (_loopSampleTick s =? 0)
                 (_config_state (set_loopSampleTick (millis_tick e) s))
                 (set_loopSampleTick (millis_tick e) s))).
  assert (Hx : _config_state x = _config_state s
               /\ _firstLockSec x = _firstLockSec s
               /\ cloud_of x = cloud_of s).
  { subst x. unfold loop_sync. repeat break_match; repeat split. }
  destruct Hx as [Hc [Hl Hcloud]]. clearbody x.
  destruct (cloud_of_fields _ _ Hcloud) as [Hw [_ [_ [_ [_ Hr]]]]].
  pose proof (schedule_of_fields _ _
                (location_publish_schedule (retry_rval e) (retry_malloc_ok e) x))
    as [Hc' _].
  destruct (location_publish_static (retry_rval e) (retry_malloc_ok e) x)
    as [_ Hl'].
  pose proof (location_publish_writer (retry_rval e) (retry_malloc_ok e) x) as Hw'.
  destruct (is_some (location_publish_retry_str x) && connected_retry e) eqn:Hretry.
  - rewrite Hc', Hl', Hw'. repeat split; try assumption.
    intros Hnone. rewrite Hr, Hnone in Hretry. discriminate Hretry.
  - repeat split; try assumption. intros _. exact Hcloud.
Qed.

Lemma loopLocation_first_lock (e : LoopEnv) (s : TrackerLocation) :
  let s' := snd (loopLocation e s) in
  _firstLockSec s' = _firstLockSec s
  \/ (_firstLockSec s = 0
      /\ _firstLockSec s' = uptime_lock e
      /\ fst (fst (loopLocation e s)) = GnssState.ON_LOCKED_STABLE).
Proof.
  cbv zeta. unfold loopLocation.
  destruct (negb (gnss (_config_state s))); [left; reflexivity|]. cbv zeta.
  assert (Hfix : _firstLockSec (snd (loopLocation_fix e s)) = _firstLockSec s).
  { unfold loopLocation_fix.
    repeat break_match; cbn [snd]; rewrite ?triggerLocPub_first_lock;
      reflexivity. }
  generalize dependent (loopLocation_fix e s).
  intros [[st cur_loc] x] Hfix. cbn [fst snd] in *.
  destruct (GnssState.eqb st GnssState.ON_LOCKED_STABLE) eqn:Hst; cbn [andb];
    [|left; exact Hfix].
  destruct (negb (GnssState.eqb st (_lastGnssState x))); [|left; exact Hfix].
  destruct (Z.eqb_spec (_firstLockSec x) 0) as [Hz|Hz].
  - right. split; [congruence|]. split.
    + break_match; state_simpl; rewrite ?triggerLocPub_first_lock; reflexivity.
    + destruct st; first [discriminate Hst | reflexivity].
  - left. break_match; state_simpl; rewrite ?triggerLocPub_first_lock;
      exact Hfix.
Qed.

Lemma loopLocation_status (e : LoopEnv) (s : TrackerLocation) :
  fst (fst (loopLocation e s)) = GnssState.ERROR
  <-> gnss (_config_state s) = true
      /\ status_powered e = true
      /\ getLocation_rc e <> SYSTEM_ERROR_NONE.
Proof.
  unfold loopLocation, loopLocation_fix. cbv zeta.
  destruct (gnss (_config_state s)), (status_powered e),
           (Z.eqb_spec (getLocation_rc e) SYSTEM_ERROR_NONE),
           (locked (getLocation_point e)), (stable (getLocation_point e));
    cbn [negb fst]; split; intros H; try discriminate H;
    try reflexivity; try (repeat split; congruence);
    destruct H as [H1 [H2 H3]]; congruence.
Qed.

(** What the head of a pass, up to and including the sampling, leaves. *)
Lemma loop_sample_effects (e : LoopEnv) (s : TrackerLocation) :
  let s1 := snd (loop_sample e s) in
  schedule_of s1 = schedule_of s
  /\ cloud_writer s1 = cloud_writer s
  /\ (location_publish_retry_str s = None -> cloud_of s1 = cloud_of s)
  /\ (_firstLockSec s1 = _firstLockSec s
      \/ (_firstLockSec s = 0
          /\ _firstLockSec s1 = uptime_lock e
          /\ fst (fst (loop_sample e s)) = GnssState.ON_LOCKED_STABLE))
  /\ (forall name, In name (_pending_triggers s) -> In name (_pending_triggers s1))
  /\ (fst (fst (loop_sample e s)) = GnssState.ERROR
      <-> gnss (_config_state s) = true
          /\ status_powered e = true
          /\ getLocation_rc e <> SYSTEM_ERROR_NONE).
Proof.
  cbv zeta.
  split; [apply loop_sample_schedule|].
  split.
  { destruct (loop_sample_status e s) as (pre & -> & _ & _ & Hw & _).
    pose proof (proj2 (loopLocation_schedule e pre)) as Hc.
    destruct (cloud_of_fields _ _ Hc) as [-> _]. exact Hw. }
  split.
  { intros Hnone.
    destruct (loop_sample_status e s) as (pre & -> & _ & _ & _ & Hc).
    rewrite (proj2 (loopLocation_schedule e pre)). apply Hc. exact Hnone. }
  split.
  { destruct (loop_sample_status e s) as (pre & -> & _ & Hl & _).
    rewrite <- Hl. apply loopLocation_first_lock. }
  split; [intros name; apply loop_sample_keeps|].
  destruct (loop_sample_status e s) as (pre & -> & Hc & _).
  rewrite loopLocation_status, Hc. reflexivity.
Qed.

(** The tail of a pass that is not skipped: the evaluation, the network
    request, the [switch] and the publish block. *)
Lemma loop_pass (e : LoopEnv) (s : TrackerLocation) :
  loop_skipped e s = false ->
  let s1 := snd (loop_sample e s) in
  let st := fst (fst (loop_sample e s)) in
  let cur_loc := snd (fst (loop_sample e s)) in
  let r := evaluatePublish (uptime_evaluate e) (connecting_time e) s1 in
  exists s1n,
    schedule_of s1n = schedule_of s1
    /\ cloud_of s1n = cloud_of s1
    /\ _firstLockSec s1n = _firstLockSec s1
    /\ _pending_triggers s1n = _pending_triggers s1
    /\ loop e s
       = match loop_switch r st s1n with
         | None => s1n
         | Some (publishNow, s2) =>
             if publishNow && connected_publish e
             then loop_publish e cur_loc s2 else s2
         end
    /\ loop_publishes e s
       = match loop_switch r st s1n with
         | Some (publishNow, _) => publishNow && connected_publish e
         | None => false
         end.
Proof.
  intros Hrun. cbv zeta. unfold loop, loop_publishes. rewrite Hrun. cbv zeta.
  unfold loop_act. cbv zeta.
  set (s1 := snd (loop_sample e s)).
  set (st := fst (fst (loop_sample e s))).
  set (r := evaluatePublish (uptime_evaluate e) (connecting_time e) s1).
  exists (if negb (full_wake_cycle e) && networkNeeded r
          then enableNetwork (uptime_network e) s1 else s1).
  clearbody s1 st r.
  split; [break_match; reflexivity|].
  split; [break_match; reflexivity|].
  split; [break_match; reflexivity|].
  split; [break_match; reflexivity|].
  split; [reflexivity|].
  match goal with
  | |- _ = match loop_switch r st ?x with _ => _ end =>
      pose proof (loop_switch_publishNow r st s1 x) as Hsame;
      destruct (loop_switch r st s1) as [[b1 a1]|],
               (loop_switch r st x) as [[b2 a2]|];
      cbn in Hsame; congruence
  end.
Qed.

End PassProofs.

Section PassTheorems.
Context {L : TrackerLimits} {W : CloudWriter}.

(** X17.  The time of the first lock is written at most once: a pass of
    [loop] leaves [_firstLockSec] as it was, or, when it was still 0 and
    the sampling of this pass classified the fix as locked and stable,
    sets it to the uptime read at the lock. *)
Theorem first_lock_written_once (e : LoopEnv) (s : TrackerLocation) :
  _firstLockSec (loop e s) = _firstLockSec s
  \/ (_firstLockSec s = 0
      /\ _firstLockSec (loop e s) = uptime_lock e
      /\ fst (fst (loop_sample e s)) = GnssState.ON_LOCKED_STABLE).
Proof.
  destruct (loop_skipped e s) eqn:Hrun;
    [left; unfold loop; rewrite Hrun; reflexivity|].
  pose proof (loop_pass e s Hrun) as Hpass. cbv zeta in Hpass.
  destruct Hpass as (s1n & _ & _ & Hfl & _ & -> & _).
  pose proof (loop_sample_effects e s) as Hs. cbv zeta in Hs.
  destruct Hs as (_ & _ & _ & Hs1 & _).
  rewrite <- Hfl in Hs1.
  match goal with
  | |- context [loop_switch ?r ?st s1n] =>
      destruct (loop_switch r st s1n) as [[b s2]|] eqn:Hsw
  end; [|exact Hs1].
  destruct (loop_switch_effects _ _ _ _ _ Hsw) as (_ & Hk & _).
  rewrite <- Hk in Hs1.
  destruct (b && connected_publish e); [|exact Hs1].
  match goal with
  | |- context [loop_publish e ?c s2] =>
      pose proof (loop_publish_effects e c s2) as Hp
  end.
  cbv zeta in Hp. destruct Hp as (_ & _ & Hk' & _).
  rewrite Hk'. exact Hs1.
Qed.

(** X18.  A pass of [loop] that does not reach the publish block leaves
    the last publish time, the monotonic anchor and the writer's events as
    they were, and drops no pending trigger name. *)
Theorem unpublished_pass_keeps (e : LoopEnv) (s : TrackerLocation) :
  loop_publishes e s = false ->
  _last_location_publish_sec (loop e s) = _last_location_publish_sec s
  /\ _monotonic_publish_sec (loop e s) = _monotonic_publish_sec s
  /\ cloud_writer (loop e s) = cloud_writer s
  /\ (forall name, In name (_pending_triggers s) ->
                   In name (_pending_triggers (loop e s))).
Proof.
  destruct (loop_skipped e s) eqn:Hrun;
    [intros _; unfold loop; rewrite Hrun; repeat split; auto|].
  pose proof (loop_pass e s Hrun) as Hpass. cbv zeta in Hpass.
  destruct Hpass as (s1n & Hsch & Hcl & _ & Hpt & -> & ->).
  pose proof (loop_sample_effects e s) as Hs. cbv zeta in Hs.
  destruct Hs as (Hsch1 & Hw1 & _ & _ & Hkeep & _).
  rewrite Hsch1 in Hsch.
  apply schedule_of_fields in Hsch.
  destruct Hsch as (_ & _ & _ & _ & _ & Hl & Hm & _).
  destruct (cloud_of_fields _ _ Hcl) as (Hw & _).
  rewrite Hw1 in Hw. rewrite <- Hpt in Hkeep.
  match goal with
  | |- context [loop_switch ?r ?st s1n] =>
      destruct (loop_switch r st s1n) as [[b s2]|] eqn:Hsw
  end; [|intros _; repeat split; assumption].
  destruct (loop_switch_effects _ _ _ _ _ Hsw)
    as (Hc2 & _ & Hl2 & Hm2 & _ & _ & Hkeep2 & _).
  destruct (cloud_of_fields _ _ Hc2) as (Hw2 & _).
  intros ->. rewrite Hl2, Hm2, Hw2. repeat split; auto.
Qed.


(** X20.  While the fix source is enabled, powered and answers the read
    of the fix with an error, no pass of [loop] publishes unless an
    immediate request is pending: the TIME and TRIGGERS verdicts are not
    acted on in the fix state ERROR. *)
Theorem fix_error_blocks_publish (e : LoopEnv) (s : TrackerLocation) :
  gnss (_config_state s) = true ->
  status_powered e = true ->
  getLocation_rc e <> SYSTEM_ERROR_NONE ->
  _pending_immediate s = false ->
  loop_publishes e s = false.
Proof.
  intros Hgnss Hpower Hrc Him.
  destruct (loop_skipped e s) eqn:Hrun;
    [unfold loop_publishes; rewrite Hrun; reflexivity|].
  pose proof (loop_pass e s Hrun) as Hpass. cbv zeta in Hpass.
  destruct Hpass as (s1n & _ & _ & _ & _ & _ & ->).
  pose proof (loop_sample_effects e s) as Hs. cbv zeta in Hs.
  destruct Hs as (Hsch1 & _ & _ & _ & _ & Hst).
  rewrite (proj2 Hst) by auto.
  apply schedule_of_fields in Hsch1.
  destruct Hsch1 as (_ & _ & _ & _ & Hi1 & _).
  set (r := evaluatePublish (uptime_evaluate e) (connecting_time e)
              (snd (loop_sample e s))).
  assert (Hr : reason r <> PublishReason.IMMEDIATE).
  { intros Hr. apply evaluatePublish_IMMEDIATE in Hr. congruence. }
  destruct (loop_switch_error r s1n Hr) as [Hsw | Hsw].
  - destruct (loop_switch r GnssState.ERROR s1n) as [[b s2]|];
      [|reflexivity].
    cbn in Hsw. injection Hsw as ->. reflexivity.
  - rewrite Hsw. reflexivity.
Qed.


(** X22.  The maximum interval is a deadline: with no immediate request,
    the first publish done, a maximum interval configured and the anchor
    older than the maximum interval plus the lock timeout, a pass that is
    not skipped, finds the cloud connected and the fix source not in error
    publishes with the verdict TIME, whether or not a lock is held. *)
Theorem publish_deadline (e : LoopEnv) (s : TrackerLocation) :
  loop_skipped e s = false ->
  connected_publish e = true ->
  _pending_immediate s = false ->
  _first_publish s && negb (_pending_first_publish s) = false ->
  interval_max_seconds (_config_state s) <> 0 ->
  u32 (interval_max_seconds (_config_state s)) + LockTimeoutSec
    <= elapsed_since_anchor (uptime_evaluate e) s ->
  gnss (_config_state s) = false \/ status_powered e = false
    \/ getLocation_rc e = SYSTEM_ERROR_NONE ->
  loop_publishes e s = true /\ loop_reason e s = PublishReason.TIME.
Proof.
  intros Hrun Hconn Him Hfirst Hmax Hlate Hfix.
  pose proof (loop_pass e s Hrun) as Hpass. cbv zeta in Hpass.
  destruct Hpass as (s1n & _ & _ & _ & _ & _ & ->).
  pose proof (loop_sample_effects e s) as Hs. cbv zeta in Hs.
  destruct Hs as (Hsch1 & _ & _ & _ & _ & Hst).
  apply schedule_of_fields in Hsch1.
  destruct Hsch1 as (Hc1 & Hf1 & Hpf1 & _ & Hi1 & _ & Hm1 & _).
  unfold loop_reason.
  assert (Hr : evaluatePublish (uptime_evaluate e) (connecting_time e)
                 (snd (loop_sample e s))
               = mkEvaluationResults PublishReason.TIME true false).
  { rewrite evaluatePublish_steady by (rewrite ?Hi1, ?Hf1, ?Hpf1; auto).
    cbv zeta. unfold elapsed_since_anchor in *. rewrite Hc1, Hm1.
    pose proof (u32_range (interval_max_seconds (_config_state s))) as Hb.
    pose proof (u32_range (uptime_evaluate e - _monotonic_publish_sec s)) as Ha.
    unfold LockTimeoutSec in *.
    apply Z.eqb_neq in Hmax. rewrite Hmax. cbn [negb andb].
    destruct (Z.leb_spec (u32 (interval_max_seconds (_config_state s)))
                (u32 (uptime_evaluate e - _monotonic_publish_sec s)));
      [|lia].
    rewrite u32_small by lia.
    destruct (Z.ltb_spec
                (u32 (uptime_evaluate e - _monotonic_publish_sec s)
                 - u32 (interval_max_seconds (_config_state s))) 10);
      [lia | reflexivity]. }
  rewrite Hr.
  assert (Hok : fst (fst (loop_sample e s)) <> GnssState.ERROR).
  { intros Herr. apply Hst in Herr. destruct Herr as (Hg & Hp & Hrc).
    destruct Hfix as [Hfix | [Hfix | Hfix]]; congruence. }
  destruct (loop_switch_time
              (mkEvaluationResults PublishReason.TIME true false)
              (fst (fst (loop_sample e s))) s1n eq_refl eq_refl Hok)
    as [s2 ->].
  rewrite Hconn. split; reflexivity.
Qed.



(** X24.  A retry copy that is still held when a new publish is due is
    given up: with the connection down at the head of the pass, the
    publishing pass calls the callbacks pending for the old report with
    TIMEOUT and the text of the copy, hands the cloud service the new
    report and not the copy, and, the service accepting it, holds no copy
    afterwards and has the registered callbacks pending for the new
    report. *)
Theorem stale_retry_times_out (e : LoopEnv) (s : TrackerLocation) (text : string) :
  location_publish_retry_str s = Some text ->
  connected_retry e = false ->
  loop_publishes e s = true ->
  publish_rval e = 0 ->
  let s' := loop e s in
  callback_log s'
  = callback_log s
    ++ call_all CloudServiceStatus.TIMEOUT None (Some text)
         (pendingLocPubCallbacks s)
  /\ location_publish_retry_str s' = None
  /\ pendingLocPubCallbacks s' = locPubCallbacks s
  /\ cloud_sent s' = cloud_sent s ++ [writer_buffer (cloud_writer s')].
Proof.
  intros Hretry Hdown Hpub Hrval. cbv zeta.
  destruct (loop_skipped e s) eqn:Hrun;
    [unfold loop_publishes in Hpub; rewrite Hrun in Hpub; discriminate|].
  pose proof (loop_pass e s Hrun) as Hpass. cbv zeta in Hpass.
  destruct Hpass as (s1n & _ & Hcl & _ & _ & Hloop & Hpubs).
  rewrite Hpubs in Hpub. rewrite Hloop. clear Hloop Hpubs.
  rewrite (loop_sample_cloud e s Hdown) in Hcl.
  match goal with
  | |- context [loop_switch ?r ?st s1n] =>
      destruct (loop_switch r st s1n) as [[b s2]|] eqn:Hsw;
      [|discriminate Hpub]
  end.
  rewrite Hpub.
  destruct (loop_switch_effects _ _ _ _ _ Hsw) as (Hc2 & _).
  rewrite Hcl in Hc2.
  destruct (cloud_of_fields _ _ Hc2) as (_ & Hsent0 & Hlog & Hpend0 & Hreg & Hr).
  match goal with
  | |- context [loop_publish e ?c s2] =>
      pose proof (loop_publish_effects e c s2) as Hp
  end.
  cbv zeta in Hp. destruct Hp as (_ & _ & _ & _ & _ & Hsent).
  destruct (Hsent Hrval) as (Hnone & Hpend & Hlog' & Hsent').
  rewrite Hr, Hretry in Hlog'.
  rewrite Hnone, Hpend, Hlog', Hsent', Hreg, Hlog, Hpend0, Hsent0.
  repeat split.
Qed.

(** The evaluator with nothing pending and the first publish out of the
    way decides by the maximum interval alone. *)
Lemma evaluatePublish_nothing_pending (now connecting : Z) (s : TrackerLocation) :
  _pending_immediate s = false ->
  _first_publish s && negb (_pending_first_publish s) = false ->
  _pending_triggers s = [] ->
  reason (evaluatePublish now connecting s) = PublishReason.NONE
  \/ reason (evaluatePublish now connecting s) = PublishReason.TIME.
Proof.
  intros Him Hfirst Hnil.
  rewrite evaluatePublish_steady by assumption. cbv zeta.
  rewrite Hnil. cbn [nonempty andb].
  break_match; [right | left]; reflexivity.
Qed.

(** X25.  After a pass that reached the publish block the evaluator, asked
    at any later time, answers NONE or TIME: no immediate request, no
    trigger and no first publish is left to act on until one is requested
    again. *)
Theorem after_publish_only_time (e : LoopEnv) (s : TrackerLocation)
    (now connecting : Z) :
  loop_publishes e s = true ->
  reason (evaluatePublish now connecting (loop e s)) = PublishReason.NONE
  \/ reason (evaluatePublish now connecting (loop e s)) = PublishReason.TIME.
Proof.
  intros Hpub.
  destruct (loop_skipped e s) eqn:Hrun;
    [unfold loop_publishes in Hpub; rewrite Hrun in Hpub; discriminate|].
  pose proof (loop_pass e s Hrun) as Hpass. cbv zeta in Hpass.
  destruct Hpass as (s1n & Hsch & _ & _ & _ & Hloop & Hpubs).
  rewrite Hpubs in Hpub. rewrite Hloop. clear Hloop Hpubs.
  apply schedule_of_fields in Hsch.
  destruct Hsch as (_ & _ & _ & _ & Hi1 & _).
  set (r := evaluatePublish (uptime_evaluate e) (connecting_time e)
              (snd (loop_sample e s))) in *.
  destruct (loop_switch r (fst (fst (loop_sample e s))) s1n)
    as [[b s2]|] eqn:Hsw; [|discriminate Hpub].
  rewrite Hpub.
  destruct (loop_switch_effects _ _ _ _ _ Hsw)
    as (_ & _ & _ & _ & _ & _ & _ & _ & Himm & Hother & _).
  match goal with
  | |- context [loop_publish e ?c s2] =>
      pose proof (loop_publish_effects e c s2) as Hp;
      pose proof (loop_publish_triggers e c s2) as Hnil
  end.
  cbv zeta in Hp. destruct Hp as (_ & Hi' & _ & Hflags & _).
  apply evaluatePublish_nothing_pending; [|exact Hflags|exact Hnil].
  rewrite Hi'.
  assert (Hcase : reason r = PublishReason.IMMEDIATE
                  \/ reason r <> PublishReason.IMMEDIATE)
    by (destruct (reason r); first [left; reflexivity | right; discriminate]).
  destruct Hcase as [Hr|Hr].
  - apply Himm. exact Hr.
  - rewrite (Hother Hr), Hi1.
    destruct (_pending_immediate (snd (loop_sample e s))) eqn:Hflag;
      [|reflexivity].
    exfalso. apply Hr. apply evaluatePublish_IMMEDIATE. exact Hflag.
Qed.

End PassTheorems.

(** An instance: a radius trigger met after the minimum interval with the
    connection down. *)
Lemma unpublished_pass_keeps_witness :
  let s := triggered_state in
  let s' := loop (sample_env 1100 false) s in
  _last_location_publish_sec s' = 1000
  /\ _monotonic_publish_sec s' = 1000
  /\ cloud_writer s' = []
  /\ In "radius"%string (_pending_triggers s').
Proof.
  cbv zeta.
  destruct (unpublished_pass_keeps (sample_env 1100 false) triggered_state
              eq_refl) as (Hl & Hm & Hw & Hkeep).
  split; [exact Hl|]. split; [exact Hm|]. split; [exact Hw|].
  apply Hkeep. left. reflexivity.
Defined.


(** An instance: a powered fix source that answers with an error while a
    radius trigger is due. *)
Lemma fix_error_blocks_publish_witness :
  loop_publishes
    (mkLoopEnv 1100000 1100000 true true 0 true
       true (-1) LocationPoint_default false false
       1100 false 1100 90 true 1100 true (mkRadio [] [] []) 1100 0 true)
    (set_config_state
       (mkConfig 60 600 false false false false true false false false)
       triggered_state) = false.
Proof.
  apply fix_error_blocks_publish;
    [reflexivity | reflexivity | discriminate | reflexivity].
Defined.


(** An instance: the anchor at 1000, the maximum interval 600, the pass at
    uptime 1700. *)
Lemma publish_deadline_witness :
  loop_publishes (sample_env 1700 true) sample_state = true
  /\ loop_reason (sample_env 1700 true) sample_state = PublishReason.TIME.
Proof.
  apply publish_deadline; try reflexivity.
  - discriminate.
  - vm_compute. discriminate.
  - left. reflexivity.
Defined.


(** An instance: a copy of an old report held, callback 1 pending for it,
    and a radius trigger published at uptime 1100 with the connection up
    only at the publish. *)
Lemma stale_retry_times_out_witness :
  let e := mkLoopEnv 1100000 1100000 false false 0 true
             false 0 LocationPoint_default false false
             1100 false 1100 90 true 1100 true (mkRadio [] [] []) 1100 0 true in
  let s := set_location_publish_retry_str (Some "old"%string)
             (set_pendingLocPubCallbacks [1%nat] triggered_state) in
  callback_log (loop e s)
  = [mkCallbackCall 1%nat CloudServiceStatus.TIMEOUT None (Some "old"%string)]
  /\ location_publish_retry_str (loop e s) = None.
Proof.
  cbv zeta.
  match goal with
  | |- callback_log (loop ?e ?s) = _ /\ _ =>
      destruct (stale_retry_times_out e s "old" eq_refl eq_refl eq_refl eq_refl)
        as (Hlog & Hnone & _)
  end.
  split; [exact Hlog | exact Hnone].
Defined.

(** An instance: after the publish at uptime 1100, the evaluator asked at
    uptime 1200. *)
Lemma after_publish_only_time_witness :
  reason (evaluatePublish 1200 90 (loop (sample_env 1100 true) triggered_state))
  = PublishReason.NONE
  \/ reason (evaluatePublish 1200 90 (loop (sample_env 1100 true) triggered_state))
     = PublishReason.TIME.
Proof.
  apply (after_publish_only_time (sample_env 1100 true) triggered_state
           1200 90 eq_refl).
Defined.

(** ** The tower block and the modem's answers *)

Lemma last_cons_default {A : Type} (x d : A) (l : list A) :
  last (x :: l) d = last l x.
Proof.
  revert x d. induction l as [|y l IH]; intros x d; [reflexivity|].
  change (last (x :: y :: l) d) with (last (y :: l) d).
  rewrite (IH y d), (IH y x). reflexivity.
Qed.

Section TowerProofs.
Context {L : TrackerLimits} {W : CloudWriter} {E : SystemErrors}.

(** Every line of the serving-cell answer overwrites [servingTower]: the
    last one stays, and with no line at all the tower of the report before
    does. *)
Lemma serving_keeps_last (rsp : list CellularServing) (s : TrackerLocation) :
  fold_left serving_cb rsp s
  = set_servingTower (last rsp (servingTower s)) s.
Proof.
  revert s. induction rsp as [|parsed rsp IH]; intros s.
  - destruct s; reflexivity.
  - cbn [fold_left]. rewrite IH, last_cons_default.
    unfold serving_cb. state_simpl. reflexivity.
Qed.

(** X26.  With the tower block enabled, the serving tower the block works
    on is the last line of the serving-cell answer, or the tower left by
    the report before when the modem gave no line.  If its access
    technology is NONE the block writes nothing, returns 0 and leaves the
    tower list alone; otherwise it appends one towers array holding the
    serving tower and then the neighbours of this answer only, in order,
    cut after [TrackerLocationMaxTowerSend - 1] of them. *)
Theorem buildTowerInfo_block (r : Radio) (size : Z) (s : TrackerLocation) :
  tower (_config_state_loop_safe s) = true ->
  let t := last (serving_rsp r) (servingTower s) in
  let sent :=
    firstn (Z.to_nat (TrackerLocationMaxTowerSend - 1)) (neighbor_rsp r) in
  let s' := snd (buildTowerInfo r size s) in
  servingTower s' = t
  /\ (serving_rat t = RadioAccessTechnology.NONE ->
      cloud_writer s' = cloud_writer s
      /\ towerList s' = towerList s
      /\ fst (buildTowerInfo r size s) = 0)
  /\ (serving_rat t <> RadioAccessTechnology.NONE ->
      cloud_writer s'
      = cloud_writer s
        ++ [Jname "towers"; JbeginArray] ++ serving_object t
        ++ flat_map neighbor_object sent ++ [JendArray]
      /\ towerList s' = neighbor_rsp r
      /\ Z.of_nat (List.length sent) <= Z.max 0 (TrackerLocationMaxTowerSend - 1)).
Proof.
  intros Htower. cbv zeta. unfold buildTowerInfo. rewrite Htower.
  cbn [negb]. cbv zeta. rewrite serving_keeps_last.
  set (t := last (serving_rsp r) (servingTower s)). clearbody t.
  state_simpl.
  destruct (serving_rat t) eqn:Hrat; rewrite ?neighbor_collects;
    state_simpl; (split; [reflexivity|]); split; intros Hcase;
    try congruence.
  - split; [reflexivity|]. split; [reflexivity|]. apply u32_sub_diag.
  - rewrite counted_firstn, <- !app_assoc.
    split; [reflexivity|]. split; [reflexivity|].
    rewrite length_firstn. lia.
  - rewrite counted_firstn, <- !app_assoc.
    split; [reflexivity|]. split; [reflexivity|].
    rewrite length_firstn. lia.
  - rewrite counted_firstn, <- !app_assoc.
    split; [reflexivity|]. split; [reflexivity|].
    rewrite length_firstn. lia.
Qed.

(** X27.  The last line of the serving-cell answer decides: when
    [parseServeCell] turns it down, the serving tower is left cleared,
    whatever the lines before it gave, and the tower block writes nothing
    and returns 0. *)
Theorem unparsed_serving_line_no_towers
    (lines : list ServingScan) (bad : ServingScan)
    (neighbors : list CellularNeighbors) (aps : list WiFiAccessPoint)
    (size : Z) (s : TrackerLocation) :
  tower (_config_state_loop_safe s) = true ->
  fst (parseServeCell bad) <> SYSTEM_ERROR_NONE ->
  let r := mkRadio (serving_answer (lines ++ [bad])) neighbors aps in
  let s' := snd (buildTowerInfo r size s) in
  servingTower s' = CellularServing_default
  /\ cloud_writer s' = cloud_writer s
  /\ fst (buildTowerInfo r size s) = 0.
Proof.
  intros Htower Hbad. cbv zeta.
  assert (Hout : snd (parseServeCell bad) = CellularServing_default).
  { revert Hbad. unfold parseServeCell.
    repeat break_match; cbn [fst snd]; congruence. }
  unfold buildTowerInfo. rewrite Htower. cbn [negb]. cbv zeta.
  rewrite serving_keeps_last. cbn [serving_rsp].
  unfold serving_answer. rewrite map_app. cbn [map].
  rewrite last_last, Hout. state_simpl. cbn [serving_rat CellularServing_default].
  state_simpl. split; [reflexivity|]. split; [reflexivity|].
  apply u32_sub_diag.
Qed.

(** X28.  With error codes that differ from [SYSTEM_ERROR_NONE], what
    [neighbor_cb] appends to the tower list does not depend on the
    contents of its local: no line adds more than one entry, and every
    entry added carries an access technology other than NONE and the five
    numbers of a line that [parseCell] accepted. *)
Theorem neighbor_answer_parsed
    (scratch other : CellularNeighbors) (lines : list NeighborScan) :
  SYSTEM_ERROR_NOT_ENOUGH_DATA <> SYSTEM_ERROR_NONE ->
  SYSTEM_ERROR_NOT_SUPPORTED <> SYSTEM_ERROR_NONE ->
  neighbor_answer scratch lines = neighbor_answer other lines
  /\ (List.length (neighbor_answer scratch lines) <= List.length lines)%nat
  /\ forall n, In n (neighbor_answer scratch lines) ->
       neighbor_rat n <> RadioAccessTechnology.NONE
       /\ exists scan,
            In scan lines
            /\ 6 <= neighbor_nitems scan
            /\ earfcn n = neighbor_scan_earfcn scan
            /\ neighborId n = neighbor_scan_neighborId scan
            /\ signalPower n = neighbor_scan_signalPower scan.
Proof.
  intros Hdata Hsupp.
  assert (Hline : forall scan out,
            (if fst (parseCell scan out) =? SYSTEM_ERROR_NONE
             then [snd (parseCell scan out)] else [])
            = if neighbor_nitems scan <? 6 then []
              else match radio_access (neighbor_scan_rat scan) with
                   | Some rat =>
                       [mkCellularNeighbors rat
                          (neighbor_scan_earfcn scan)
                          (neighbor_scan_neighborId scan)
                          (neighbor_scan_signalQuality scan)
                          (neighbor_scan_signalPower scan)
                          (neighbor_scan_signalStrength scan)]
                   | None => []
                   end).
  { intros scan out. unfold parseCell.
    apply Z.eqb_neq in Hdata. apply Z.eqb_neq in Hsupp.
    destruct (neighbor_nitems scan <? 6); cbn [fst snd];
      [rewrite Hdata; reflexivity|].
    destruct (radio_access (neighbor_scan_rat scan)); cbn [fst snd];
      [rewrite Z.eqb_refl | rewrite Hsupp]; reflexivity. }
  unfold neighbor_answer.
  induction lines as [|scan lines IH]; cbn [flat_map].
  - split; [reflexivity|]. split; [apply Nat.le_refl|]. intros n [].
  - destruct IH as (IHeq & IHlen & IHin).
    rewrite (Hline scan scratch), (Hline scan other), IHeq.
    split; [reflexivity|].
    rewrite <- IHeq.
    split.
    + rewrite length_app. cbn [List.length].
      repeat break_match; cbn [List.length]; lia.
    + intros n Hn. apply in_app_or in Hn. destruct Hn as [Hn|Hn].
      * destruct (Z.ltb_spec (neighbor_nitems scan) 6) as [Hlt|Hge];
          [destruct Hn|].
        destruct (radio_access (neighbor_scan_rat scan)) as [rat|] eqn:Hrat;
          [|destruct Hn].
        destruct Hn as [<-|[]]. cbn [neighbor_rat earfcn neighborId signalPower].
        split.
        -- revert Hrat. unfold radio_access.
           repeat break_match; intros Hrat; inversion Hrat; discriminate.
        -- exists scan. split; [left; reflexivity|]. repeat split. exact Hge.
      * destruct (IHin n Hn) as (Hne & scan' & Hin & Hrest).
        split; [exact Hne|]. exists scan'. split; [right; exact Hin | exact Hrest].
Qed.

End TowerProofs.

(** An instance: three neighbours answered under a limit of three towers
    to send, the serving tower among them. *)
Lemma buildTowerInfo_block_witness :
  let r := mkRadio [sample_serving] three_neighbors [] in
  cloud_writer (snd (buildTowerInfo r 1000 tower_state))
  = [Jname "towers"; JbeginArray] ++ serving_object sample_serving
    ++ flat_map neighbor_object (firstn 2 three_neighbors) ++ [JendArray]
  /\ towerList (snd (buildTowerInfo r 1000 tower_state)) = three_neighbors.
Proof.
  cbv zeta.
  destruct (buildTowerInfo_block (mkRadio [sample_serving] three_neighbors [])
              1000 tower_state eq_refl) as (_ & _ & Hblock).
  destruct Hblock as (Hw & Hlist & _); [discriminate|].
  split; [exact Hw | exact Hlist].
Defined.

(** An instance: a line that parses followed by one that is too short. *)
Lemma unparsed_serving_line_no_towers_witness :
  let r := mkRadio (serving_answer [good_serving_line; short_serving_line])
             three_neighbors [] in
  cloud_writer (snd (buildTowerInfo r 1000 tower_state)) = []
  /\ fst (buildTowerInfo r 1000 tower_state) = 0.
Proof.
  cbv zeta.
  destruct (unparsed_serving_line_no_towers [good_serving_line]
              short_serving_line three_neighbors [] 1000 tower_state eq_refl)
    as (_ & Hw & Hret); [vm_compute; discriminate|].
  split; [exact Hw | exact Hret].
Defined.

(** An instance: of three lines one parses, one is too short and one
    names an access technology that is not supported. *)
Lemma neighbor_answer_parsed_witness :
  (List.length
     (neighbor_answer
        (mkCellularNeighbors RadioAccessTechnology.NONE 0 0 0 0 0)
        neighbor_lines) <= 3)%nat.
Proof.
  destruct (neighbor_answer_parsed
              (mkCellularNeighbors RadioAccessTechnology.NONE 0 0 0 0 0)
              (mkCellularNeighbors RadioAccessTechnology.LTE 1 1 1 1 1)
              neighbor_lines)
    as (_ & Hlen & _); [vm_compute; discriminate | vm_compute; discriminate|].
  exact Hlen.
Defined.

(** ** The enhanced location command *)

Lemma source_named_not_NONE (text : string) (source : LocationSource.t) :
  source_named text = Some source -> source <> LocationSource.NONE.
Proof.
  unfold source_named. repeat break_match; intros H; inversion H; discriminate.
Qed.

(** The walk over the src array. *)
Lemma buildEnhLocation_sources_result
    (elements : list JSONValue) (point : EnhancedPoint) :
  let r := buildEnhLocation_sources elements point in
  (fst r = 0 \/ fst r = - EINVAL)
  /\ (fst r = 0 <-> forallb source_element_ok elements = true)
  /\ point_type (snd r) = point_type point
  /\ exists added,
       point_sources (snd r) = point_sources point ++ added
       /\ ~ In LocationSource.NONE added.
Proof.
  cbv zeta. revert point.
  induction elements as [|element elements IH]; intros point.
  - cbn. split; [left; reflexivity|]. split; [split; reflexivity|].
    split; [reflexivity|]. exists []. rewrite app_nil_r. split; [reflexivity|].
    intros [].
  - assert (Hbad : forall p : EnhancedPoint,
              (fst (- EINVAL, p) = 0 \/ fst (- EINVAL, p) = - EINVAL)
              /\ (fst (- EINVAL, p) = 0 <-> false = true)
              /\ point_type (snd (- EINVAL, p)) = point_type p
              /\ exists added,
                   point_sources (snd (- EINVAL, p)) = point_sources p ++ added
                   /\ ~ In LocationSource.NONE added).
    { intros p. cbn [fst snd]. split; [right; reflexivity|].
      split; [split; intros H; discriminate H|].
      split; [reflexivity|]. exists []. rewrite app_nil_r.
      split; [reflexivity | intros []]. }
    destruct element as [ |b|v|text|inner|members];
      cbn [buildEnhLocation_sources forallb source_element_ok isString andb];
      try apply Hbad.
    destruct (source_named text) as [source|] eqn:Hsource; [|apply IH].
    destruct (IH (append_source source point))
      as (Hrc & Hok & Htype & added & Hadded & Hnone).
    split; [exact Hrc|]. split; [exact Hok|]. split; [exact Htype|].
    exists (source :: added). split.
    + rewrite Hadded. cbn [append_source point_sources].
      rewrite <- app_assoc. reflexivity.
    + intros [Hin|Hin]; [|exact (Hnone Hin)].
      exact (source_named_not_NONE _ _ Hsource Hin).
Qed.

(** X29.  [buildEnhLocation] returns 0 or [-EINVAL], and 0 exactly when
    every member named lat, lon or h_acc is a number and every member
    named src is an array of strings; whatever it returns, it leaves the
    type of the point alone and only appends to its sources, never the
    source NONE. *)
Theorem buildEnhLocation_result (node : JSONValue) (point : EnhancedPoint) :
  let r := buildEnhLocation node point in
  (fst r = 0 \/ fst r = - EINVAL)
  /\ (fst r = 0 <-> forallb member_ok (object_members node) = true)
  /\ point_type (snd r) = point_type point
  /\ exists added,
       point_sources (snd r) = point_sources point ++ added
       /\ ~ In LocationSource.NONE added.
Proof.
  cbv zeta. unfold buildEnhLocation.
  generalize (object_members node). intros members. revert point.
  induction members as [|[name value] members IH]; intros point.
  - cbn. split; [left; reflexivity|]. split; [split; reflexivity|].
    split; [reflexivity|]. exists []. rewrite app_nil_r. split; [reflexivity|].
    intros [].
  - assert (Hbad : (fst (- EINVAL, point) = 0 \/ fst (- EINVAL, point) = - EINVAL)
              /\ (fst (- EINVAL, point) = 0 <-> false = true)
              /\ point_type (snd (- EINVAL, point)) = point_type point
              /\ exists added,
                   point_sources (snd (- EINVAL, point))
                   = point_sources point ++ added
                   /\ ~ In LocationSource.NONE added).
    { cbn [fst snd]. split; [right; reflexivity|].
      split; [split; intros H; discriminate H|].
      split; [reflexivity|]. exists []. rewrite app_nil_r.
      split; [reflexivity | intros []]. }
    cbn [buildEnhLocation_members forallb]. unfold member_ok at 1.
    cbn [fst snd].
    destruct (String.eqb name "lat");
      [destruct value; cbn [isNumber andb]; try apply Hbad;
       apply (IH (set_latitude _ point))|].
    destruct (String.eqb name "lon");
      [destruct value; cbn [isNumber andb]; try apply Hbad;
       apply (IH (set_longitude _ point))|].
    destruct (String.eqb name "h_acc");
      [destruct value; cbn [isNumber andb]; try apply Hbad;
       apply (IH (set_horizontalAccuracy _ point))|].
    destruct (String.eqb name "src"); [|apply IH].
    destruct value as [ |b|v|text|elements|inner];
      cbn [isArray andb array_elements]; try apply Hbad.
    cbv zeta.
    destruct (buildEnhLocation_sources_result elements point)
      as (Hrc & Hok & Htype & added & Hadded & Hnone).
    cbv zeta in *.
    destruct (buildEnhLocation_sources elements point) as [rc listed].
    cbn [fst snd] in *.
    destruct (Z.eqb_spec rc 0) as [->|Hne].
    + rewrite (proj1 Hok eq_refl). cbn [andb].
      destruct (IH listed) as (Hrc' & Hok' & Htype' & added' & Hadded' & Hnone').
      split; [exact Hrc'|]. split; [exact Hok'|].
      split; [congruence|].
      exists (added ++ added'). split.
      * rewrite Hadded', Hadded, app_assoc. reflexivity.
      * intros Hin. apply in_app_or in Hin. tauto.
    + cbn [fst snd]. split; [exact Hrc|].
      split.
      * split; [intros H; contradiction|].
        intros H. apply andb_prop in H. destruct H as [H _].
        exfalso. apply Hne. apply Hok. exact H.
      * split; [exact Htype|]. exists added. split; assumption.
Qed.

Lemma find_loc_enhanced_from
    (members : list (string * JSONValue)) (found : option JSONValue) :
  let step := fun (found : option JSONValue) (item : string * JSONValue) =>
                if String.eqb (fst item) "loc-enhanced" && isObject (snd item)
                then Some (snd item) else found in
  (existsb is_loc_enhanced members = false ->
   fold_left step members found = found)
  /\ (existsb is_loc_enhanced members = true ->
      exists locObject, fold_left step members found = Some locObject).
Proof.
  cbv zeta. revert found.
  induction members as [|item members IH]; intros found; cbn [fold_left existsb].
  - split; [reflexivity | discriminate].
  - unfold is_loc_enhanced at 1 3.
    destruct (String.eqb (fst item) "loc-enhanced" && isObject (snd item));
      cbn [orb].
    + split; [discriminate|]. intros _.
      destruct (existsb is_loc_enhanced members) eqn:Hrest.
      * apply (proj2 (IH _) eq_refl).
      * exists (snd item). apply (proj1 (IH _) eq_refl).
    + apply IH.
Qed.

(** X30.  [enhanced_cb] always returns 0.  When the root object has no
    member named loc-enhanced that is an object it calls nobody; when it
    has one it calls every registered callback once, in order, all with
    the same point, whose type is CLOUD and whose sources do not include
    NONE, whether or not [buildEnhLocation] accepted the object. *)
Theorem enhanced_cb_calls (callbacks : list callback) (root : JSONValue) :
  let calls := snd (enhanced_cb callbacks root) in
  fst (enhanced_cb callbacks root) = 0
  /\ (existsb is_loc_enhanced (object_members root) = false -> calls = [])
  /\ (existsb is_loc_enhanced (object_members root) = true ->
      exists point,
        calls = map (fun cb => (cb, point)) callbacks
        /\ map fst calls = callbacks
        /\ point_type point = LocationType.CLOUD
        /\ ~ In LocationSource.NONE (point_sources point)).
Proof.
  cbv zeta. unfold enhanced_cb, find_loc_enhanced.
  pose proof (find_loc_enhanced_from (object_members root) None) as Hfind.
  cbv zeta in Hfind. destruct Hfind as [Hnone Hsome].
  split; [break_match; reflexivity|].
  split.
  - intros Hno. rewrite (Hnone Hno). reflexivity.
  - intros Hyes. destruct (Hsome Hyes) as [locObject ->]. cbv zeta.
    match goal with
    | |- context [buildEnhLocation locObject ?p] =>
        destruct (buildEnhLocation_result locObject p)
          as (_ & _ & Htype & added & Hadded & Hclean);
        exists (snd (buildEnhLocation locObject p))
    end.
    cbn [snd]. split; [reflexivity|].
    split.
    { rewrite map_map. cbn [fst]. apply map_id. }
    cbv zeta in *. split; [rewrite Htype; reflexivity|].
    rewrite Hadded. cbn [point_sources EnhancedPoint_default app]. exact Hclean.
Qed.
